(** * Empagliflozin PBPK/PD model: rate laws, excretion chain, dosing
      segments and fit filters

    A shallow embedding of the declarative SBML sub-models
    ([model_kidney.py], [model_intestine.py]), of the multi-dose
    simulation of [heise2013a.py], of [empagliflozin_pk.py] and of the
    control filter of [fit_experiments.py].

    Numbers of the SBML models are real numbers: the decimal literals
    of the source are read as the exact decimals they denote, and the
    rate formulas are given their mathematical (MathML) meaning over
    [R]. *)

From Stdlib Require Import Reals Lra Lia String Ascii List Bool Arith.
From Stdlib Require Import DecimalString QArith.
From stdpp Require Import gmap strings.
Import ListNotations.

Local Open Scope list_scope.
Local Open Scope string_scope.

(** ** Formulas of the SBML factory

    The source writes rate laws and rules as strings, which the factory
    parses to MathML.  They are embedded as the syntax tree the string
    denotes, over named symbols. *)

Module Formula.

Inductive expr : Type :=
| Num (r : R)
| Var (x : string)
| Add (a b : expr)
| Sub (a b : expr)
| Mul (a b : expr)
| Div (a b : expr)
| Neg (a : expr)
| Power (a b : expr)
| Piecewise (x1 : expr) (y1 : cond) (z : expr)
with cond : Type :=
| Gt (a b : expr).

Coercion Var : string >-> expr.

Declare Scope formula_scope.
Delimit Scope formula_scope with fml.
Bind Scope formula_scope with expr cond.
Notation "a + b" := (Add a b) : formula_scope.
Notation "a - b" := (Sub a b) : formula_scope.
Notation "a * b" := (Mul a b) : formula_scope.
Notation "a / b" := (Div a b) : formula_scope.
Notation "- a" := (Neg a) : formula_scope.
Notation "a > b" := (Gt a b) : formula_scope.

(** A valuation gives every symbol (species, parameter, compartment,
    rule variable) its current value. *)
Definition valuation : Type := string -> R.

Definition upd (s : valuation) (x : string) (v : R) : valuation :=
  fun y => if String.eqb x y then v else s y.

(** MathML [power(x, y)] for a base [x >= 0]: [0] to a non-zero power
    is [0], [x^0] is [1], and a positive base is [exp (y * ln x)].  The
    formulas of the models raise concentrations only. *)
Definition power (x y : R) : R :=
  if Req_dec_T x 0 then (if Req_dec_T y 0 then 1%R else 0%R)
  else Rpower x y.

Fixpoint eval (s : valuation) (e : expr) : R :=
  match e with
  | Num r => r
  | Var x => s x
  | Add a b => (eval s a + eval s b)%R
  | Sub a b => (eval s a - eval s b)%R
  | Mul a b => (eval s a * eval s b)%R
  | Div a b => (eval s a / eval s b)%R
  | Neg a => (- eval s a)%R
  | Power a b => power (eval s a) (eval s b)
  | Piecewise x1 (Gt a b) z =>
      if Rgt_dec (eval s a) (eval s b) then eval s x1 else eval s z
  end.

End Formula.
Import Formula.

(** ** Objects of the SBML factory

    Only the fields that determine the equations are kept; names,
    annotations, SBO terms and port flags are display metadata. *)

Record Compartment : Type := mkCompartment {
  c_sid : string;
  c_value : option R;          (* [None] is [np.nan] *)
  c_unit : string;
}.

Record Species : Type := mkSpecies {
  s_sid : string;
  s_initialConcentration : R;
  s_compartment : string;
  s_hasOnlySubstanceUnits : bool;
  s_boundaryCondition : bool;
}.

Record ModelParameter : Type := mkParameter {
  p_sid : string;
  p_value : R;
  p_unit : string;
}.

Record AssignmentRule : Type := mkAssignmentRule {
  r_variable : string;
  r_value : expr;
}.

Record RateRule : Type := mkRateRule {
  rr_variable : string;
  rr_value : expr;
}.

(** [equation="a -> b [m]"]: reactant, product, modifiers. *)
Record Reaction : Type := mkReaction {
  rx_sid : string;
  rx_compartment : string;
  rx_reactant : string;
  rx_product : string;
  rx_modifiers : list string;
  rx_pars : list ModelParameter;
  rx_formula : expr;
}.

Record Model : Type := mkModel {
  compartments : list Compartment;
  species : list Species;
  parameters : list ModelParameter;
  rules : list AssignmentRule;
  rate_rules : list RateRule;
  reactions : list Reaction;
}.

Definition get_compartment (m : Model) (sid : string) : option Compartment :=
  find (fun c => String.eqb (c_sid c) sid) (compartments m).

Definition get_species (m : Model) (sid : string) : option Species :=
  find (fun x => String.eqb (s_sid x) sid) (species m).

Definition get_parameter (m : Model) (sid : string) : option ModelParameter :=
  find (fun p => String.eqb (p_sid p) sid) (parameters m).

Definition get_reaction (m : Model) (sid : string) : option Reaction :=
  find (fun r => String.eqb (rx_sid r) sid) (reactions m).

Definition get_rule (m : Model) (v : string) : option AssignmentRule :=
  find (fun r => String.eqb (r_variable r) v) (rules m).

(** Volume of a compartment of the model. *)
Definition volume (m : Model) (sid : string) : option R :=
  match get_compartment m sid with
  | Some c => c_value c
  | None => None
  end.

(** Assignment rules are evaluated in the order of the source, which
    lists every rule after the rules it reads. *)
Definition apply_rules (rs : list AssignmentRule) (s : valuation) : valuation :=
  fold_left (fun s r => upd s (r_variable r) (eval s (r_value r))) rs s.

(** Rate of a reaction in a state: its formula, with the rule variables
    assigned. *)
Definition rate (m : Model) (r : Reaction) (s : valuation) : R :=
  eval (apply_rules (rules m) s) (rx_formula r).

(** The state a model declares: every parameter at its value, every
    species at its initial concentration, every compartment at its
    volume. *)
Definition declared (m : Model) : valuation :=
  fun x =>
    match get_parameter m x, get_species m x, get_compartment m x with
    | Some p, _, _ => p_value p
    | None, Some sp, _ => s_initialConcentration sp
    | None, None, Some c => default 0%R (c_value c)
    | None, None, None => 0%R
    end.

(** ** Kidney model ([model_kidney.py]) *)

Module Kidney.

Definition kidney_compartments : list Compartment := [
  mkCompartment "Vext" (Some 1.5%R) "liter";
  mkCompartment "Vki" (Some 0.3%R) "liter";
  mkCompartment "Vmem" None "m2";
  mkCompartment "Vurine" (Some 1.0%R) "liter"
].

Definition kidney_species : list Species := [
  mkSpecies "emp_ext" 0.0 "Vext" false false;
  mkSpecies "emp_urine" 0.0 "Vurine" true false;
  mkSpecies "eg_ext" 0.0 "Vext" false false;
  mkSpecies "eg_urine" 0.0 "Vurine" true false;
  (* pharmacodynamics *)
  mkSpecies "fpg" 5.0 "Vext" false true;
  mkSpecies "glc_urine" 0.0 "Vurine" true false
].

Definition EMPEX_k : ModelParameter := mkParameter "EMPEX_k" 0.003 "per_min".
Definition EGEX_k : ModelParameter := mkParameter "EGEX_k" 0.010 "per_min".

Definition kidney_parameters : list ModelParameter := [
  mkParameter "f_renal_function" 1.0 "dimensionless";
  mkParameter "Mr_glc" 180 "g_per_mole";
  mkParameter "cf_mg_per_g" 1000 "mg_per_g";
  mkParameter "cf_ml_per_l" 1000 "ml_per_l";
  mkParameter "GFR_healthy" 100 "ml_per_min";
  mkParameter "RTG_E50" 71.9E-7 "mM";
  mkParameter "RTG_gamma" 1 "dimensionless";
  mkParameter "RTG_base" 12.5 "mM";
  mkParameter "RTG_m_fpg" 0.5 "dimensionless";
  mkParameter "RTG_max_inhibition" 0.75 "dimensionless";
  mkParameter "fpg_healthy" 5 "mM"
].

Definition RTG_fpg : AssignmentRule :=
  mkAssignmentRule "RTG_fpg"
    ("RTG_base" + "RTG_m_fpg" * ("fpg" - "fpg_healthy")).

Definition RTG_delta : AssignmentRule :=
  mkAssignmentRule "RTG_delta" ("RTG_fpg" * "RTG_max_inhibition").

Definition RTG : AssignmentRule :=
  mkAssignmentRule "RTG"
    ("RTG_fpg" - "RTG_delta" * Power "emp_ext" "RTG_gamma"
                 / (Power "RTG_E50" "RTG_gamma" + Power "emp_ext" "RTG_gamma")).

Definition GFR : AssignmentRule :=
  mkAssignmentRule "GFR" ("f_renal_function" * "GFR_healthy").

Definition UGE : AssignmentRule :=
  mkAssignmentRule "UGE" ("glc_urine" * "Mr_glc" / "cf_mg_per_g").

Definition kidney_rules : list AssignmentRule :=
  ([RTG_fpg; RTG_delta; RTG; GFR] ++ [UGE])%list.

Definition EMPEX : Reaction :=
  mkReaction "EMPEX" "Vki" "emp_ext" "emp_urine" [] [EMPEX_k]
    ("f_renal_function" * "EMPEX_k" * "Vki" * "emp_ext").

Definition EGEX : Reaction :=
  mkReaction "EGEX" "Vki" "eg_ext" "eg_urine" [] [EGEX_k]
    ("f_renal_function" * "EGEX_k" * "Vki" * "eg_ext").

(** [piecewise(x1, y1, z)]: if [y1] then [x1], otherwise [z]. *)
Definition GLCEX : Reaction :=
  mkReaction "GLCEX" "Vki" "fpg" "glc_urine" ["emp_ext"] []
    (Piecewise ("GFR" / "cf_ml_per_l" * ("fpg" - "RTG"))
               ("fpg" > "RTG")
               (Num 0)).

Definition kidney_reactions : list Reaction :=
  ([EMPEX; EGEX] ++ [GLCEX])%list.

Definition model_kidney : Model :=
  mkModel kidney_compartments kidney_species
          (kidney_parameters
             ++ flat_map rx_pars kidney_reactions)%list
          kidney_rules [] kidney_reactions.

(** The rate of glucose excretion in the words of the specification,
    [max(0, GFR / unit_conversion * (plasma_glucose - RTG))], to be
    compared with the formula of [GLCEX]. *)
Definition GLCEX_max (s : valuation) : R :=
  Rmax 0 (s "GFR" / s "cf_ml_per_l" * (s "fpg" - s "RTG")).

(** The value of the rule variable [RTG] in a state: the first three
    rules, in order. *)
Definition RTG_value (s : valuation) : R :=
  apply_rules [RTG_fpg; RTG_delta; RTG] s "RTG".

Definition RTG_fpg_value (s : valuation) : R :=
  apply_rules [RTG_fpg] s "RTG_fpg".

End Kidney.

(** ** Intestine model ([model_intestine.py]) *)

Module Intestine.

(** [str(k)] of an f-string, for a non-negative integer. *)
Definition str (k : nat) : string :=
  NilEmpty.string_of_uint (Nat.to_uint k).

(** [str.upper()] on ASCII text. *)
Definition upper_ascii (c : ascii) : ascii :=
  let n := nat_of_ascii c in
  if ((97 <=? n) && (n <=? 122))%nat then ascii_of_nat (n - 32) else c.

Fixpoint upper (s : string) : string :=
  match s with
  | EmptyString => EmptyString
  | String c s' => String (upper_ascii c) (upper s')
  end.

Definition base_compartments : list Compartment := [
  mkCompartment "Vext" (Some 1.0%R) "liter";
  mkCompartment "Vgu" (Some 1.2825%R) "liter";
  mkCompartment "Vlumen" (Some (1.2825 * 0.9)%R) "liter";
  mkCompartment "Vfeces" (Some 1%R) "liter";
  mkCompartment "Ventero" (Some 1.0%R) "liter";
  mkCompartment "Vapical" None "m2";
  mkCompartment "Vbaso" None "m2";
  mkCompartment "Vstomach" (Some 1%R) "liter"
].

Definition base_species : list Species := [
  mkSpecies "emp_stomach" 0.0 "Vstomach" true true;
  mkSpecies "emp_lumen" 0.0 "Vlumen" false false;
  mkSpecies "emp_feces" 0.0 "Vfeces" true false;
  mkSpecies "emp_ext" 0.0 "Vext" false false;
  mkSpecies "eg_lumen" 0.0 "Vlumen" false false;
  mkSpecies "eg_feces" 0.0 "Vfeces" true false
].

Definition base_parameters : list ModelParameter := [
  mkParameter "F_emp_abs" 0.65 "dimensionless";
  mkParameter "EMPABS_k" 0.01 "per_min";
  mkParameter "METEXC_k" 0.001 "per_min"
].

Definition absorption : AssignmentRule :=
  mkAssignmentRule "absorption" ("EMPABS_k" * "Vgu" * "emp_lumen").

Definition EMPABS : Reaction :=
  mkReaction "EMPABS" "Vapical" "emp_lumen" "emp_ext" [] []
    ("F_emp_abs" * "absorption").

Definition EMPEXC : Reaction :=
  mkReaction "EMPEXC" "Vlumen" "emp_lumen" "emp_intestine_0" [] []
    ((Num 1 - "F_emp_abs") * "absorption").

Definition EGEXC : Reaction :=
  mkReaction "EGEXC" "Vlumen" "eg_lumen" "eg_intestine_0" [] []
    ("METEXC_k" * "Vgu" * "eg_lumen").

Definition base_model : Model :=
  mkModel base_compartments base_species base_parameters
          ([] ++ [absorption])%list [] [EMPABS; EMPEXC; EGEXC].

Definition substance_info : list (string * string) := [
  ("emp", "empagliflozin");
  ("eg", "empagliflozin glucuronide")
].

Definition n_chain : nat := 5.

Definition append_compartment (m : Model) (c : Compartment) : Model :=
  mkModel (compartments m ++ [c])%list (species m) (parameters m)
          (rules m) (rate_rules m) (reactions m).

Definition append_species (m : Model) (x : Species) : Model :=
  mkModel (compartments m) (species m ++ [x])%list (parameters m)
          (rules m) (rate_rules m) (reactions m).

Definition append_reaction (m : Model) (r : Reaction) : Model :=
  mkModel (compartments m) (species m) (parameters m)
          (rules m) (rate_rules m) (reactions m ++ [r])%list.

(** Objects created in the body of the loops, for stage [k] and
    substance [sid]. *)
Definition stage_compartment (n_chain k : nat) : Compartment :=
  mkCompartment ("Vintestine_" ++ str k)
                (Some (1.2825 * 0.9 / INR n_chain)%R) "liter".

Definition stage_species (k : nat) (sid : string) : Species :=
  mkSpecies (sid ++ "_intestine_" ++ str k) 0.0
            ("Vintestine_" ++ str k) false false.

Definition stage_reaction (n_chain k : nat) (sid : string) : Reaction :=
  let product :=
    if (k <? n_chain - 1)%nat
    then sid ++ "_intestine_" ++ str (k + 1)
    else sid ++ "_feces" in
  mkReaction (upper sid ++ "EXC_" ++ str k)
             ("Vintestine_" ++ str k)
             (sid ++ "_intestine_" ++ str k) product [] []
             ("METEXC_k" * Var ("Vintestine_" ++ str k)
                         * Var (sid ++ "_intestine_" ++ str k)).

(** Body of [for sid, name in substance_info.items()]. *)
Definition add_substance (n_chain k : nat) (m : Model)
    (item : string * string) : Model :=
  let sid := fst item in
  let m1 := append_species m (stage_species k sid) in
  append_reaction m1 (stage_reaction n_chain k sid).

(** Body of [for k in range(n_chain)]. *)
Definition add_stage (n_chain : nat) (m : Model) (k : nat) : Model :=
  let m1 := append_compartment m (stage_compartment n_chain k) in
  fold_left (add_substance n_chain k) substance_info m1.

Definition build_chain (n_chain : nat) (m : Model) : Model :=
  fold_left (add_stage n_chain) (seq 0 n_chain) m.

(** The compartments of the chain, recognised by their identifier. *)
Definition is_stage_compartment (c : Compartment) : bool :=
  String.prefix "Vintestine_" (c_sid c).

(** The reactions that leave a stage of the chain of [sid]. *)
Definition is_stage_reaction (sid : string) (r : Reaction) : bool :=
  String.prefix (sid ++ "_intestine_") (rx_reactant r).

Definition dose_parameters : list ModelParameter := [
  mkParameter "PODOSE_emp" 0 "mg";
  mkParameter "Ka_dis_emp" 2.0 "per_hr";
  mkParameter "Mr_emp" 450.909 "g_per_mole"
].

Definition dissolution_emp : Reaction :=
  mkReaction "dissolution_emp" "Vgu" "emp_stomach" "emp_lumen" [] []
    ("Ka_dis_emp" / Num 60 * "PODOSE_emp" / "Mr_emp").

Definition PODOSE_emp_rate : RateRule :=
  mkRateRule "PODOSE_emp" (- "dissolution_emp" * "Mr_emp").

Definition model_intestine : Model :=
  let m := build_chain n_chain base_model in
  mkModel (compartments m) (species m)
          (parameters m ++ dose_parameters)%list
          (rules m) (rate_rules m ++ [PODOSE_emp_rate])%list
          (reactions m ++ [dissolution_emp])%list.

End Intestine.

(** ** Simulation experiments ([base_experiment.py], [heise2013a.py]) *)

Module Experiment.

(** [Q_(magnitude, unit)]: a quantity of the unit registry. *)
Record Quantity : Type := Q_ {
  magnitude : R;
  units : string;
}.

(** A dict literal [{**base, k1: v1, ..., kn: vn}]: later keys win. *)
Definition dict_literal (base : gmap string Quantity)
    (items : list (string * Quantity)) : gmap string Quantity :=
  fold_left (fun d kv => <[fst kv := snd kv]> d) items base.

Record Timecourse : Type := mkTimecourse {
  tc_start : Z;
  tc_end : Z;               (* [min] *)
  tc_steps : Z;
  tc_changes : gmap string Quantity;
}.

Record TimecourseSim : Type := mkTimecourseSim {
  timecourses : list Timecourse;
}.

(** [d[key]] on a class-level dict; [None] is [KeyError]. *)
Fixpoint getitem (d : list (string * R)) (key : string) : option R :=
  match d with
  | [] => None
  | (k, v) :: d' => if String.eqb k key then Some v else getitem d' key
  end.

Definition _default_changes : gmap string Quantity :=
  dict_literal ∅ [
    (* PK *)
    ("ftissue_emp", Q_ 0.3832934310804301 "l/min");
    ("Kp_emp", Q_ 0.573747586082099 "dimensionless");
    ("GU__EMPABS_k", Q_ 0.007439770316739214 "1/min");
    ("GU__METEXC_k", Q_ 0.0008998014627372138 "1/min");
    ("LI__EMP2EG_Vmax", Q_ 0.012490394598835162 "mmol/min/l");
    ("LI__EMP2EG_Km_emp", Q_ 0.24667266695912698 "mM");
    ("LI__EGEX_k", Q_ 0.014033858848302178 "1/min");
    ("LI__EGBIEX_k", Q_ 0.00735528424770721 "1/min");
    ("KI__EMPEX_k", Q_ 0.11795401426241267 "1/min");
    ("KI__EGEX_k", Q_ 1.4994487519741735 "1/min");
    (* PD *)
    ("KI__RTG_E50", Q_ 1.7063026384665662e-06 "mM");
    ("KI__RTG_base", Q_ 12.397702595815295 "mM");
    ("KI__RTG_max_inhibition", Q_ 0.6842787312726607 "dimensionless");
    ("KI__RTG_m_fpg", Q_ 0.8981650940449492 "dimensionless")
  ].

Definition default_changes : gmap string Quantity := _default_changes.

(** The cumulative urine and feces amounts among the selections of
    [data()]: what has been excreted since they were last reset. *)
Definition excretion_amounts : list string := [
  (* urine *)
  "Aurine_emp"; "Aurine_eg"; "Aurine_emptot";
  (* feces *)
  "Afeces_emp"; "Afeces_eg"; "Afeces_emptot";
  (* glucose *)
  "KI__glc_urine"
].

(** Molecular weights, [Mr.emp] and [Mr.eg]. *)
Definition Mr_emp : Quantity := Q_ 450.909 "g/mole".
Definition Mr_eg : Quantity := Q_ 627 "g/mole".

End Experiment.

Module Heise2013a.
Import Experiment.

Definition fpgs : list (string * R) := [
  ("Placebo", 152.1 / 18);
  ("EMP10", 164.8 / 18);
  ("EMP25", 166.3 / 18);
  ("EMP100", 149.4 / 18)
]%R.

Definition bodyweights : list (string * R) := [
  ("Placebo", 89.3);
  ("EMP10", 89.6);
  ("EMP25", 89.6);
  ("EMP100", 92.4)
]%R.

Definition doses : list (string * R) := [
  ("Placebo", 0);
  ("EMP10", 10);
  ("EMP25", 25);
  ("EMP100", 100)
]%R.

Definition interventions : list string := map fst bodyweights.

Definition tc0 (bodyweight fpg dose : R) : Timecourse :=
  mkTimecourse 0 (24 * 60) 500
    (dict_literal default_changes [
       ("BW", Q_ bodyweight "kg");
       ("[KI__fpg]", Q_ fpg "mM");
       ("PODOSE_emp", Q_ dose "mg");
       ("KI__glc_urine", Q_ 0 "mmole")
     ]).

Definition tc1 (dose : R) : Timecourse :=
  mkTimecourse 0 (24 * 60) 500
    (dict_literal ∅ [
       ("PODOSE_emp", Q_ dose "mg");
       ("KI__glc_urine", Q_ 0 "mmole")
     ]).

Definition tc2 (dose : R) : Timecourse :=
  mkTimecourse 0 (100 * 60) 500
    (dict_literal ∅ [
       ("PODOSE_emp", Q_ dose "mg");
       ("KI__glc_urine", Q_ 0 "mmole")
     ]).

(** Body of the loop over [self.doses.items()]. *)
Definition simulation (intervention : string) (dose : R)
    : option TimecourseSim :=
  match getitem bodyweights intervention, getitem fpgs intervention with
  | Some bodyweight, Some fpg =>
      Some (mkTimecourseSim
              ([tc0 bodyweight fpg dose]
                 ++ replicate 26 (tc1 dose) ++ [tc2 dose])%list)
  | _, _ => None
  end.

Fixpoint simulations_loop (items : list (string * R))
    (tcsims : list (string * TimecourseSim))
    : option (list (string * TimecourseSim)) :=
  match items with
  | [] => Some tcsims
  | (intervention, dose) :: items' =>
      match simulation intervention dose with
      | Some sim =>
          simulations_loop items' (tcsims ++ [(intervention, sim)])%list
      | None => None
      end
  end.

Definition simulations : option (list (string * TimecourseSim)) :=
  simulations_loop doses [].

(** A segment resets an amount when its changes set it to zero. *)
Definition zeroes (tc : Timecourse) (sid : string) : Prop :=
  exists u, tc_changes tc !! sid = Some (Q_ 0 u).

(** Minutes between two output samples of a segment. *)
Definition sampling_interval (tc : Timecourse) : R :=
  (IZR (tc_end tc - tc_start tc) / IZR (tc_steps tc))%R.

End Heise2013a.

(** ** Pharmacokinetic parameters ([empagliflozin_pk.py]) *)

Module PK.
Import Experiment.

(** A cell of a pk dict: a number or a text. *)
Inductive cell : Type :=
| Number (r : R)
| Text (t : string).

(** The result of a simulation with one scanned dimension: every
    selection is a two-dimensional array, time by scan index. *)
Record XResult : Type := mkXResult {
  _redop_dims : list string;           (* scanned dimensions *)
  values : string -> list (list R);    (* [xres[key].values] *)
  dim_mean_time : list R;              (* [xres.dim_mean("time")] *)
}.

(** [xres[key].sel({scandim: k}).values]: the time course at scan
    index [k]. *)
Definition sel (a : list (list R)) (k : nat) : list R :=
  map (fun row => nth k row 0%R) a.

Definition substance_ids : list string := ["emp"; "eg"; "emptot"].

Definition substances : list string :=
  ["empagliflozin"; "empagliflozin-glucuronide"; "total empagliflozin"].

Section Extractor.

(** [TimecoursePK(time, concentration, substance, dose, ...).pk.to_dict()]
    of the pharmacokinetics library: time, concentration, substance,
    dose and minimal threshold to the dict of the metrics. *)
Variable TimecoursePK :
  list R -> list R -> string -> R -> R -> gmap string cell.

(** Body of [for k_sid, sid in enumerate(substance_ids)]. *)
Definition pk_row (xres : XResult) (k_dose : nat) (dose_mmole : R)
    (k_sid : nat) (sid : string) : gmap string cell :=
  let substance := nth k_sid substances "" in
  let c_vec := sel (values xres ("[Cve_" ++ sid ++ "]")) k_dose in
  let pk_dict :=
    TimecoursePK (dim_mean_time xres) c_vec substance dose_mmole 1e8%R in
  <["substance" := Text substance]> pk_dict.

(** Body of [for k_dose, dose in enumerate(dose_vec)]. *)
Definition pk_rows_of_dose (xres : XResult) (k_dose : nat) (dose : R)
    : list (gmap string cell) :=
  let dose_mmole := (dose / magnitude Mr_emp)%R in
  imap (pk_row xres k_dose dose_mmole) substance_ids.

(** The rows of the returned data frame; [None] is the [IndexError] of
    an input without scanned dimension or without time points. *)
Definition calculate_empagliflozin_pk (xres : XResult)
    : option (list (gmap string cell)) :=
  match _redop_dims xres with
  | [] => None
  | scandim :: _ =>
      match values xres "PODOSE_emp" with
      | [] => None
      | dose_vec :: _ =>
          Some (concat (imap (pk_rows_of_dose xres) dose_vec))
      end
  end.

End Extractor.

End PK.

(** ** Fit mappings and the control filter ([metadata.py],
       [fit_experiments.py]) *)

Module Fit.

Inductive Tissue : Type := PLASMA | SERUM | URINE | FECES.

Inductive Route : Type := PO | IV.

Inductive Dosing : Type := SINGLE | MULTIPLE | CONSTANT_INFUSION.

Inductive ApplicationForm : Type :=
| TABLET | SOLUTION | CAPSULE | MIXED | ApplicationForm_NR.

Inductive Health : Type :=
| HEALTHY | T2DM | HYPERTENSION | CIRRHOSIS | RENAL_IMPAIRMENT
| HEPATIC_IMPAIRMENT | CHF | T2DM_RENAL_IMPAIRMENT
| T2DM_HEPATIC_IMPAIRMENT.

Inductive Fasting : Type := NR | FASTED | FED.

Inductive Coadministration : Type :=
| NONE | CYCLOSPORINE | EVOGLIPTIN | HCTZ | LINAGLIPTIN | LOBEGLITAZONE
| METFORMIN | PROBENECID | RIFAMPICIN | SITAGLIPTIN | TORASEMIDE
| WARFARIN.

#[global] Instance Route_eq_dec : EqDecision Route.
Proof. solve_decision. Defined.
#[global] Instance Health_eq_dec : EqDecision Health.
Proof. solve_decision. Defined.
#[global] Instance Fasting_eq_dec : EqDecision Fasting.
Proof. solve_decision. Defined.
#[global] Instance Coadministration_eq_dec : EqDecision Coadministration.
Proof. solve_decision. Defined.

Record EmpagliflozinMappingMetaData : Type := mkMetaData {
  tissue : Tissue;
  route : Route;
  application_form : ApplicationForm;
  dosing : Dosing;
  health : Health;
  fasting : Fasting;
  coadministration : Coadministration;
  outlier : bool;
}.

(** The generated [__init__] of the dataclass: the last two fields are
    keyword arguments with defaults. *)
Definition EmpagliflozinMappingMetaData_init
    (tissue : Tissue) (route : Route) (application_form : ApplicationForm)
    (dosing : Dosing) (health : Health) (fasting : Fasting)
    (coadministration : option Coadministration) (outlier : option bool)
    : EmpagliflozinMappingMetaData :=
  mkMetaData tissue route application_form dosing health fasting
             (default NONE coadministration) (default false outlier).

Record FitMapping : Type := mkFitMapping {
  reference : string;       (* dataset of the reference data *)
  observable : string;      (* task and selection of the simulation *)
  metadata : EmpagliflozinMappingMetaData;
}.

(** Return control experiments/mappings. *)
Definition filter_control (fit_mapping_key : string)
    (fit_mapping : FitMapping) : bool :=
  let metadata := metadata fit_mapping in
  (* only PO and IV *)
  if negb (bool_decide (route metadata ∈ [PO; IV])) then false
  (* filter coadministration *)
  else if negb (bool_decide (coadministration metadata = NONE)) then false
  (* filter health *)
  else if negb (bool_decide
                  (health metadata ∈ [HEALTHY; T2DM; HYPERTENSION]))
  then false
  (* only fasted subjects *)
  else if negb (bool_decide (fasting metadata ∈ [FASTED; NR])) then false
  (* remove outliers *)
  else if outlier metadata then false
  else true.

End Fit.

(** ** Reference states *)

Module States.
Import Kidney.

(** The declared kidney model with a negative renal function and a
    plasma glucose of 30 mM. *)
Definition renal_negative : valuation :=
  upd (upd (declared model_kidney) "f_renal_function" (-1)%R) "fpg" 30%R.

Definition renal_negative_state : valuation :=
  apply_rules kidney_rules renal_negative.

(** The declared kidney model with a negative baseline threshold and
    the drug at its EC50. *)
Definition negative_baseline : valuation :=
  upd (upd (declared model_kidney) "RTG_base" (-1)%R) "emp_ext" 71.9E-7%R.

(** The declared kidney model at a plasma glucose of 30 mM, above the
    threshold, with its rule variables assigned. *)
Definition hyperglycemic_state : valuation :=
  apply_rules kidney_rules (upd (declared model_kidney) "fpg" 30%R).

(** The declared kidney model without renal function. *)
Definition anuric : valuation :=
  upd (declared model_kidney) "f_renal_function" 0%R.

(** The declared kidney model, a diabetic plasma glucose and the drug
    at its EC50. *)
Definition treated : valuation :=
  upd (upd (declared model_kidney) "fpg" 8%R) "emp_ext" 71.9E-7%R.

Definition treated_state : valuation :=
  apply_rules kidney_rules treated.

(** The declared kidney model at a plasma glucose of 30 mM. *)
Definition hyperglycemic : valuation :=
  upd (declared model_kidney) "fpg" 30%R.


(** The declared intestine model with 1 mM of the drug in the first
    stage of the chain. *)
Definition stage_loaded : valuation :=
  upd (declared Intestine.model_intestine) "emp_intestine_0" 1%R.

End States.

(** ** Reference inputs *)

Module Inputs.
Import PK Fit.

(** A scan over two oral doses with two time points. *)
Definition dose_scan : XResult :=
  mkXResult ["dose"]
    (fun key =>
       if String.eqb key "PODOSE_emp"
       then [[10; 25]; [4; 11]]%R
       else [[0; 0]; [1; 3]]%R)
    [0; 60]%R.

(** A stand-in for the pharmacokinetics library that reports the
    dose and the substance only. *)
Definition dose_only (time concentration : list R) (substance : string)
    (dose min_treshold : R) : gmap string cell :=
  <["substance" := Text "?"]> {["dose" := Number dose]}.

(** The metadata of the urinary glucose mapping of Heise2013a. *)
Definition heise2013a_uge : FitMapping :=
  mkFitMapping "uge_EMP10" "task_EMP10"
    (EmpagliflozinMappingMetaData_init
       URINE PO TABLET MULTIPLE T2DM NR (Some NONE) None).

End Inputs.

(** ** Fluxes and rates of change

    In a formula the identifier of a reaction denotes its rate.  The
    rates are assigned in the order of the source, after the
    assignment rules; every reaction has one reactant and one product
    with stoichiometry one. *)

Module Kinetics.

Definition with_rates (m : Model) (s : valuation) : valuation :=
  fold_left (fun v r => upd v (rx_sid r) (eval v (rx_formula r)))
            (reactions m) (apply_rules (rules m) s).

(** Rate of a reaction, with the rates of the reactions it names. *)
Definition flux (m : Model) (r : Reaction) (s : valuation) : R :=
  eval (with_rates m s) (rx_formula r).

(** What one reaction adds to the amount of a species per minute. *)
Definition contribution (m : Model) (s : valuation) (sp : string)
    (r : Reaction) : R :=
  ((if String.eqb (rx_product r) sp then flux m r s else 0)
   - (if String.eqb (rx_reactant r) sp then flux m r s else 0))%R.

Definition net_flux (m : Model) (s : valuation) (sp : string) : R :=
  fold_right (fun r acc => (contribution m s sp r + acc)%R) 0%R
             (reactions m).

Definition total_flux (m : Model) (s : valuation) (sps : list string) : R :=
  fold_right (fun sp acc => (net_flux m s sp + acc)%R) 0%R sps.

Definition is_boundary (m : Model) (sp : string) : bool :=
  match get_species m sp with
  | Some x => s_boundaryCondition x
  | None => false
  end.

(** Rate of change of the amount of a species: a boundary species is
    not changed by reactions. *)
Definition amount_rate (m : Model) (s : valuation) (sp : string) : R :=
  if is_boundary m sp then 0%R else net_flux m s sp.

(** The species list holds, of every reaction, both ends or neither. *)
Definition closed_under (rs : list Reaction) (sps : list string) : bool :=
  forallb (fun r => Bool.eqb (existsb (String.eqb (rx_reactant r)) sps)
                             (existsb (String.eqb (rx_product r)) sps)) rs.

(** The symbols a formula names. *)
Fixpoint symbols (e : expr) : list string :=
  match e with
  | Num _ => []
  | Var x => [x]
  | Add a b | Sub a b | Mul a b | Div a b | Power a b =>
      (symbols a ++ symbols b)%list
  | Neg a => symbols a
  | Piecewise x1 (Gt a b) z =>
      (symbols x1 ++ symbols a ++ symbols b ++ symbols z)%list
  end.

(** The formula of the reaction names no reaction of the model. *)
Definition names_no_reaction (m : Model) (r : Reaction) : bool :=
  forallb (fun x => forallb (fun n => negb (String.eqb n x))
                            (map rx_sid (reactions m)))
          (symbols (rx_formula r)).

(** The names of the list are pairwise different. *)
Fixpoint distinct (names : list string) : bool :=
  match names with
  | [] => true
  | n :: names' => negb (existsb (String.eqb n) names') && distinct names'
  end.

(** No name of the list is [x]. *)
Definition fresh (x : string) (names : list string) : bool :=
  forallb (fun n => negb (String.eqb n x)) names.

(** The amount of a species in a state.  The symbol of a species
    denotes its amount when the species is built with
    [hasOnlySubstanceUnits=True] and its concentration otherwise, the
    amount then being the concentration times the size of the
    compartment. *)
Definition amount (m : Model) (s : valuation) (sp : string) : option R :=
  match get_species m sp with
  | Some x =>
      Some (if s_hasOnlySubstanceUnits x then s sp
            else (s sp * s (s_compartment x))%R)
  | None => None
  end.

(** Rate of change of a variable with a rate rule. *)
Definition rule_rate (m : Model) (s : valuation) (v : string) : option R :=
  match find (fun rr => String.eqb (rr_variable rr) v) (rate_rules m) with
  | Some rr => Some (eval (with_rates m s) (rr_value rr))
  | None => None
  end.

(** Induction over formulas and their conditions together. *)
Scheme expr_cond_ind := Induction for expr Sort Prop
  with cond_expr_ind := Induction for cond Sort Prop.

End Kinetics.

(** ** Liver model ([model_liver.py]) *)

Module Liver.

Definition liver_compartments : list Compartment := [
  mkCompartment "Vext" (Some 1.5%R) "liter";
  mkCompartment "Vli" (Some 1.5%R) "liter";
  mkCompartment "Vmem" None "m2";
  mkCompartment "Vapical" None "m2";
  mkCompartment "Vbi" (Some 1.0%R) "liter";
  mkCompartment "Vlumen" (Some (1.2825 * 0.9)%R) "liter"
].

Definition liver_species : list Species := [
  mkSpecies "emp_ext" 0.0 "Vext" false false;
  mkSpecies "eg_ext" 0.0 "Vext" false false;
  mkSpecies "emp" 0.0 "Vli" false false;
  mkSpecies "eg" 0.0 "Vli" false false;
  mkSpecies "eg_bi" 0.0 "Vbi" true false;
  mkSpecies "eg_lumen" 0.0 "Vlumen" false false
].

Definition EMPIM : Reaction :=
  mkReaction "EMPIM" "Vmem" "emp_ext" "emp" []
    [mkParameter "EMPIM_k" 100.0 "per_min"]
    ("EMPIM_k" * "Vli" * ("emp_ext" - "emp")).

Definition EMP2EG : Reaction :=
  mkReaction "EMP2EG" "Vli" "emp" "eg" []
    [mkParameter "EMP2EG_Vmax" 0.04 "mmole_per_min_l";
     mkParameter "EMP2EG_Km_emp" 0.02 "mM";
     mkParameter "f_ugt" 1 "dimensionless"]
    ("f_ugt" * "EMP2EG_Vmax" * "Vli" * "emp" / ("emp" + "EMP2EG_Km_emp")).

Definition EGEX : Reaction :=
  mkReaction "EGEX" "Vmem" "eg" "eg_ext" []
    [mkParameter "EGEX_k" 10 "per_min"]
    ("EGEX_k" * "Vli" * ("eg" - "eg_ext")).

Definition EGBIEX : Reaction :=
  mkReaction "EGBIEX" "Vapical" "eg" "eg_bi" []
    [mkParameter "EGBIEX_k" 0.0001 "per_min"]
    ("EGBIEX_k" * "Vli" * "eg").

Definition EGEHC : Reaction :=
  mkReaction "EGEHC" "Vlumen" "eg_bi" "eg_lumen" [] []
    (Var "EGBIEX").

Definition liver_reactions : list Reaction :=
  [EMPIM; EMP2EG; EGEX; EGBIEX; EGEHC].

(** The reactions written with [<->] in their equation. *)
Definition liver_reversible : list string := ["EMPIM"; "EGEX"].

Definition model_liver : Model :=
  mkModel liver_compartments liver_species
          (flat_map rx_pars liver_reactions) [] [] liver_reactions.

End Liver.

(** ** The intestine model for a given chain length *)

Module Chain.
Import Intestine.

(** The statements of [model_intestine.py] with [n_chain = n]. *)
Definition model_intestine_of (n : nat) : Model :=
  let m := build_chain n base_model in
  mkModel (compartments m) (species m)
          (parameters m ++ dose_parameters)%list
          (rules m) (rate_rules m ++ [PODOSE_emp_rate])%list
          (reactions m ++ [dissolution_emp])%list.

(** The species that carry a substance through the intestine model. *)
Definition emp_pools : list string :=
  ["emp_lumen"; "emp_ext"]
    ++ map (fun k => "emp_intestine_" ++ str k) (seq 0 n_chain)
    ++ ["emp_feces"].

Definition eg_pools : list string :=
  ["eg_lumen"]
    ++ map (fun k => "eg_intestine_" ++ str k) (seq 0 n_chain)
    ++ ["eg_feces"].

End Chain.

(** ** Reference states of the liver *)

Module LiverStates.
Import Liver.

(** The declared liver model with 0.01 mM of the drug in the liver. *)
Definition loaded : valuation :=
  upd (declared model_liver) "emp" 0.01%R.

End LiverStates.

(** ** Text: [str.split], [str.join], [str.lower] *)

Module Text.

(** [s.split(sep)] for a non-empty separator, scanning from the left;
    [skip] counts the characters of a separator still to pass, [piece]
    is the text since the last separator. *)
Fixpoint split_from (sep s piece : string) (skip : nat) : list string :=
  match s with
  | EmptyString => [piece]
  | String c s' =>
      match skip with
      | S k => split_from sep s' piece k
      | O =>
          if String.prefix sep s
          then piece :: split_from sep s' "" (String.length sep - 1)
          else split_from sep s' (piece ++ String c "") 0
      end
  end.

Definition split (sep s : string) : list string := split_from sep s "" 0.

(** [sep.join(pieces)] *)
Fixpoint join (sep : string) (pieces : list string) : string :=
  match pieces with
  | [] => ""
  | [x] => x
  | x :: pieces' => x ++ sep ++ join sep pieces'
  end.

(** [str.lower()] on ASCII text. *)
Definition lower_ascii (c : ascii) : ascii :=
  let n := nat_of_ascii c in
  if ((65 <=? n) && (n <=? 90))%nat then ascii_of_nat (n + 32) else c.

Fixpoint lower (s : string) : string :=
  match s with
  | EmptyString => EmptyString
  | String c s' => String (lower_ascii c) (lower s')
  end.

(** The text holds no ["__"] and does not end in ["_"], so that
    followed by ["__"] its first separator is the one that follows. *)
Fixpoint ends_clean (h : string) : bool :=
  match h with
  | EmptyString => true
  | String c h' =>
      if Ascii.eqb c "_"
      then match h' with
           | EmptyString => false
           | String c' _ => negb (Ascii.eqb c' "_") && ends_clean h'
           end
      else ends_clean h'
  end.

End Text.

(** ** Filters on the observable ([fit_experiments.py]) *)

Module Filters.
Import Fit Text.

(** ["__".join(sid.split("__")[1:])] *)
Definition observable_yid (sid : string) : string :=
  join "__" (tl (split "__" sid)).

Definition pk_yids : list string := [
  "Cve_emp"; "Cve_eg"; "Cve_emptot";
  "Aurine_emp"; "Aurine_eg"; "Aurine_emptot";
  "Afeces_emp"; "Afeces_eg"; "Afeces_emptot"
].

Definition pd_yids : list string := ["KI__RTG"; "KI__UGE"].

Section Observable.

(** [fit_mapping.observable.y.sid] of the simulation library. *)
Variable y_sid : FitMapping -> string.

(** Only pharmacokinetics data. *)
Definition filter_pk (fit_mapping_key : string) (fit_mapping : FitMapping)
    : bool :=
  let yid := observable_yid (y_sid fit_mapping) in
  if negb (bool_decide (yid ∈ pk_yids)) then false else true.

(** Only pharmacodynamics data. *)
Definition filter_pd (fit_mapping_key : string) (fit_mapping : FitMapping)
    : bool :=
  let yid := observable_yid (y_sid fit_mapping) in
  if negb (bool_decide (yid ∈ pd_yids)) then false else true.

End Observable.

End Filters.

(** ** Metadata as a dict ([metadata.py]) *)

Module MetaDict.
Import Fit.

(** [member.name] of the enumerations. *)
Definition Tissue_name (x : Tissue) : string :=
  match x with
  | PLASMA => "PLASMA" | SERUM => "SERUM" | URINE => "URINE"
  | FECES => "FECES"
  end.

Definition Route_name (x : Route) : string :=
  match x with PO => "PO" | IV => "IV" end.

Definition Dosing_name (x : Dosing) : string :=
  match x with
  | SINGLE => "SINGLE" | MULTIPLE => "MULTIPLE"
  | CONSTANT_INFUSION => "CONSTANT_INFUSION"
  end.

Definition ApplicationForm_name (x : ApplicationForm) : string :=
  match x with
  | TABLET => "TABLET" | SOLUTION => "SOLUTION" | CAPSULE => "CAPSULE"
  | MIXED => "MIXED" | ApplicationForm_NR => "NR"
  end.

Definition Health_name (x : Health) : string :=
  match x with
  | HEALTHY => "HEALTHY" | T2DM => "T2DM" | HYPERTENSION => "HYPERTENSION"
  | CIRRHOSIS => "CIRRHOSIS" | RENAL_IMPAIRMENT => "RENAL_IMPAIRMENT"
  | HEPATIC_IMPAIRMENT => "HEPATIC_IMPAIRMENT" | CHF => "CHF"
  | T2DM_RENAL_IMPAIRMENT => "T2DM_RENAL_IMPAIRMENT"
  | T2DM_HEPATIC_IMPAIRMENT => "T2DM_HEPATIC_IMPAIRMENT"
  end.

Definition Fasting_name (x : Fasting) : string :=
  match x with NR => "NR" | FASTED => "FASTED" | FED => "FED" end.

Definition Coadministration_name (x : Coadministration) : string :=
  match x with
  | NONE => "NONE" | CYCLOSPORINE => "CYCLOSPORINE"
  | EVOGLIPTIN => "EVOGLIPTIN" | HCTZ => "HCTZ"
  | LINAGLIPTIN => "LINAGLIPTIN" | LOBEGLITAZONE => "LOBEGLITAZONE"
  | METFORMIN => "METFORMIN" | PROBENECID => "PROBENECID"
  | RIFAMPICIN => "RIFAMPICIN" | SITAGLIPTIN => "SITAGLIPTIN"
  | TORASEMIDE => "TORASEMIDE" | WARFARIN => "WARFARIN"
  end.

Inductive dict_value : Type :=
| Name (n : string)
| Flag (b : bool).

Definition to_dict (self : EmpagliflozinMappingMetaData)
    : list (string * dict_value) := [
  ("tissue", Name (Tissue_name (tissue self)));
  ("route", Name (Route_name (route self)));
  ("application_form",
   Name (ApplicationForm_name (application_form self)));
  ("dosing", Name (Dosing_name (dosing self)));
  ("health", Name (Health_name (health self)));
  ("fasting", Name (Fasting_name (fasting self)));
  ("coadministration",
   Name (Coadministration_name (coadministration self)));
  ("outlier", Flag (outlier self))
].

End MetaDict.

(** ** Fit mappings and tasks of the studies ([base_experiment.py],
       [heise2013a.py], [macha2014f.py]) *)

Module Mappings.
Import Fit Experiment.

(** [FitData(self, dataset=..., task=..., xid=..., yid=..., yid_sd=...,
    count=...)] *)
Record FitData : Type := mkFitData {
  fd_dataset : option string;
  fd_task : option string;
  fd_xid : string;
  fd_yid : string;
  fd_yid_sd : option string;
  fd_count : option string;
}.

(** [FitMapping(self, reference=..., observable=..., metadata=...)] *)
Record StudyMapping : Type := mkStudyMapping {
  sm_reference : FitData;
  sm_observable : FitData;
  sm_metadata : EmpagliflozinMappingMetaData;
}.

(** The mapping as the filters see it: the dataset of the reference,
    the task of the observable and the metadata. *)
Definition as_FitMapping (m : StudyMapping) : FitMapping :=
  mkFitMapping (default "" (fd_dataset (sm_reference m)))
               (default "" (fd_task (sm_observable m)))
               (sm_metadata m).

(** [d[key] = value] on a dict kept in insertion order. *)
Fixpoint setitem {A : Type} (d : list (string * A)) (key : string)
    (value : A) : list (string * A) :=
  match d with
  | [] => [(key, value)]
  | (k, x) :: d' =>
      if String.eqb k key then (k, value) :: d'
      else (k, x) :: setitem d' key value
  end.

(** [d.get(key)] *)
Fixpoint get {A : Type} (d : list (string * A)) (key : string) : option A :=
  match d with
  | [] => None
  | (k, x) :: d' => if String.eqb k key then Some x else get d' key
  end.

(** [Task(model=..., simulation=...)] *)
Record Task : Type := mkTask {
  t_model : string;
  t_simulation : string;
}.

(** [tasks()] of the base class, for the dict of the simulations. *)
Definition tasks {A : Type} (simulations : list (string * A))
    : list (string * Task) :=
  match simulations with
  | [] => []
  | _ :: _ =>
      fold_left (fun d kv =>
                   setitem d ("task_" ++ fst kv) (mkTask "model" (fst kv)))
                simulations []
  end.

(** [dose == 0] *)
Definition is_zero (dose : R) : bool :=
  if Req_dec_T dose 0 then true else false.

Module Heise2013a.

Definition info : list (string * string) := [
  ("[Cve_emp]", "empagliflozin");
  ("KI__UGE", "uge")
].

Definition mapping (intervention sid name : string) : StudyMapping :=
  mkStudyMapping
    (mkFitData (Some (name ++ "_" ++ intervention)) None "time" "mean"
               (if String.eqb name "uge" then Some "mean_sd" else None)
               (Some "count"))
    (mkFitData None (Some ("task_" ++ intervention)) "time" sid None None)
    (EmpagliflozinMappingMetaData_init
       (if String.eqb name "uge" then URINE else PLASMA)
       PO TABLET MULTIPLE T2DM NR (Some NONE) None).

(** Body of [for k, sid in enumerate(self.info)]. *)
Definition add_mapping (intervention : string) (dose : R)
    (mappings : list (string * StudyMapping)) (item : string * string)
    : list (string * StudyMapping) :=
  let sid := fst item in
  let name := snd item in
  if String.eqb name "empagliflozin" && is_zero dose
  then mappings
  else setitem mappings ("fm_" ++ name ++ "_" ++ intervention)
                        (mapping intervention sid name).

(** [fit_mappings()], for the dict [doses] of the class. *)
Definition fit_mappings (doses : list (string * R))
    : list (string * StudyMapping) :=
  fold_left (fun mappings arm =>
               fold_left (add_mapping (fst arm) (snd arm)) info mappings)
            doses [].

End Heise2013a.

Module Macha2014f.

Definition renal_functions : list (string * R) := [
  ("normal", 100 / 100);
  ("mild", 0.5 * (60 + 89) / 100);
  ("moderate", 0.5 * (30 + 59) / 100);
  ("severe", 15 / 100)
]%R.

Definition groups : list string := map fst renal_functions.

Definition info : list (string * string) := [
  ("[Cve_emp]", "empagliflozin");
  ("Aurine_emp", "empagliflozin_urine");
  ("KI__UGE", "uge")
].

Definition mapping (group sid name : string) : StudyMapping :=
  mkStudyMapping
    (mkFitData (Some (name ++ "_" ++ group)) None "time" "mean"
               (Some "mean_sd") (Some "count"))
    (mkFitData None (Some ("task_" ++ group)) "time" sid None None)
    (EmpagliflozinMappingMetaData_init
       (if String.eqb name "empagliflozin" then PLASMA else URINE)
       PO TABLET SINGLE
       (if String.eqb group "normal" then T2DM else T2DM_RENAL_IMPAIRMENT)
       NR (Some NONE) None).

(** [fit_mappings()], for the list [groups] of the class. *)
Definition fit_mappings (groups : list string)
    : list (string * StudyMapping) :=
  fold_left (fun mappings item =>
               fold_left (fun mappings group =>
                            setitem mappings
                              ("fm_" ++ snd item ++ "_" ++ group)
                              (mapping group (fst item) (snd item)))
                         groups mappings)
            info [].

End Macha2014f.

End Mappings.

(** ** Pharmacokinetic frames of an experiment and unit conversion
       ([base_experiment.py], [scan_parameter.py]) *)

Module ExperimentPK.
Import Experiment PK Mappings.

Definition pk_units : list (string * string) := [
  ("auc", "µmole/l*hr");
  ("aucinf", "ng/ml*hr");
  ("tmax", "hr");
  ("cl", "ml/min");
  ("cl_hepatic", "ml/min");
  ("cmax", "ng/ml");
  ("thalf", "hr");
  ("kel", "1/hr");
  ("vd", "l");
  ("Aurine_can", "µmole")
].

(** [_molar_mass_for_substance] *)
Definition _molar_mass_for_substance (substance : option string)
    : option Quantity :=
  match substance with
  | None => None
  | Some substance =>
      let substance_key := Text.lower substance in
      get [("empagliflozin", Mr_emp);
           ("empagliflozin-glucuronide", Mr_eg);
           ("eg", Mr_eg);
           ("total empagliflozin", Mr_emp)] substance_key
  end.

Inductive conversion : Type :=
| Converted (q : Quantity)
| KeyError
| DimensionalityError.

Section Frames.

Variable TimecoursePK :
  list R -> list R -> string -> R -> R -> gmap string cell.

(** The loop of the method [calculate_empagliflozin_pk]. *)
Fixpoint pk_loop (results : gmap string XResult) (keys : list string)
    (pk_dfs : gmap string (list (gmap string cell)))
    : option (gmap string (list (gmap string cell))) :=
  match keys with
  | [] => Some pk_dfs
  | sim_key :: keys' =>
      match results !! ("task_" ++ sim_key) with
      | None => None
      | Some xres =>
          match calculate_empagliflozin_pk TimecoursePK xres with
          | None => None
          | Some df => pk_loop results keys' (<[sim_key := df]> pk_dfs)
          end
      end
  end.

(** The method [calculate_empagliflozin_pk(self, scans=[])];
    [simulation_keys] are the keys of [self._simulations]. *)
Definition experiment_pk (results : gmap string XResult)
    (simulation_keys : list string) (scans : list string)
    : option (gmap string (list (gmap string cell))) :=
  match scans with
  | _ :: _ => pk_loop results scans ∅
  | [] => pk_loop results simulation_keys ∅
  end.

End Frames.

Section Conversion.

(** [y.to(unit)] of the unit registry, [None] for a
    [DimensionalityError], and the product of two quantities. *)
Variable to : Quantity -> string -> option Quantity.
Variable times : Quantity -> Quantity -> Quantity.

(** [_convert_pk_quantity] *)
Definition _convert_pk_quantity (y : Quantity) (pk_key : string)
    (substance : option string) : conversion :=
  match get pk_units pk_key with
  | None => KeyError
  | Some target_unit =>
      match to y target_unit with
      | Some q => Converted q
      | None =>
          match _molar_mass_for_substance substance with
          | None => DimensionalityError
          | Some molar_mass =>
              match to (times y molar_mass) target_unit with
              | Some q => Converted q
              | None => DimensionalityError
              end
          end
      end
  end.

End Conversion.

End ExperimentPK.

(** ** Selection of the experiments to run ([simulations.py]) *)

Module Simulations.
Import Mappings.

Definition studies : list string := [
  "Ayoub2017"; "Brand2012"; "Chen2015a"; "Chen2020"; "ElDash2021";
  "Friedrich2013"; "Heise2013"; "Heise2013a"; "Heise2015"; "Jiang2023b";
  "Kim2021"; "Kim2023"; "Li2020"; "Macha2014b"; "Macha2014f";
  "Macha2015a"; "Sarashina2013"; "Sarashina2014"; "Seman2013";
  "vanderAartvanderBeek2020"; "Zhao2015"
].

Definition EXPERIMENTS_literal : list (string * list string) := [
  ("studies", studies);
  ("pharmacodynamics",
   ["ElDash2021"; "Heise2013"; "Heise2013a"; "Macha2014b"; "Macha2015a";
    "Sarashina2013"; "Seman2013"]);
  ("dose_dependency",
   ["Heise2013"; "Heise2013a"; "Macha2015a"; "Sarashina2013"; "Seman2013";
    "Zhao2015"]);
  ("hepatic_impairment", ["Macha2014b"]);
  ("renal_impairment", ["Macha2014f"; "Sarashina2014"]);
  ("misc", ["DoseDependencyExperiment"]);
  ("scan", ["EmpagliflozinParameterScan"])
].

(** [EXPERIMENTS["all"] = EXPERIMENTS["studies"] + EXPERIMENTS["misc"]];
    [None] is a [KeyError]. *)
Definition EXPERIMENTS : option (list (string * list string)) :=
  match get EXPERIMENTS_literal "studies", get EXPERIMENTS_literal "misc" with
  | Some s, Some m => Some (setitem EXPERIMENTS_literal "all" (s ++ m)%list)
  | _, _ => None
  end.

(** A path below the directory of the package. *)
Definition Path : Type := list string.

Definition RESULTS_PATH_SIMULATION : Path := ["results"; "simulation"].

Inductive plan : Type :=
| Run (experiments_to_run : list string) (output_dir : Path)
| UnknownGroup (selected : string)
| NoExperiments.

(** The choice of [run_simulation_experiments] of what to run and
    where to write, up to the call of [run_experiments]. *)
Definition run_simulation_experiments (experiments : list (string * list string))
    (selected : option string) (experiment_classes : option (list string))
    (output_dir : option Path) : plan :=
  match experiment_classes with
  | Some classes =>
      Run classes
          (default (RESULTS_PATH_SIMULATION ++ ["custom_selection"])%list
                   output_dir)
  | None =>
      match selected with
      | Some (String c sel) =>
          let selected := String c sel in
          match get experiments selected with
          | None => UnknownGroup selected
          | Some experiments_to_run =>
              Run experiments_to_run
                  (default (RESULTS_PATH_SIMULATION ++ [selected])%list
                           output_dir)
          end
      | Some EmptyString | None => NoExperiments
      end
  end.

End Simulations.

(** ** Fit parameters ([parameters.py]) *)

Module FitParameters.

Record FitParameter : Type := mkFitParameter {
  pid : string;
  lower_bound : R;
  start_value : R;
  upper_bound : R;
  unit : string;
}.

Definition parameters_pk : list FitParameter := [
  mkFitParameter "ftissue_emp" 0.01 0.1 10 "l/min";
  mkFitParameter "Kp_emp" 0.1 1 10 "dimensionless";
  mkFitParameter "GU__EMPABS_k" 1E-4 0.01 1 "1/min";
  mkFitParameter "GU__METEXC_k" 1E-6 0.001 0.1 "1/min";
  mkFitParameter "LI__EMP2EG_Vmax" 1E-3 0.01 100 "mmol/min/l";
  mkFitParameter "LI__EMP2EG_Km_emp" 1E-3 0.02 1 "mM";
  mkFitParameter "LI__EGEX_k" 1E-3 0.01 100 "1/min";
  mkFitParameter "LI__EGBIEX_k" 1E-5 0.01 1 "1/min";
  mkFitParameter "KI__EMPEX_k" 1E-4 0.1 10 "1/min";
  mkFitParameter "KI__EGEX_k" 1E-4 0.1 10 "1/min"
]%R.

Definition parameters_pd : list FitParameter := [
  mkFitParameter "KI__RTG_E50" 0.1E-07 2.5e-06 (50 - 6) "mM";
  mkFitParameter "KI__RTG_base" 9 12.5 14 "mM";
  mkFitParameter "KI__RTG_max_inhibition" 0.2 0.75 1.0 "dimensionless";
  mkFitParameter "KI__RTG_m_fpg" 0.2 1 3 "dimensionless"
]%R.

Definition parameters_pk_pd : list FitParameter :=
  (parameters_pk ++ parameters_pd)%list.

End FitParameters.

(** * Properties *)

Local Open Scope R_scope.

(** ** The power function and the Hill term *)

Section HillTerm.

Lemma power_0_l (y : R) : y <> 0 -> power 0 y = 0.
Proof.
  intros Hy. unfold power.
  destruct (Req_dec_T 0 0) as [_ | H0]; [| now elim H0].
  destruct (Req_dec_T y 0) as [Hy0 | _]; [now elim Hy | reflexivity].
Qed.

Lemma power_pos (x y : R) : 0 < x -> 0 < power x y.
Proof.
  intros Hx. unfold power.
  destruct (Req_dec_T x 0) as [Hx0 | _]; [lra |].
  unfold Rpower. apply exp_pos.
Qed.

Lemma power_nonneg (x y : R) : 0 <= x -> 0 <= power x y.
Proof.
  intros [Hx | Hx].
  - left. now apply power_pos.
  - subst x. unfold power.
    destruct (Req_dec_T 0 0) as [_ | H0]; [| now elim H0].
    destruct (Req_dec_T y 0); lra.
Qed.

Lemma power_1 (x : R) : 0 < x -> power x 1 = x.
Proof.
  intros Hx. unfold power.
  destruct (Req_dec_T x 0) as [Hx0 | _]; [lra |].
  now apply Rpower_1.
Qed.

Lemma power_mono (a b y : R) :
  0 < y -> 0 <= a -> a <= b -> power a y <= power b y.
Proof.
  intros Hy [Ha | Ha] Hab.
  - unfold power.
    destruct (Req_dec_T a 0) as [? | _]; [lra |].
    destruct (Req_dec_T b 0) as [? | _]; [lra |].
    apply Rle_Rpower_l; lra.
  - subst a. rewrite power_0_l by lra. apply power_nonneg. lra.
Qed.

(** [p / (c + p)] lies in [[0, 1]] and grows with [p]. *)
Lemma hill_range (c p : R) : 0 < c -> 0 <= p -> 0 <= p / (c + p) <= 1.
Proof.
  intros Hc Hp. split.
  - apply Rmult_le_pos; [exact Hp |].
    left. apply Rinv_0_lt_compat. lra.
  - apply Rmult_le_reg_r with (c + p); [lra |].
    unfold Rdiv. rewrite Rmult_assoc, Rinv_l by lra. lra.
Qed.

Lemma hill_mono (c p q : R) :
  0 < c -> 0 <= p -> p <= q -> p / (c + p) <= q / (c + q).
Proof.
  intros Hc Hp Hpq.
  apply Rmult_le_reg_r with ((c + p) * (c + q)).
  - apply Rmult_lt_0_compat; lra.
  - replace (p / (c + p) * ((c + p) * (c + q))) with (p * (c + q))
      by (field; lra).
    replace (q / (c + q) * ((c + p) * (c + q))) with (q * (c + p))
      by (field; lra).
    nra.
Qed.

End HillTerm.

(** A function with a Lipschitz bound at a point is continuous there. *)
Lemma lipschitz_continuity (f : R -> R) (K x0 : R) :
  (forall x, Rabs (f x - f x0) <= K * Rabs (x - x0)) ->
  continuity_pt f x0.
Proof.
  intros HL eps Heps.
  assert (HK : 0 <= K).
  { specialize (HL (x0 + 1)).
    replace (x0 + 1 - x0) with 1 in HL by ring.
    rewrite Rabs_R1 in HL.
    pose proof (Rabs_pos (f (x0 + 1) - f x0)). lra. }
  exists (eps / (K + 1)).
  split; [apply Rdiv_lt_0_compat; lra |].
  intros x [_ Hd].
  unfold dist in *; simpl in *; unfold R_dist in *.
  specialize (HL x).
  pose proof (Rabs_pos (x - x0)) as Hx.
  assert (Hm : Rabs (x - x0) * (K + 1) < eps).
  { apply Rmult_lt_compat_r with (r := K + 1) in Hd; [| lra].
    replace (eps / (K + 1) * (K + 1)) with eps in Hd by (field; lra).
    exact Hd. }
  nra.
Qed.

(** ** Kidney: renal threshold and urinary excretion *)

Section KidneyProperties.
Import Kidney States.

Ltac eval_formula := cbn -[Z.pow_pos Q2R IZR].

Lemma RTG_fpg_value_eq (s : valuation) :
  RTG_fpg_value s
  = s "RTG_base" + s "RTG_m_fpg" * (s "fpg" - s "fpg_healthy").
Proof. reflexivity. Qed.

Lemma RTG_value_eq (s : valuation) :
  RTG_value s
  = RTG_fpg_value s
    - RTG_fpg_value s * s "RTG_max_inhibition"
      * (power (s "emp_ext") (s "RTG_gamma")
         / (power (s "RTG_E50") (s "RTG_gamma")
            + power (s "emp_ext") (s "RTG_gamma"))).
Proof.
  unfold RTG_value, RTG_fpg_value, apply_rules. eval_formula.
  unfold Rdiv. ring.
Qed.

Lemma GLCEX_formula_eq (s : valuation) :
  eval s (rx_formula GLCEX)
  = if Rgt_dec (s "fpg") (s "RTG")
    then s "GFR" / s "cf_ml_per_l" * (s "fpg" - s "RTG")
    else 0.
Proof. reflexivity. Qed.

(** C3: without drug ([emp_ext = 0]) the rule of [RTG] gives
    [RTG_fpg] exactly, for every positive [RTG_E50] and [RTG_gamma] and
    every value of [RTG_delta]: both for the formula of the rule with
    [RTG_fpg] and [RTG_delta] as given values, and for the rules
    evaluated in order. *)
Theorem RTG_without_drug (s : valuation) :
  s "emp_ext" = 0 -> 0 < s "RTG_E50" -> 0 < s "RTG_gamma" ->
  eval s (r_value RTG) = s "RTG_fpg"
  /\ RTG_value s = RTG_fpg_value s.
Proof.
  intros Hemp HE50 Hgamma. split.
  - eval_formula. rewrite Hemp, power_0_l by lra.
    unfold Rdiv. rewrite Rmult_0_r, Rmult_0_l. lra.
  - rewrite RTG_value_eq, Hemp, power_0_l by lra.
    unfold Rdiv. rewrite Rmult_0_l, Rmult_0_r. lra.
Qed.

Lemma RTG_without_drug_declared :
  declared model_kidney "emp_ext" = 0
  /\ 0 < declared model_kidney "RTG_E50"
  /\ 0 < declared model_kidney "RTG_gamma"
  /\ RTG_value (declared model_kidney) = RTG_fpg_value (declared model_kidney).
Proof.
  assert (H0 : declared model_kidney "emp_ext" = 0) by (eval_formula; lra).
  assert (H1 : 0 < declared model_kidney "RTG_E50") by (eval_formula; lra).
  assert (H2 : 0 < declared model_kidney "RTG_gamma") by (eval_formula; lra).
  repeat split; try assumption.
  exact (proj2 (RTG_without_drug (declared model_kidney) H0 H1 H2)).
Defined.

(** In the kidney model the threshold follows plasma glucose through
    [RTG_fpg]; the rate of [GLCEX] is then zero or
    [C * (A * fpg + B)] for constants [A], [B], [C] of the state, and
    continuous in plasma glucose everywhere. *)
Lemma GLCEX_continuous_in_model (s : valuation) (g0 : R) :
  continuity_pt (fun g => rate model_kidney GLCEX (upd s "fpg" g)) g0.
Proof.
  set (H := power (s "emp_ext") (s "RTG_gamma")
            / (power (s "RTG_E50") (s "RTG_gamma")
               + power (s "emp_ext") (s "RTG_gamma"))).
  set (C := s "f_renal_function" * s "GFR_healthy" / s "cf_ml_per_l").
  set (A := 1 - s "RTG_m_fpg" * (1 - s "RTG_max_inhibition" * H)).
  set (B := - (s "RTG_base" - s "RTG_m_fpg" * s "fpg_healthy")
              * (1 - s "RTG_max_inhibition" * H)).
  assert (Hrate : forall g,
             rate model_kidney GLCEX (upd s "fpg" g)
             = if Rgt_dec (A * g + B) 0 then C * (A * g + B) else 0).
  { intros g. unfold rate, apply_rules. eval_formula.
    match goal with
    | |- context [Rgt_dec g ?X] =>
        replace X with (g - (A * g + B))
          by (subst A B H; unfold Rdiv; ring)
    end.
    fold C.
    destruct (Rgt_dec g _) as [H1 | H1];
      destruct (Rgt_dec (A * g + B) 0) as [H2 | H2];
      try reflexivity; try lra; ring. }
  apply lipschitz_continuity with (K := Rabs C * Rabs A).
  intros g. rewrite !Hrate.
  assert (Hup : A * (g - g0) <= Rabs A * Rabs (g - g0))
    by (rewrite <- Rabs_mult; apply Rle_abs).
  assert (Hdown : A * (g0 - g) <= Rabs A * Rabs (g - g0))
    by (rewrite (Rabs_minus_sym g g0), <- Rabs_mult; apply Rle_abs).
  pose proof (Rabs_pos C) as HC.
  destruct (Rgt_dec (A * g + B) 0) as [H1 | H1];
    destruct (Rgt_dec (A * g0 + B) 0) as [H2 | H2].
  - replace (C * (A * g + B) - C * (A * g0 + B))
      with (C * A * (g - g0)) by ring.
    rewrite !Rabs_mult. lra.
  - replace (C * (A * g + B) - 0) with (C * (A * g + B)) by ring.
    rewrite Rabs_mult, (Rabs_right (A * g + B)), Rmult_assoc by lra.
    apply Rmult_le_compat_l; [exact HC | lra].
  - replace (0 - C * (A * g0 + B)) with (C * - (A * g0 + B)) by ring.
    rewrite Rabs_mult, Rabs_Ropp, (Rabs_right (A * g0 + B)), Rmult_assoc
      by lra.
    apply Rmult_le_compat_l; [exact HC | lra].
  - rewrite Rminus_diag, Rabs_R0.
    apply Rmult_le_pos; [apply Rmult_le_pos |]; apply Rabs_pos.
Qed.

(** The formula of [GLCEX] is the [max] of the specification exactly
    when the filtration factor is non-negative or plasma glucose is at
    the threshold. *)
Lemma GLCEX_is_max (s : valuation) :
  eval s (rx_formula GLCEX) = GLCEX_max s
  <-> (0 <= s "GFR" / s "cf_ml_per_l" \/ s "fpg" = s "RTG").
Proof.
  rewrite GLCEX_formula_eq. unfold GLCEX_max.
  set (c := s "GFR" / s "cf_ml_per_l").
  set (d := s "fpg" - s "RTG").
  assert (Hd : s "fpg" = s "RTG" <-> d = 0) by (subst d; lra).
  rewrite Hd.
  destruct (Rgt_dec (s "fpg") (s "RTG")) as [Hgt | Hle].
  - assert (0 < d) by (subst d; lra).
    split.
    + intros H0. left.
      destruct (Rle_dec 0 c) as [Hc | Hc]; [exact Hc | exfalso].
      assert (c * d < 0) by nra.
      rewrite Rmax_left in H0 by lra. lra.
    + intros [Hc | Hz]; [| lra].
      rewrite Rmax_right; [reflexivity | nra].
  - assert (d <= 0) by (subst d; lra).
    split.
    + intros H0.
      destruct (Rle_dec 0 c) as [Hc | Hc]; [left; exact Hc | right].
      destruct (Req_dec_T d 0) as [Hz | Hnz]; [exact Hz | exfalso].
      assert (0 < c * d) by nra.
      rewrite Rmax_right in H0 by lra. lra.
    + intros [Hc | Hz].
      * rewrite Rmax_left; [reflexivity | nra].
      * rewrite Hz, Rmult_0_r, Rmax_left; [reflexivity | lra].
Qed.

(** In the kidney model itself [GFR] is the rule
    [f_renal_function * GFR_healthy]: with a non-negative renal
    function, a non-negative healthy filtration rate and a positive
    conversion factor the rate of [GLCEX] is non-negative. *)
Lemma GLCEX_nonneg_in_model (s : valuation) :
  0 <= s "f_renal_function" -> 0 <= s "GFR_healthy" ->
  0 < s "cf_ml_per_l" ->
  0 <= rate model_kidney GLCEX s.
Proof.
  intros Hf HG Hcf. unfold rate.
  set (s' := apply_rules (rules model_kidney) s).
  assert (Hq : 0 <= s' "GFR" / s' "cf_ml_per_l").
  { subst s'. unfold apply_rules. eval_formula.
    apply Rmult_le_pos; [apply Rmult_le_pos; lra |].
    left. now apply Rinv_0_lt_compat. }
  rewrite GLCEX_formula_eq.
  destruct (Rgt_dec _ _) as [Hgt | _]; [| lra].
  apply Rmult_le_pos; lra.
Qed.

(** The hypothesis on the renal function is needed: with
    [f_renal_function = -1], outside the range [[0, 1]] that the
    studies set and [[0.1, 2]] that the scan sets, and a plasma glucose
    of 30 mM above the threshold of 25 mM, the rate of [GLCEX] is
    negative. *)
Lemma GLCEX_negative_rate :
  0 <= renal_negative_state "fpg"
  /\ 0 <= renal_negative_state "RTG"
  /\ eval renal_negative_state (rx_formula GLCEX) < 0.
Proof.
  unfold renal_negative_state, renal_negative, apply_rules.
  eval_formula. replace 0.0 with 0 by lra.
  rewrite power_0_l, power_1 by lra.
  repeat split; try lra.
  destruct (Rgt_dec _ _) as [H | H]; lra.
Qed.

(** C2: the rate of [GLCEX] is [GFR / cf_ml_per_l * (fpg - RTG)] when
    plasma glucose exceeds the threshold and zero when it is at or
    below it, in particular zero at the threshold; as a function of
    plasma glucose it is continuous at the threshold, for a given
    threshold as well as in the model, where the threshold follows
    plasma glucose.  It is non-negative, and equal to
    [max(0, GFR / cf_ml_per_l * (fpg - RTG))], whenever
    [GFR / cf_ml_per_l] is non-negative; in the model, where [GFR] is
    the rule [f_renal_function * GFR_healthy], this holds in every
    state with a renal function [f_renal_function >= 0], a healthy
    filtration rate [GFR_healthy >= 0] and a conversion factor
    [cf_ml_per_l > 0], whatever the plasma glucose, the drug
    concentration and the parameters of the threshold. *)
Theorem GLCEX_threshold (s : valuation) :
  (s "fpg" > s "RTG" ->
   eval s (rx_formula GLCEX)
   = s "GFR" / s "cf_ml_per_l" * (s "fpg" - s "RTG"))
  /\ (s "fpg" <= s "RTG" -> eval s (rx_formula GLCEX) = 0)
  /\ eval (upd s "fpg" (s "RTG")) (rx_formula GLCEX) = 0
  /\ continuity_pt (fun g => eval (upd s "fpg" g) (rx_formula GLCEX))
                   (s "RTG")
  /\ (forall g0,
        continuity_pt
          (fun g => rate model_kidney GLCEX (upd s "fpg" g)) g0)
  /\ (0 <= s "GFR" / s "cf_ml_per_l" ->
      0 <= eval s (rx_formula GLCEX)
      /\ eval s (rx_formula GLCEX) = GLCEX_max s)
  /\ (0 <= s "f_renal_function" -> 0 <= s "GFR_healthy" ->
      0 < s "cf_ml_per_l" ->
      0 <= rate model_kidney GLCEX s
      /\ rate model_kidney GLCEX s
         = GLCEX_max (apply_rules (rules model_kidney) s)).
Proof.
  split; [| split; [| split; [| split; [| split; [| split]]]]].
  - rewrite GLCEX_formula_eq.
    intros Hgt. destruct (Rgt_dec _ _); [reflexivity | contradiction].
  - rewrite GLCEX_formula_eq.
    intros Hle. destruct (Rgt_dec _ _); [lra | reflexivity].
  - eval_formula. destruct (Rgt_dec _ _); [lra | reflexivity].
  - set (c := s "GFR" / s "cf_ml_per_l").
    set (x0 := s "RTG").
    assert (Hf : forall g,
               eval (upd s "fpg" g) (rx_formula GLCEX)
               = if Rgt_dec g x0 then c * (g - x0) else 0)
      by reflexivity.
    apply lipschitz_continuity with (K := Rabs c).
    intros g. rewrite !Hf.
    destruct (Rgt_dec x0 x0) as [? | _]; [lra |].
    rewrite Rminus_0_r.
    destruct (Rgt_dec g x0) as [Hg | Hg].
    + rewrite Rabs_mult. lra.
    + rewrite Rabs_R0. apply Rmult_le_pos; apply Rabs_pos.
  - apply GLCEX_continuous_in_model.
  - intros Hc. split; [| apply GLCEX_is_max; now left].
    rewrite GLCEX_formula_eq.
    destruct (Rgt_dec _ _) as [Hgt | _]; [| lra].
    apply Rmult_le_pos; lra.
  - intros Hf HG Hcf.
    split; [now apply GLCEX_nonneg_in_model |].
    unfold rate. apply GLCEX_is_max. left.
    unfold apply_rules. eval_formula.
    apply Rmult_le_pos; [apply Rmult_le_pos; lra |].
    left. now apply Rinv_0_lt_compat.
Qed.

Lemma GLCEX_threshold_both_sides :
  (hyperglycemic_state "fpg" > hyperglycemic_state "RTG"
   /\ eval hyperglycemic_state (rx_formula GLCEX)
      = hyperglycemic_state "GFR" / hyperglycemic_state "cf_ml_per_l"
        * (hyperglycemic_state "fpg" - hyperglycemic_state "RTG"))
  /\ (treated_state "fpg" <= treated_state "RTG"
      /\ eval treated_state (rx_formula GLCEX) = 0)
  /\ (0 <= treated_state "GFR" / treated_state "cf_ml_per_l"
      /\ 0 <= eval treated_state (rx_formula GLCEX))
  /\ (0 <= hyperglycemic "f_renal_function"
      /\ 0 <= hyperglycemic "GFR_healthy"
      /\ 0 < hyperglycemic "cf_ml_per_l"
      /\ 0 <= rate model_kidney GLCEX hyperglycemic
      /\ rate model_kidney GLCEX hyperglycemic
         = GLCEX_max (apply_rules (rules model_kidney) hyperglycemic)).
Proof.
  assert (Hb : hyperglycemic_state "fpg" > hyperglycemic_state "RTG").
  { unfold hyperglycemic_state, apply_rules. eval_formula.
    replace 0.0 with 0 by lra. rewrite power_0_l, power_1 by lra. lra. }
  assert (Hc : 0 <= treated_state "GFR" / treated_state "cf_ml_per_l")
    by (unfold treated_state, treated, apply_rules; eval_formula; lra).
  assert (Hd : treated_state "fpg" <= treated_state "RTG").
  { unfold treated_state, treated, apply_rules. eval_formula.
    rewrite !power_1 by lra. lra. }
  assert (Hf : 0 <= hyperglycemic "f_renal_function")
    by (unfold hyperglycemic; eval_formula; lra).
  assert (HG : 0 <= hyperglycemic "GFR_healthy")
    by (unfold hyperglycemic; eval_formula; lra).
  assert (Hcf : 0 < hyperglycemic "cf_ml_per_l")
    by (unfold hyperglycemic; eval_formula; lra).
  split; [| split; [| split]].
  - split; [exact Hb |].
    exact (proj1 (GLCEX_threshold hyperglycemic_state) Hb).
  - split; [exact Hd |].
    exact (proj1 (proj2 (GLCEX_threshold treated_state)) Hd).
  - split; [exact Hc |].
    exact (proj1 (proj1 (proj2 (proj2 (proj2 (proj2 (proj2
             (GLCEX_threshold treated_state)))))) Hc)).
  - split; [exact Hf |]. split; [exact HG |]. split; [exact Hcf |].
    exact (proj2 (proj2 (proj2 (proj2 (proj2 (proj2
             (GLCEX_threshold hyperglycemic)))))) Hf HG Hcf).
Defined.

(** With the declared [RTG_base], [RTG_m_fpg] and [fpg_healthy] the
    baseline threshold is positive for every non-negative plasma
    glucose. *)
Lemma RTG_fpg_declared_pos (fpg : R) :
  0 <= fpg -> 0 < RTG_fpg_value (upd (declared model_kidney) "fpg" fpg).
Proof.
  intros Hfpg. unfold RTG_fpg_value, apply_rules. eval_formula. lra.
Qed.



(** C10, as stated, fails for a negative baseline threshold: with
    [RTG_base = -1] (so [RTG_fpg = -1]) and the drug at its EC50, all
    the stated conditions hold and [RTG = -0.625] lies above
    [RTG_fpg]. *)
Lemma RTG_above_negative_baseline :
  0 <= negative_baseline "emp_ext"
  /\ 0 < negative_baseline "RTG_E50"
  /\ 0 < negative_baseline "RTG_gamma"
  /\ 0 <= negative_baseline "RTG_max_inhibition" <= 1
  /\ ~ (RTG_value negative_baseline <= RTG_fpg_value negative_baseline).
Proof.
  unfold RTG_value, RTG_fpg_value, negative_baseline, apply_rules.
  eval_formula. rewrite !power_1 by lra.
  repeat split; try lra.
Qed.

(** C10, amended: when the baseline threshold [RTG_fpg] is
    non-negative, then for a drug concentration [emp_ext >= 0],
    [RTG_E50 > 0], [RTG_gamma > 0] and [RTG_max_inhibition] in
    [[0, 1]], the Hill term lies in [[0, 1]],
    [RTG_fpg * (1 - RTG_max_inhibition) <= RTG <= RTG_fpg], and raising
    the drug concentration does not raise [RTG]. *)
Theorem RTG_bounded_and_decreasing (s : valuation) (e : R) :
  0 <= RTG_fpg_value s ->
  0 <= s "emp_ext" -> s "emp_ext" <= e ->
  0 < s "RTG_E50" -> 0 < s "RTG_gamma" ->
  0 <= s "RTG_max_inhibition" <= 1 ->
  0 <= power (s "emp_ext") (s "RTG_gamma")
       / (power (s "RTG_E50") (s "RTG_gamma")
          + power (s "emp_ext") (s "RTG_gamma")) <= 1
  /\ RTG_fpg_value s * (1 - s "RTG_max_inhibition") <= RTG_value s
     <= RTG_fpg_value s
  /\ RTG_value (upd s "emp_ext" e) <= RTG_value s.
Proof.
  intros HF He Hle HE50 Hgamma Hmi.
  pose proof (power_pos (s "RTG_E50") (s "RTG_gamma") HE50) as Hc.
  pose proof (power_nonneg (s "emp_ext") (s "RTG_gamma") He) as Hp.
  pose proof (hill_range _ _ Hc Hp) as Hh.
  pose proof (power_mono _ _ (s "RTG_gamma") Hgamma He Hle) as Hpq.
  pose proof (hill_mono _ _ _ Hc Hp Hpq) as Hm.
  split; [exact Hh |].
  rewrite !RTG_value_eq.
  replace (RTG_fpg_value (upd s "emp_ext" e)) with (RTG_fpg_value s)
    by reflexivity.
  cbn -[RTG_fpg_value].
  set (F := RTG_fpg_value s) in *.
  set (mi := s "RTG_max_inhibition") in *.
  set (h1 := power (s "emp_ext") (s "RTG_gamma")
             / (power (s "RTG_E50") (s "RTG_gamma")
                + power (s "emp_ext") (s "RTG_gamma"))) in *.
  set (h2 := power e (s "RTG_gamma")
             / (power (s "RTG_E50") (s "RTG_gamma")
                + power e (s "RTG_gamma"))) in *.
  assert (HD : 0 <= F * mi) by (apply Rmult_le_pos; lra).
  repeat split; nra.
Qed.

Lemma RTG_bounded_and_decreasing_treated :
  8.75 = RTG_value treated
  /\ RTG_fpg_value treated * (1 - treated "RTG_max_inhibition")
     <= RTG_value treated <= RTG_fpg_value treated
  /\ RTG_value (upd treated "emp_ext" 1) <= RTG_value treated.
Proof.
  assert (HF : 0 <= RTG_fpg_value treated)
    by (unfold RTG_fpg_value, treated, apply_rules; eval_formula; lra).
  assert (He : 0 <= treated "emp_ext")
    by (unfold treated; eval_formula; lra).
  assert (Hle : treated "emp_ext" <= 1)
    by (unfold treated; eval_formula; lra).
  assert (HE : 0 < treated "RTG_E50")
    by (unfold treated; eval_formula; lra).
  assert (Hg : 0 < treated "RTG_gamma")
    by (unfold treated; eval_formula; lra).
  assert (Hmi : 0 <= treated "RTG_max_inhibition" <= 1)
    by (unfold treated; eval_formula; lra).
  split.
  - unfold RTG_value, treated, apply_rules. eval_formula.
    rewrite !power_1 by lra. lra.
  - exact (proj2 (RTG_bounded_and_decreasing treated 1
                    HF He Hle HE Hg Hmi)).
Defined.

End KidneyProperties.

(** ** Intestine: absorption and the excretion chain *)

Section IntestineProperties.
Import Intestine.

Ltac eval_formula := cbn -[Z.pow_pos Q2R IZR INR].

(** The loops of the chain builder append, for every stage in order,
    one compartment, and one species and one reaction per substance. *)
Lemma add_stage_compartments (n k : nat) (m : Model) :
  compartments (add_stage n m k)
  = (compartments m ++ [stage_compartment n k])%list.
Proof. reflexivity. Qed.

Lemma add_stage_species (n k : nat) (m : Model) :
  species (add_stage n m k)
  = (species m ++ map (stage_species k) (map fst substance_info))%list.
Proof. cbn. now rewrite <- app_assoc. Qed.

Lemma add_stage_reactions (n k : nat) (m : Model) :
  reactions (add_stage n m k)
  = (reactions m
       ++ map (stage_reaction n k) (map fst substance_info))%list.
Proof. cbn. now rewrite <- app_assoc. Qed.

Lemma add_stage_rules (n k : nat) (m : Model) :
  rules (add_stage n m k) = rules m
  /\ parameters (add_stage n m k) = parameters m.
Proof. split; reflexivity. Qed.

Lemma chain_upto (n j : nat) (m : Model) :
  let m' := fold_left (add_stage n) (seq 0 j) m in
  compartments m'
  = (compartments m ++ map (stage_compartment n) (seq 0 j))%list
  /\ species m'
     = (species m
          ++ flat_map (fun k => map (stage_species k)
                                    (map fst substance_info))
                      (seq 0 j))%list
  /\ reactions m'
     = (reactions m
          ++ flat_map (fun k => map (stage_reaction n k)
                                    (map fst substance_info))
                      (seq 0 j))%list
  /\ rules m' = rules m
  /\ parameters m' = parameters m.
Proof.
  induction j as [| j IH]; intros m'.
  - subst m'. cbn [seq fold_left map flat_map].
    rewrite !app_nil_r. repeat split; reflexivity.
  - subst m'. rewrite seq_S, fold_left_app. cbn [fold_left Nat.add].
    destruct IH as (Hc & Hs & Hr & Hrl & Hp).
    rewrite add_stage_compartments, add_stage_species,
            add_stage_reactions.
    rewrite Hc, Hs, Hr, map_app, !flat_map_app.
    cbn [map flat_map]. rewrite !app_nil_r, <- !app_assoc.
    repeat split; try reflexivity.
    + destruct (add_stage_rules n j
                  (fold_left (add_stage n) (seq 0 j) m)) as [-> _].
      exact Hrl.
    + destruct (add_stage_rules n j
                  (fold_left (add_stage n) (seq 0 j) m)) as [_ ->].
      exact Hp.
Qed.

Lemma build_chain_length (n : nat) (m : Model) :
  length (compartments (build_chain n m))
  = (length (compartments m) + n)%nat
  /\ length (reactions (build_chain n m))
     = (length (reactions m) + 2 * n)%nat.
Proof.
  unfold build_chain.
  destruct (chain_upto n n m) as (Hc & _ & Hr & _).
  rewrite Hc, Hr, !length_app, length_map, length_seq.
  split; [reflexivity |]. f_equal.
  rewrite <- (length_seq n 0) at 2.
  generalize (seq 0 n) as l.
  induction l as [| k l IHl]; [reflexivity |].
  cbn [flat_map]. rewrite length_app, IHl. cbn. lia.
Qed.

(** C8: in every state the rates of [EMPABS] and [EMPEXC] add up to
    the rule variable [absorption = EMPABS_k * Vgu * emp_lumen]; they
    are the shares [F_emp_abs] and [1 - F_emp_abs] of it, for any value
    of [F_emp_abs]. *)
Theorem absorption_is_partitioned (s : valuation) :
  apply_rules (rules model_intestine) s "absorption"
  = s "EMPABS_k" * s "Vgu" * s "emp_lumen"
  /\ rate model_intestine EMPABS s
     = s "F_emp_abs" * apply_rules (rules model_intestine) s "absorption"
  /\ rate model_intestine EMPEXC s
     = (1 - s "F_emp_abs")
       * apply_rules (rules model_intestine) s "absorption"
  /\ rate model_intestine EMPABS s + rate model_intestine EMPEXC s
     = apply_rules (rules model_intestine) s "absorption".
Proof.
  unfold rate, apply_rules. eval_formula.
  repeat split; ring.
Qed.

Ltac chain_case :=
  split; [reflexivity |];
  split; [reflexivity |];
  split; [eexists; split; reflexivity |];
  do 2 eexists;
  split; [reflexivity |];
  split; [reflexivity |];
  split; [reflexivity |];
  split; [reflexivity |];
  split; [reflexivity |];
  split; [reflexivity |];
  split; [intros s; split; [reflexivity | split; [reflexivity |]];
          match goal with
          | |- _ = ?k * (?c * ?V) =>
              transitivity (k * V * c); [reflexivity | ring]
          end |];
  split;
  [ intros Hlt; first [lia | eexists; split; reflexivity]
  | intros Heq; first [lia | eexists; split; reflexivity] ].

(** C1, as stated, fails: the stage species are concentrations, so
    the reaction out of a stage runs at the rate constant times the
    amount in the stage, not at the rate constant times the stage
    volume times that amount.  With 1 mM of the drug in the first
    stage the two differ. *)
Lemma stage_rate_is_not_volume_times_amount :
  exists r a,
    get_reaction model_intestine "EMPEXC_0" = Some r
    /\ Kinetics.amount model_intestine States.stage_loaded
                       "emp_intestine_0" = Some a
    /\ eval States.stage_loaded (rx_formula r)
       = States.stage_loaded "METEXC_k" * a
    /\ eval States.stage_loaded (rx_formula r)
       <> States.stage_loaded "METEXC_k"
          * States.stage_loaded "Vintestine_0" * a.
Proof.
  assert (HV : States.stage_loaded "Vintestine_0" = 1.2825 * 0.9 / INR 5)
    by reflexivity.
  assert (Hc : States.stage_loaded "emp_intestine_0" = 1) by reflexivity.
  assert (Hk : States.stage_loaded "METEXC_k" = 0.001) by reflexivity.
  exists (stage_reaction n_chain 0 "emp"),
         (States.stage_loaded "emp_intestine_0"
          * States.stage_loaded "Vintestine_0").
  split; [reflexivity |]. split; [reflexivity |].
  change (eval States.stage_loaded
            (rx_formula (stage_reaction n_chain 0 "emp")))
    with (States.stage_loaded "METEXC_k"
          * States.stage_loaded "Vintestine_0"
          * States.stage_loaded "emp_intestine_0").
  rewrite HV, Hc, Hk.
  replace (INR 5) with 5 by (simpl; lra).
  split; lra.
Qed.

(** C1, amended: the built intestine model has [n_chain] stage
    compartments and, for each of the two substances ([emp], [eg]),
    [n_chain] stage reactions.  For every stage [k < n_chain] and each
    substance: the stage compartment has the volume of the lumen
    divided by [n_chain]; the stage species lies in it and is a
    concentration ([hasOnlySubstanceUnits=False]), so the amount in
    the stage is the value of the species times the stage volume; the
    stage reaction takes the species as reactant at the rate
    [METEXC_k * Vintestine_k * sid_intestine_k], which is [METEXC_k]
    times the amount in the stage; below the last stage its product is
    the reactant of the reaction of stage [k + 1]; at the last stage
    its product is the feces species of the substance. *)
Theorem excretion_chain (k : nat) (sid : string) :
  (k < n_chain)%nat -> In sid (map fst substance_info) ->
  length (filter is_stage_compartment (compartments model_intestine))
  = n_chain
  /\ length (filter (is_stage_reaction sid) (reactions model_intestine))
     = n_chain
  /\ (exists V,
        volume model_intestine "Vlumen" = Some V
        /\ volume model_intestine ("Vintestine_" ++ str k)
           = Some (V / INR n_chain))
  /\ exists sp r,
       get_species model_intestine (sid ++ "_intestine_" ++ str k)
       = Some sp
       /\ s_compartment sp = "Vintestine_" ++ str k
       /\ s_hasOnlySubstanceUnits sp = false
       /\ get_reaction model_intestine (upper sid ++ "EXC_" ++ str k)
          = Some r
       /\ rx_compartment r = "Vintestine_" ++ str k
       /\ rx_reactant r = s_sid sp
       /\ (forall s : valuation,
             eval s (rx_formula r)
             = s "METEXC_k" * s ("Vintestine_" ++ str k)
               * s (sid ++ "_intestine_" ++ str k)
             /\ Kinetics.amount model_intestine s
                  (sid ++ "_intestine_" ++ str k)
                = Some (s (sid ++ "_intestine_" ++ str k)
                        * s ("Vintestine_" ++ str k))
             /\ eval s (rx_formula r)
                = s "METEXC_k"
                  * (s (sid ++ "_intestine_" ++ str k)
                     * s ("Vintestine_" ++ str k)))
       /\ ((k < n_chain - 1)%nat ->
           exists r',
             get_reaction model_intestine
               (upper sid ++ "EXC_" ++ str (k + 1)) = Some r'
             /\ rx_reactant r' = rx_product r)
       /\ (k = (n_chain - 1)%nat ->
           exists sink,
             get_species model_intestine (sid ++ "_feces") = Some sink
             /\ rx_product r = s_sid sink).
Proof.
  intros Hk Hsid. unfold n_chain in *.
  cbn in Hsid. destruct Hsid as [<- | [<- | []]];
    do 5 (destruct k as [| k]; [chain_case |]); lia.
Qed.

Lemma excretion_chain_last_stage_eg :
  exists sp r sink,
    get_species model_intestine "eg_intestine_4" = Some sp
    /\ s_hasOnlySubstanceUnits sp = false
    /\ get_reaction model_intestine "EGEXC_4" = Some r
    /\ rx_reactant r = s_sid sp
    /\ (forall s : valuation,
          Kinetics.amount model_intestine s "eg_intestine_4"
          = Some (s "eg_intestine_4" * s "Vintestine_4")
          /\ eval s (rx_formula r)
             = s "METEXC_k" * (s "eg_intestine_4" * s "Vintestine_4"))
    /\ get_species model_intestine "eg_feces" = Some sink
    /\ rx_product r = s_sid sink.
Proof.
  assert (Hk : (4 < n_chain)%nat) by (unfold n_chain; lia).
  assert (Hsid : In "eg" (map fst substance_info))
    by (cbn; right; left; reflexivity).
  destruct (excretion_chain 4 "eg" Hk Hsid)
    as (_ & _ & _ & sp & r & Hsp & _ & Hconc & Hr & _ & Hreact & Hrate
        & _ & Hlast).
  destruct (Hlast eq_refl) as (sink & Hsink & Hprod).
  exists sp, r, sink.
  split; [exact Hsp |]. split; [exact Hconc |]. split; [exact Hr |].
  split; [exact Hreact |].
  split; [intros s; exact (proj2 (Hrate s)) |].
  split; assumption.
Defined.

(** C5, as stated, fails: the first stage compartment does not have
    the volume 0.2 L. *)
Lemma stage_volume_is_not_0_2 :
  volume model_intestine "Vintestine_0" <> Some 0.2.
Proof.
  cbn -[Z.pow_pos Q2R IZR]. intros H. injection H as H. lra.
Qed.

(** C5, amended: the chain of the built intestine model has
    [n_chain = 5] stages, every stage compartment has the volume
    [1.2825 * 0.9 / 5 = 0.23085] L, the rate constant [METEXC_k] of the
    chain is 0.001 per minute and the molar mass [Mr_emp] is
    450.909 g/mole. *)
Theorem intestine_chain_scenario (k : nat) :
  (k < n_chain)%nat ->
  n_chain = 5%nat
  /\ length (filter is_stage_compartment (compartments model_intestine))
     = 5%nat
  /\ (exists v,
        volume model_intestine ("Vintestine_" ++ str k) = Some v
        /\ v = 0.23085)
  /\ (exists p,
        get_parameter model_intestine "METEXC_k" = Some p
        /\ p_value p = 0.001 /\ p_unit p = "per_min")
  /\ (exists p,
        get_parameter model_intestine "Mr_emp" = Some p
        /\ p_value p = 450.909 /\ p_unit p = "g_per_mole").
Proof.
  intros Hk. unfold n_chain in *.
  split; [reflexivity |]. split; [reflexivity |].
  split.
  - do 5 (destruct k as [| k];
          [eexists; split; [reflexivity | cbn -[Z.pow_pos Q2R IZR]; lra] |]).
    lia.
  - split; eexists; (split; [reflexivity | split; reflexivity]).
Qed.

Lemma intestine_chain_scenario_stage_2 :
  (2 < n_chain)%nat
  /\ exists v,
       volume model_intestine ("Vintestine_" ++ str 2) = Some v
       /\ v = 0.23085.
Proof.
  assert (Hk : (2 < n_chain)%nat) by (unfold n_chain; lia).
  split; [exact Hk |].
  exact (proj1 (proj2 (proj2 (intestine_chain_scenario 2 Hk)))).
Defined.

End IntestineProperties.

(** ** Heise2013a: the multi-dose simulation *)

Section DosingProperties.
Import Experiment Heise2013a.

Lemma simulations_eq :
  simulations
  = Some (map (fun '(intervention, bodyweight, fpg, dose) =>
                 (intervention,
                  mkTimecourseSim
                    (tc0 bodyweight fpg dose
                       :: replicate 26 (tc1 dose) ++ [tc2 dose])%list))
              [("Placebo", 89.3, 152.1 / 18, 0);
               ("EMP10", 89.6, 164.8 / 18, 10);
               ("EMP25", 89.6, 166.3 / 18, 25);
               ("EMP100", 92.4, 149.4 / 18, 100)]).
Proof. reflexivity. Qed.

Lemma dose_changes_lookup (base : gmap string Quantity) (dose : R) :
  let changes :=
    dict_literal base [("PODOSE_emp", Q_ dose "mg");
                       ("KI__glc_urine", Q_ 0 "mmole")] in
  changes !! "PODOSE_emp" = Some (Q_ dose "mg")
  /\ changes !! "KI__glc_urine" = Some (Q_ 0 "mmole")
  /\ forall sid, sid <> "PODOSE_emp" -> sid <> "KI__glc_urine" ->
                 changes !! sid = base !! sid.
Proof.
  cbn [dict_literal fold_left fst snd]. repeat split.
  - rewrite lookup_insert_ne by done. apply lookup_insert_eq.
  - apply lookup_insert_eq.
  - intros sid H1 H2. now rewrite !lookup_insert_ne by congruence.
Qed.

Lemma last_value_acc (items : list (string * Quantity)) (k : string)
    (acc : option Quantity) :
  fold_left (fun acc kv => if String.eqb (fst kv) k
                           then Some (snd kv) else acc) items acc
  = match fold_left (fun acc kv => if String.eqb (fst kv) k
                                   then Some (snd kv) else acc) items None
    with
    | Some v => Some v
    | None => acc
    end.
Proof.
  revert acc. induction items as [| [a v] items IH]; intros acc;
    [reflexivity |].
  cbn [fold_left fst snd]. rewrite IH.
  rewrite (IH (if String.eqb a k then Some v else None)).
  destruct (fold_left _ items None); [reflexivity |].
  now destruct (String.eqb a k).
Qed.

(** A dict literal read at a key: the last item with that key, or the
    value of the base. *)
Lemma dict_literal_lookup (base : gmap string Quantity)
    (items : list (string * Quantity)) (k : string) :
  dict_literal base items !! k
  = match fold_left (fun acc kv => if String.eqb (fst kv) k
                                   then Some (snd kv) else acc) items None
    with
    | Some v => Some v
    | None => base !! k
    end.
Proof.
  unfold dict_literal. revert base.
  induction items as [| [a v] items IH]; intros base; [reflexivity |].
  cbn [fold_left fst snd].
  rewrite IH, (last_value_acc items k (if String.eqb a k then Some v
                                       else None)).
  destruct (fold_left _ items None); [reflexivity |].
  destruct (String.eqb_spec a k) as [-> | Hne].
  - apply lookup_insert_eq.
  - now apply lookup_insert_ne.
Qed.

(** The changes of the first segment: the default changes, none of
    them overridden, and the four values of the arm. *)
Lemma tc0_changes (bodyweight fpg dose : R) :
  let changes := tc_changes (tc0 bodyweight fpg dose) in
  (forall k q, default_changes !! k = Some q -> changes !! k = Some q)
  /\ changes !! "BW" = Some (Q_ bodyweight "kg")
  /\ changes !! "[KI__fpg]" = Some (Q_ fpg "mM")
  /\ changes !! "PODOSE_emp" = Some (Q_ dose "mg")
  /\ changes !! "KI__glc_urine" = Some (Q_ 0 "mmole")
  /\ dom changes
     = dom default_changes
         ∪ {["BW"; "[KI__fpg]"; "PODOSE_emp"; "KI__glc_urine"]}.
Proof.
  cbn [tc0 tc_changes dict_literal fold_left fst snd].
  assert (Hfree : forall k, k = "BW" \/ k = "[KI__fpg]"
                            \/ k = "PODOSE_emp" \/ k = "KI__glc_urine" ->
                            default_changes !! k = None).
  { intros k Hk. unfold default_changes, _default_changes.
    rewrite dict_literal_lookup, lookup_empty.
    destruct Hk as [-> | [-> | [-> | ->]]]; reflexivity. }
  split; [| split; [| split; [| split; [| split]]]].
  - intros k q Hk.
    assert (Hne : k <> "BW" /\ k <> "[KI__fpg]" /\ k <> "PODOSE_emp"
                  /\ k <> "KI__glc_urine").
    { repeat split; intros ->; rewrite Hfree in Hk by tauto;
        discriminate. }
    destruct Hne as (H1 & H2 & H3 & H4).
    now rewrite !lookup_insert_ne by congruence.
  - rewrite !lookup_insert_ne by done. apply lookup_insert_eq.
  - rewrite !lookup_insert_ne by done. apply lookup_insert_eq.
  - rewrite lookup_insert_ne by done. apply lookup_insert_eq.
  - apply lookup_insert_eq.
  - rewrite !dom_insert_L. set_solver.
Qed.

Lemma tc1_changes_dom (dose : R) :
  dom (tc_changes (tc1 dose)) = {["PODOSE_emp"; "KI__glc_urine"]}.
Proof.
  cbn [tc1 tc_changes dict_literal fold_left fst snd].
  rewrite !dom_insert_L, dom_empty_L. set_solver.
Qed.

(** C4, as stated, fails: in the simulation of the 10 mg arm the
    replayed segment re-applies the dose, but of the cumulative
    excretion amounts it resets the urinary glucose only; the urinary
    amount of the drug, [Aurine_emp], is not among its changes.  The
    final segment is sampled at wider intervals than the replayed
    one. *)
Lemma replayed_segment_keeps_urinary_drug :
  (exists sims sim,
     simulations = Some sims
     /\ In ("EMP10", sim) sims
     /\ nth_error (timecourses sim) 1 = Some (tc1 10)
     /\ last (timecourses sim) = Some (tc2 10))
  /\ In "Aurine_emp" excretion_amounts
  /\ ~ zeroes (tc1 10) "Aurine_emp"
  /\ sampling_interval (tc1 10) < sampling_interval (tc2 10).
Proof.
  split; [| split; [| split]].
  - rewrite simulations_eq. do 2 eexists.
    split; [reflexivity |].
    split; [right; left; reflexivity |].
    split; reflexivity.
  - left. reflexivity.
  - intros [u Hu]. unfold tc1 in Hu. cbn [tc_changes] in Hu.
    destruct (dose_changes_lookup ∅ 10) as (_ & _ & Hother).
    cbv zeta in Hother. rewrite Hother in Hu by discriminate.
    rewrite lookup_empty in Hu. discriminate.
  - unfold sampling_interval. cbn [tc1 tc2 tc_end tc_start tc_steps].
    replace (24 * 60 - 0)%Z with 1440%Z by reflexivity.
    replace (100 * 60 - 0)%Z with 6000%Z by reflexivity.
    lra.
Qed.

(** C4, amended: for every arm of the study the simulation is the
    ordered list of 28 segments: a first 24-hour segment of 500 steps
    whose changes are the fitted defaults, none of them overridden,
    the body weight [BW] and the fasting glucose [[KI__fpg]] of the
    arm, the dose and the reset of the urinary glucose, and nothing
    else; then one and the same 24-hour segment of 500 steps replayed
    26 times; then exactly one final segment of 100 hours, also of 500
    steps.  Every segment re-applies [PODOSE_emp] and resets the
    urinary glucose amount [KI__glc_urine]; the replayed and the final
    segment change nothing else. *)
Theorem multi_dose_segments (intervention : string) (dose : R) :
  In (intervention, dose) doses ->
  exists sims sim first bodyweight fpg,
    simulations = Some sims
    /\ In (intervention, sim) sims
    /\ getitem bodyweights intervention = Some bodyweight
    /\ getitem fpgs intervention = Some fpg
    /\ timecourses sim
       = (first :: replicate 26 (tc1 dose) ++ [tc2 dose])%list
    /\ length (timecourses sim) = 28%nat
    /\ (tc_start first = 0 /\ tc_end first = 24 * 60
        /\ tc_steps first = 500)%Z
    /\ (forall k q, default_changes !! k = Some q ->
                    tc_changes first !! k = Some q)
    /\ tc_changes first !! "BW" = Some (Q_ bodyweight "kg")
    /\ tc_changes first !! "[KI__fpg]" = Some (Q_ fpg "mM")
    /\ dom (tc_changes first)
       = dom default_changes
           ∪ {["BW"; "[KI__fpg]"; "PODOSE_emp"; "KI__glc_urine"]}
    /\ (tc_start (tc1 dose) = 0 /\ tc_end (tc1 dose) = 24 * 60
        /\ tc_steps (tc1 dose) = 500)%Z
    /\ (tc_start (tc2 dose) = 0 /\ tc_end (tc2 dose) = 100 * 60
        /\ tc_steps (tc2 dose) = 500)%Z
    /\ (forall tc, In tc (timecourses sim) ->
          tc_changes tc !! "PODOSE_emp" = Some (Q_ dose "mg")
          /\ zeroes tc "KI__glc_urine")
    /\ dom (tc_changes (tc1 dose)) = {["PODOSE_emp"; "KI__glc_urine"]}
    /\ tc_changes (tc2 dose) = tc_changes (tc1 dose).
Proof.
  intros Hin.
  assert (Hseg : forall bodyweight fpg tc,
             In tc (tc0 bodyweight fpg dose
                      :: replicate 26 (tc1 dose) ++ [tc2 dose])%list ->
             tc_changes tc !! "PODOSE_emp" = Some (Q_ dose "mg")
             /\ zeroes tc "KI__glc_urine").
  { intros bodyweight fpg tc [<- | Htc].
    - destruct (tc0_changes bodyweight fpg dose)
        as (_ & _ & _ & Hd & Hz & _).
      split; [exact Hd | eexists; exact Hz].
    - apply in_app_or in Htc.
      destruct (dose_changes_lookup ∅ dose) as (Hd & Hz & _).
      destruct Htc as [Htc | [<- | []]].
      + apply list_elem_of_In, elem_of_replicate in Htc.
        destruct Htc as [-> _].
        split; [exact Hd | eexists; exact Hz].
      + split; [exact Hd | eexists; exact Hz]. }
  rewrite simulations_eq.
  cbn in Hin.
  destruct Hin as [Heq | [Heq | [Heq | [Heq | []]]]];
    injection Heq as <- <-;
    do 5 eexists;
    (split; [reflexivity |]);
    (split; [cbn; auto 6 |]);
    (split; [reflexivity |]);
    (split; [reflexivity |]);
    (split; [reflexivity |]);
    (split; [reflexivity |]);
    (split; [repeat split |]);
    (split; [apply tc0_changes |]);
    (split; [apply tc0_changes |]);
    (split; [apply tc0_changes |]);
    (split; [apply tc0_changes |]);
    (split; [repeat split |]);
    (split; [repeat split |]);
    (split; [apply Hseg |]);
    (split; [apply tc1_changes_dom | reflexivity]).
Qed.

Lemma multi_dose_segments_EMP10 :
  In ("EMP10", 10) doses
  /\ exists sims sim first,
       simulations = Some sims
       /\ In ("EMP10", sim) sims
       /\ timecourses sim
          = (first :: replicate 26 (tc1 10) ++ [tc2 10])%list
       /\ tc_changes first !! "BW" = Some (Q_ 89.6 "kg")
       /\ tc_changes first !! "[KI__fpg]" = Some (Q_ (164.8 / 18) "mM")
       /\ (forall k q, default_changes !! k = Some q ->
                       tc_changes first !! k = Some q).
Proof.
  assert (Hin : In ("EMP10", 10) doses) by (right; left; reflexivity).
  split; [exact Hin |].
  destruct (multi_dose_segments "EMP10" 10 Hin)
    as (sims & sim & first & bodyweight & fpg & Hs & Hi & Hbw & Hfpg & Ht
        & _ & _ & Hdef & HBW & HFPG & _).
  injection Hbw as <-. injection Hfpg as <-.
  exists sims, sim, first.
  split; [exact Hs |]. split; [exact Hi |]. split; [exact Ht |].
  split; [exact HBW |]. split; [exact HFPG | exact Hdef].
Defined.

End DosingProperties.

(** ** Pharmacokinetic rows *)

Section PKProperties.
Import Experiment PK Inputs.

Variable TimecoursePK :
  list R -> list R -> string -> R -> R -> gmap string cell.

Lemma concat_imap_length {A B : Type} (g : nat -> B -> list A)
    (n : nat) (l : list B) :
  (forall k x, length (g k x) = n) ->
  length (concat (imap g l)) = (length l * n)%nat.
Proof.
  revert g. induction l as [| x l IH]; intros g Hg; [reflexivity |].
  cbn [imap concat length]. rewrite length_app, Hg, IH.
  - cbn. lia.
  - intros k y. apply Hg.
Qed.

Lemma concat_imap_lookup {A B : Type} (g : nat -> B -> list A)
    (n : nat) (l : list B) (k j : nat) (x : B) :
  (forall k x, length (g k x) = n) ->
  l !! k = Some x -> (j < n)%nat ->
  concat (imap g l) !! (k * n + j)%nat = g k x !! j.
Proof.
  revert g k. induction l as [| y l IH]; intros g k Hg Hk Hj.
  - discriminate.
  - cbn [imap concat]. destruct k as [| k].
    + injection Hk as ->. cbn [Nat.mul Nat.add].
      apply lookup_app_l. rewrite Hg. exact Hj.
    + cbn in Hk. rewrite lookup_app_r by (rewrite Hg; lia).
      rewrite Hg.
      replace (S k * n + j - n)%nat with (k * n + j)%nat by lia.
      apply (IH (g ∘ S) k); [intros; apply Hg | exact Hk | exact Hj].
Qed.

Lemma pk_rows_of_dose_length (xres : XResult) (k_dose : nat) (dose : R) :
  length (pk_rows_of_dose TimecoursePK xres k_dose dose) = 3%nat.
Proof. reflexivity. Qed.

(** C6: for a result with exactly one scanned dimension, whose dose
    vector (the row of [PODOSE_emp] at the first time point) is
    [dose_vec], the function returns a frame of three rows per scan
    index: the row of scan index [k_dose] and the [k_sid]-th of the
    substances empagliflozin, empagliflozin-glucuronide and total
    empagliflozin is at position [3 * k_dose + k_sid], holds the
    metrics of that time course and is tagged with that substance. *)
Theorem pk_rows_per_dose_and_substance (xres : XResult)
    (dose_vec : list R) (later : list (list R)) :
  length (_redop_dims xres) = 1%nat ->
  values xres "PODOSE_emp" = dose_vec :: later ->
  exists rows,
    calculate_empagliflozin_pk TimecoursePK xres = Some rows
    /\ length rows = (length dose_vec * length substances)%nat
    /\ forall k_dose k_sid dose sid substance,
         dose_vec !! k_dose = Some dose ->
         substance_ids !! k_sid = Some sid ->
         substances !! k_sid = Some substance ->
         exists row,
           rows !! (k_dose * 3 + k_sid)%nat = Some row
           /\ row = pk_row TimecoursePK xres k_dose
                          (dose / magnitude Mr_emp) k_sid sid
           /\ row !! "substance" = Some (Text substance).
Proof.
  intros Hdim Hdose.
  unfold calculate_empagliflozin_pk. rewrite Hdose.
  destruct (_redop_dims xres) as [| scandim dims]; [discriminate |].
  eexists. split; [reflexivity |]. split.
  - apply concat_imap_length. intros. apply pk_rows_of_dose_length.
  - intros k_dose k_sid dose sid substance Hd Hsid Hsub.
    assert (Hlt : (k_sid < 3)%nat).
    { apply lookup_lt_Some in Hsid. exact Hsid. }
    rewrite (concat_imap_lookup _ 3 dose_vec k_dose k_sid dose
               (pk_rows_of_dose_length xres) Hd Hlt).
    unfold pk_rows_of_dose.
    destruct k_sid as [| [| [| k_sid]]]; [| | | lia];
      cbn in Hsid, Hsub; injection Hsid as <-; injection Hsub as <-;
      (eexists; split; [reflexivity |]; split; [reflexivity |]);
      apply lookup_insert_eq.
Qed.

End PKProperties.

Lemma pk_rows_of_dose_scan :
  length (PK._redop_dims Inputs.dose_scan) = 1%nat
  /\ exists rows,
       PK.calculate_empagliflozin_pk Inputs.dose_only Inputs.dose_scan
       = Some rows
       /\ length rows = 6%nat.
Proof.
  assert (Hdim : length (PK._redop_dims Inputs.dose_scan) = 1%nat)
    by reflexivity.
  assert (Hdose : PK.values Inputs.dose_scan "PODOSE_emp"
                  = [10; 25] :: [[4; 11]]) by reflexivity.
  split; [exact Hdim |].
  destruct (pk_rows_per_dose_and_substance Inputs.dose_only
              Inputs.dose_scan [10; 25] [[4; 11]] Hdim Hdose)
    as (rows & Hrows & Hlen & _).
  exists rows. split; [exact Hrows | exact Hlen].
Defined.

(** ** The control filter *)

Section FilterProperties.
Import Fit Inputs.

Lemma filter_control_eq (key : string) (fm : FitMapping) :
  filter_control key fm
  = bool_decide (route (metadata fm) ∈ [PO; IV])
    && bool_decide (coadministration (metadata fm) = NONE)
    && bool_decide (health (metadata fm) ∈ [HEALTHY; T2DM; HYPERTENSION])
    && bool_decide (fasting (metadata fm) ∈ [FASTED; NR])
    && negb (outlier (metadata fm)).
Proof.
  unfold filter_control.
  repeat case_bool_decide; destruct (outlier (metadata fm)); reflexivity.
Qed.

(** C7: the control filter is a total boolean predicate on fit
    mappings.  It is true exactly when the metadata has a route among
    PO and IV, no coadministration, a health among HEALTHY, T2DM and
    HYPERTENSION, a fasting among FASTED and NR, and is not flagged as
    outlier; a mapping flagged as outlier gets the value [false]; and
    metadata built without the outlier argument are not flagged. *)
Theorem filter_control_spec (key : string) (fm : FitMapping) :
  (filter_control key fm = true <->
   route (metadata fm) ∈ [PO; IV]
   /\ coadministration (metadata fm) = NONE
   /\ health (metadata fm) ∈ [HEALTHY; T2DM; HYPERTENSION]
   /\ fasting (metadata fm) ∈ [FASTED; NR]
   /\ outlier (metadata fm) = false)
  /\ (forall t r a d h f c,
        filter_control key
          (mkFitMapping (reference fm) (observable fm)
             (EmpagliflozinMappingMetaData_init t r a d h f c (Some true)))
        = false)
  /\ (forall t r a d h f c,
        outlier (EmpagliflozinMappingMetaData_init t r a d h f c None)
        = false).
Proof.
  split; [| split].
  - rewrite filter_control_eq, !andb_true_iff, !bool_decide_eq_true,
            negb_true_iff.
    tauto.
  - intros. rewrite filter_control_eq. cbn [metadata outlier
      EmpagliflozinMappingMetaData_init default negb].
    apply andb_false_r.
  - reflexivity.
Qed.

Lemma filter_control_accepts_heise2013a_uge :
  filter_control "fm_uge_EMP10" heise2013a_uge = true.
Proof.
  apply (proj1 (filter_control_spec "fm_uge_EMP10" heise2013a_uge)).
  cbn. repeat split.
  - apply list_elem_of_here.
  - apply list_elem_of_further, list_elem_of_here.
  - apply list_elem_of_further, list_elem_of_here.
Defined.

End FilterProperties.

(** ** Conservation of amount *)

Section Conservation.
Import Kinetics.

Lemma upd_same (s : valuation) (x : string) (v : R) : upd s x v x = v.
Proof. unfold upd. now rewrite String.eqb_refl. Qed.

Lemma upd_other (s : valuation) (x y : string) (v : R) :
  String.eqb x y = false -> upd s x v y = s y.
Proof. intros H. unfold upd. now rewrite H. Qed.

Lemma apply_rules_other (rs : list AssignmentRule) (s : valuation)
    (x : string) :
  fresh x (map r_variable rs) = true -> apply_rules rs s x = s x.
Proof.
  unfold apply_rules. revert s.
  induction rs as [| r rs IH]; intros s Hx; [reflexivity |].
  cbn in Hx. apply andb_true_iff in Hx as [Hr Hrs].
  cbn [fold_left]. rewrite IH by exact Hrs.
  apply upd_other. now apply negb_true_iff.
Qed.

Lemma with_rates_other (m : Model) (s : valuation) (x : string) :
  fresh x (map r_variable (rules m)) = true ->
  fresh x (map rx_sid (reactions m)) = true ->
  with_rates m s x = s x.
Proof.
  intros Hrules Hrx. unfold with_rates.
  rewrite <- (apply_rules_other (rules m) s x Hrules).
  generalize (apply_rules (rules m) s) as v.
  induction (reactions m) as [| r rs IH]; intros v; [reflexivity |].
  cbn in Hrx. apply andb_true_iff in Hrx as [Hr Hrs].
  cbn [fold_left]. rewrite IH by exact Hrs.
  apply upd_other. now apply negb_true_iff.
Qed.

Lemma fold_rates_other (rs : list Reaction) (v : valuation) (x : string) :
  fresh x (map rx_sid rs) = true ->
  fold_left (fun v r => upd v (rx_sid r) (eval v (rx_formula r))) rs v x
  = v x.
Proof.
  revert v. induction rs as [| r rs IH]; intros v Hx; [reflexivity |].
  cbn in Hx. apply andb_true_iff in Hx as [Hr Hrs].
  cbn [fold_left]. rewrite IH by exact Hrs.
  apply upd_other. now apply negb_true_iff.
Qed.

(** The value of a formula depends on the symbols it names only. *)
Lemma eval_ext (v v' : valuation) (e : expr) :
  (forall x, In x (symbols e) -> v x = v' x) -> eval v e = eval v' e.
Proof.
  induction e using expr_cond_ind with
    (P0 := fun c =>
             match c with
             | Gt a b =>
                 (forall x, In x (symbols a) -> v x = v' x) ->
                 (forall x, In x (symbols b) -> v x = v' x) ->
                 eval v a = eval v' a /\ eval v b = eval v' b
             end);
    intros H; cbn [eval symbols] in *.
  - reflexivity.
  - apply H. now left.
  - rewrite IHe1, IHe2; auto using in_or_app.
  - rewrite IHe1, IHe2; auto using in_or_app.
  - rewrite IHe1, IHe2; auto using in_or_app.
  - rewrite IHe1, IHe2; auto using in_or_app.
  - now rewrite IHe.
  - rewrite IHe1, IHe2; auto using in_or_app.
  - destruct y1 as [a b].
    assert (Hab : eval v a = eval v' a /\ eval v b = eval v' b)
      by (apply IHe2; intros x Hx; apply H; rewrite !in_app_iff; tauto).
    destruct Hab as [-> ->].
    rewrite IHe1, IHe3;
      [reflexivity | intros x Hx; apply H; rewrite !in_app_iff; tauto ..].
  - intros Hb. split; auto.
Qed.

(** Where the formula of a reaction names no reaction, its flux is its
    rate under the assignment rules. *)
Lemma flux_is_rate (m : Model) (r : Reaction) (s : valuation) :
  names_no_reaction m r = true -> flux m r s = rate m r s.
Proof.
  intros H. unfold flux, rate, with_rates. apply eval_ext.
  intros x Hx. apply fold_rates_other.
  unfold names_no_reaction in H. rewrite forallb_forall in H.
  exact (H x Hx).
Qed.

(** The identifier of a reaction with a name of its own, whose formula
    names no reaction, stands for its rate. *)
Lemma with_rates_sid (m : Model) (r : Reaction) (s : valuation) :
  distinct (map rx_sid (reactions m)) = true ->
  In r (reactions m) ->
  names_no_reaction m r = true ->
  with_rates m s (rx_sid r) = rate m r s.
Proof.
  intros Hd Hin Hn. unfold with_rates, rate.
  unfold names_no_reaction in Hn. rewrite forallb_forall in Hn.
  revert Hd Hn. generalize (apply_rules (rules m) s) as v0.
  apply in_split in Hin as (l1 & l2 & ->).
  intros v0 Hd Hn.
  rewrite fold_left_app. cbn [fold_left].
  rewrite map_app in Hd. cbn [map] in Hd.
  assert (Hl2 : fresh (rx_sid r) (map rx_sid l2) = true).
  { clear Hn. induction l1 as [| r1 l1 IH]; cbn in Hd.
    - apply andb_true_iff in Hd as [Hr _].
      unfold fresh. apply forallb_forall. intros n Hin.
      apply negb_true_iff. apply negb_true_iff in Hr.
      destruct (String.eqb n (rx_sid r)) eqn:E; [| reflexivity].
      apply String.eqb_eq in E. subst n.
      assert (existsb (String.eqb (rx_sid r)) (map rx_sid l2) = true)
        by (apply existsb_exists; exists (rx_sid r);
            split; [exact Hin | apply String.eqb_refl]).
      congruence.
    - apply andb_true_iff in Hd as [_ Hd]. now apply IH. }
  rewrite fold_rates_other by exact Hl2.
  rewrite upd_same. apply eval_ext.
  intros x Hx. apply fold_rates_other.
  specialize (Hn x Hx). rewrite map_app, forallb_app in Hn.
  now apply andb_true_iff in Hn as [Hn _].
Qed.

(** One reaction moves its rate from the reactant to the product:
    summed over a list of distinct species that holds both or neither,
    its contributions cancel. *)
Lemma indicator_sum (x : string) (v : R) (sps : list string) :
  List.NoDup sps ->
  fold_right (fun sp acc => (if String.eqb x sp then v else 0) + acc) 0 sps
  = if existsb (String.eqb x) sps then v else 0.
Proof.
  induction sps as [| sp sps IH]; intros Hnd; [reflexivity |].
  apply NoDup_cons_iff in Hnd as [Hnot Hnd'].
  cbn [fold_right existsb]. rewrite IH by exact Hnd'.
  destruct (String.eqb x sp) eqn:Hx; cbn [orb]; [| lra].
  apply String.eqb_eq in Hx. subst sp.
  destruct (existsb (String.eqb x) sps) eqn:Hex; [| lra].
  exfalso. apply existsb_exists in Hex as (y & Hy & Heq).
  apply String.eqb_eq in Heq. now subst y.
Qed.

Lemma contribution_sum (m : Model) (s : valuation) (r : Reaction)
    (sps : list string) :
  List.NoDup sps ->
  existsb (String.eqb (rx_reactant r)) sps
  = existsb (String.eqb (rx_product r)) sps ->
  fold_right (fun sp acc => contribution m s sp r + acc) 0 sps = 0.
Proof.
  intros Hnd Hclosed. unfold contribution.
  transitivity
    (fold_right (fun sp acc =>
                   (if String.eqb (rx_product r) sp then flux m r s else 0)
                   + acc) 0 sps
     - fold_right (fun sp acc =>
                     (if String.eqb (rx_reactant r) sp then flux m r s
                      else 0) + acc) 0 sps).
  - clear. induction sps as [| sp sps IH]; cbn [fold_right]; [lra |].
    rewrite IH. lra.
  - rewrite !indicator_sum by exact Hnd. rewrite Hclosed. lra.
Qed.

(** The fluxes over a closed list of species cancel. *)
Lemma total_flux_closed (m : Model) (s : valuation) (sps : list string) :
  List.NoDup sps ->
  closed_under (reactions m) sps = true ->
  total_flux m s sps = 0.
Proof.
  intros Hnd Hclosed. unfold total_flux, net_flux.
  revert Hclosed. unfold closed_under.
  generalize (reactions m) as rs.
  induction rs as [| r rs IH]; intros Hclosed.
  - cbn [fold_right]. clear.
    induction sps as [| sp sps IHs]; cbn [fold_right]; [reflexivity |].
    rewrite IHs. lra.
  - cbn in Hclosed. apply andb_true_iff in Hclosed as [Hr Hrs].
    apply Bool.eqb_prop in Hr.
    specialize (IH Hrs).
    transitivity
      (fold_right (fun sp acc => contribution m s sp r + acc) 0 sps
       + fold_right
           (fun sp acc =>
              fold_right (fun r0 acc0 => contribution m s sp r0 + acc0)
                         0 rs + acc) 0 sps).
    + clear. induction sps as [| sp sps IHs]; cbn [fold_right] in *;
        [lra |].
      rewrite IHs. lra.
    + rewrite IH, contribution_sum by assumption. lra.
Qed.

(** X1: reactions conserve amount.  For any model and state, the net
    fluxes over a list of distinct species that contains both ends or
    neither end of every reaction add up to zero. *)
Theorem reactions_conserve_amount (m : Model) (s : valuation)
    (sps : list string) :
  List.NoDup sps ->
  closed_under (reactions m) sps = true ->
  total_flux m s sps = 0.
Proof. exact (total_flux_closed m s sps). Qed.

End Conservation.

Lemma distinct_NoDup (names : list string) :
  Kinetics.distinct names = true -> List.NoDup names.
Proof.
  induction names as [| n names IH]; intros H; [constructor |].
  cbn in H. apply andb_true_iff in H as [Hn Hd].
  constructor; [| now apply IH].
  intros Hin. apply negb_true_iff in Hn.
  assert (Hex : existsb (String.eqb n) names = true).
  { apply existsb_exists. exists n. split; [exact Hin |].
    apply String.eqb_refl. }
  congruence.
Qed.

Lemma reactions_conserve_amount_eg :
  List.NoDup Chain.eg_pools
  /\ Kinetics.closed_under (reactions Intestine.model_intestine)
                           Chain.eg_pools = true
  /\ Kinetics.total_flux Intestine.model_intestine
                         (declared Intestine.model_intestine)
                         Chain.eg_pools = 0.
Proof.
  assert (Hnd : List.NoDup Chain.eg_pools)
    by (apply distinct_NoDup; reflexivity).
  assert (Hcl : Kinetics.closed_under (reactions Intestine.model_intestine)
                                      Chain.eg_pools = true)
    by reflexivity.
  split; [exact Hnd | split; [exact Hcl |]].
  exact (reactions_conserve_amount Intestine.model_intestine
           (declared Intestine.model_intestine) Chain.eg_pools Hnd Hcl).
Defined.

(** ** Balances of the intestine model *)

Section IntestineBalance.
Import Kinetics Intestine Chain.

Lemma intestine_symbol (s : valuation) (x : string) :
  fresh x (map r_variable (rules model_intestine)) = true ->
  fresh x (map rx_sid (reactions model_intestine)) = true ->
  with_rates model_intestine s x = s x.
Proof. apply with_rates_other. Qed.

Lemma dissolution_flux (s : valuation) :
  flux model_intestine dissolution_emp s
  = s "Ka_dis_emp" / 60 * s "PODOSE_emp" / s "Mr_emp".
Proof.
  unfold flux. cbn [rx_formula dissolution_emp eval].
  now rewrite !intestine_symbol by reflexivity.
Qed.

(** X2: in every state of the intestine model the stomach pool is a
    boundary species, the pools of empagliflozin (lumen, plasma, the
    stages of the chain, feces) together gain exactly the dissolution
    flux [Ka_dis_emp / 60 * PODOSE_emp / Mr_emp], and the pools of the
    glucuronide together gain or lose nothing. *)
Theorem intestine_drug_balance (s : valuation) :
  amount_rate model_intestine s "emp_stomach" = 0
  /\ total_flux model_intestine s emp_pools
     = s "Ka_dis_emp" / 60 * s "PODOSE_emp" / s "Mr_emp"
  /\ total_flux model_intestine s eg_pools = 0.
Proof.
  split; [reflexivity |]. split.
  - assert (Hall : total_flux model_intestine s ("emp_stomach" :: emp_pools)
                   = 0).
    { apply total_flux_closed;
        [apply distinct_NoDup |]; reflexivity. }
    assert (Hst : net_flux model_intestine s "emp_stomach"
                  = - flux model_intestine dissolution_emp s).
    { unfold net_flux, contribution. cbn -[flux]. cbv [String.append]. cbn -[flux]. ring. }
    unfold total_flux in *. cbn [fold_right] in Hall.
    rewrite Hst, dissolution_flux in Hall. lra.
  - apply total_flux_closed;
      [apply distinct_NoDup |]; reflexivity.
Qed.

(** X3: the oral dose decays at first order: for a non-zero molar
    mass the rate rule of [PODOSE_emp] is [- Ka_dis_emp / 60 * PODOSE_emp],
    whatever the molar mass, and the dose loses per minute the mass of
    what the dissolution adds to the lumen. *)
Theorem oral_dose_decay (s : valuation) :
  s "Mr_emp" <> 0 ->
  rule_rate model_intestine s "PODOSE_emp"
  = Some (- (s "Ka_dis_emp" / 60) * s "PODOSE_emp")
  /\ rule_rate model_intestine s "PODOSE_emp"
     = Some (- flux model_intestine dissolution_emp s * s "Mr_emp").
Proof.
  intros HMr.
  assert (Hsid : with_rates model_intestine s "dissolution_emp"
                 = flux model_intestine dissolution_emp s).
  { rewrite flux_is_rate by reflexivity.
    apply (with_rates_sid model_intestine dissolution_emp s);
      [reflexivity | | reflexivity].
    cbn. auto 20. }
  assert (Hrule : rule_rate model_intestine s "PODOSE_emp"
                  = Some (- flux model_intestine dissolution_emp s
                          * s "Mr_emp")).
  { unfold rule_rate. cbn -[with_rates flux].
    now rewrite Hsid, intestine_symbol by reflexivity. }
  split; [| exact Hrule].
  rewrite Hrule, dissolution_flux. f_equal. field. exact HMr.
Qed.

Lemma oral_dose_decay_declared :
  declared model_intestine "Mr_emp" <> 0
  /\ rule_rate model_intestine (declared model_intestine) "PODOSE_emp"
     = Some (- (declared model_intestine "Ka_dis_emp" / 60)
             * declared model_intestine "PODOSE_emp").
Proof.
  assert (HMr : declared model_intestine "Mr_emp" <> 0)
    by (cbn -[Z.pow_pos Q2R IZR INR]; lra).
  split; [exact HMr |].
  exact (proj1 (oral_dose_decay (declared model_intestine) HMr)).
Defined.

End IntestineBalance.

(** ** The chain builder for any length *)

Section ChainOfAnyLength.
Import Intestine Chain.

Lemma model_intestine_of_n_chain : model_intestine_of n_chain = model_intestine.
Proof. reflexivity. Qed.

Lemma species_of (n : nat) :
  map s_sid (species (model_intestine_of n))
  = (map s_sid base_species
       ++ flat_map (fun k => [("emp_intestine_" ++ str k)%string;
                              ("eg_intestine_" ++ str k)%string])
                   (seq 0 n))%list.
Proof.
  unfold model_intestine_of, build_chain. cbn [species].
  destruct (chain_upto n n base_model) as (_ & -> & _).
  rewrite map_app. f_equal.
  induction (seq 0 n) as [| k l IH]; [reflexivity |].
  cbn [flat_map map app]. now rewrite map_app, IH.
Qed.

Lemma reactions_of (n : nat) :
  reactions (model_intestine_of n)
  = ([EMPABS; EMPEXC; EGEXC]
       ++ flat_map (fun k => [stage_reaction n k "emp";
                              stage_reaction n k "eg"])
                   (seq 0 n)
       ++ [dissolution_emp])%list.
Proof.
  unfold model_intestine_of, build_chain. cbn [reactions].
  destruct (chain_upto n n base_model) as (_ & _ & -> & _).
  now rewrite <- app_assoc.
Qed.

Lemma stage_species_declared (n k : nat) (sid : string) :
  (k < n)%nat -> sid = "emp" \/ sid = "eg" ->
  In (sid ++ "_intestine_" ++ str k)
     (map s_sid (species (model_intestine_of n))).
Proof.
  intros Hk Hsid. rewrite species_of. apply in_or_app. right.
  apply in_flat_map. exists k. split; [apply in_seq; lia |].
  destruct Hsid as [-> | ->]; cbn; auto.
Qed.

(** X4: for every chain length [n >= 1] every reaction of the built
    intestine model joins two species of that model; with [n = 0] the
    loop adds nothing and the product [emp_intestine_0] of [EMPEXC] is
    not a species of the model. *)
Theorem chain_endpoints_declared (n : nat) :
  (forall r, In r (reactions (model_intestine_of n)) ->
             In (rx_reactant r) (map s_sid (species (model_intestine_of n)))
             /\ In (rx_product r)
                   (map s_sid (species (model_intestine_of n))))
  <-> (1 <= n)%nat.
Proof.
  split.
  - intros H. destruct n as [| n]; [exfalso | lia].
    destruct (H EMPEXC) as [_ Hp]; [cbn; auto |].
    cbn in Hp. intuition discriminate.
  - intros Hn r Hr. rewrite reactions_of in Hr.
    assert (Hbase : forall x, In x (map s_sid base_species) ->
                              In x (map s_sid (species (model_intestine_of n)))).
    { intros x Hx. rewrite species_of. apply in_or_app. now left. }
    apply in_app_or in Hr as [Hr | Hr];
      [| apply in_app_or in Hr as [Hr | Hr]].
    + destruct Hr as [<- | [<- | [<- | []]]]; split;
        try (apply Hbase; cbn; tauto).
      * apply (stage_species_declared n 0 "emp"); [lia | now left].
      * apply (stage_species_declared n 0 "eg"); [lia | now right].
    + apply in_flat_map in Hr as (k & Hk & Hr).
      apply in_seq in Hk.
      assert (Hcase : forall sid, sid = "emp" \/ sid = "eg" ->
                 In (rx_reactant (stage_reaction n k sid))
                    (map s_sid (species (model_intestine_of n)))
                 /\ In (rx_product (stage_reaction n k sid))
                       (map s_sid (species (model_intestine_of n)))).
      { intros sid Hsid. split.
        - apply stage_species_declared; [lia | exact Hsid].
        - cbn [stage_reaction rx_product].
          destruct (k <? n - 1)%nat eqn:Hlast.
          + apply Nat.ltb_lt in Hlast.
            apply stage_species_declared; [lia | exact Hsid].
          + apply Hbase. destruct Hsid as [-> | ->]; cbn; tauto. }
      destruct Hr as [<- | [<- | []]]; apply Hcase; auto.
    + destruct Hr as [<- | []]. split; apply Hbase; cbn; tauto.
Qed.

Lemma chain_endpoints_declared_n_chain :
  (1 <= n_chain)%nat
  /\ In (rx_product EMPEXC)
        (map s_sid (species (model_intestine_of n_chain)))
  /\ In (rx_product (stage_reaction n_chain 4 "eg"))
        (map s_sid (species (model_intestine_of n_chain))).
Proof.
  assert (Hn : (1 <= n_chain)%nat) by (unfold n_chain; lia).
  split; [exact Hn |]. split.
  - refine (proj2 (proj2 (chain_endpoints_declared n_chain) Hn EMPEXC _)).
    cbn. auto.
  - refine (proj2 (proj2 (chain_endpoints_declared n_chain) Hn
                     (stage_reaction n_chain 4 "eg") _)).
    cbn. auto 20.
Defined.

End ChainOfAnyLength.

(** ** Liver: metabolism and bile *)

Section LiverProperties.
Import Kinetics Liver.

Ltac eval_formula := cbn -[Z.pow_pos Q2R IZR].

Lemma liver_rate_is_flux (r : Reaction) (s : valuation) :
  In r [EMPIM; EMP2EG; EGEX; EGBIEX] ->
  flux model_liver r s = rate model_liver r s.
Proof.
  intros [<- | [<- | [<- | [<- | []]]]]; now apply flux_is_rate.
Qed.

(** X5: the bile pool never fills: the enterohepatic circulation
    [EGEHC] runs at the rate [EGBIEX_k * Vli * eg] of the bile export
    [EGBIEX], so the amount of glucuronide in bile does not change and
    the intestinal lumen receives what the liver exports. *)
Theorem bile_pool_is_stationary (s : valuation) :
  flux model_liver EGEHC s = s "EGBIEX_k" * s "Vli" * s "eg"
  /\ flux model_liver EGEHC s = flux model_liver EGBIEX s
  /\ amount_rate model_liver s "eg_bi" = 0
  /\ net_flux model_liver s "eg_lumen" = flux model_liver EGBIEX s.
Proof.
  assert (HE : flux model_liver EGEHC s = flux model_liver EGBIEX s).
  { rewrite (flux_is_rate model_liver EGBIEX) by reflexivity.
    unfold flux at 1. cbn [rx_formula EGEHC eval].
    apply (with_rates_sid model_liver EGBIEX s);
      [reflexivity | cbn; auto 10 | reflexivity]. }
  split; [| split; [| split]].
  - rewrite HE, flux_is_rate by reflexivity. reflexivity.
  - exact HE.
  - unfold amount_rate, net_flux, contribution. cbn -[flux].
    fold EGBIEX EGEHC. rewrite HE. ring.
  - unfold net_flux, contribution. cbn -[flux].
    fold EGBIEX EGEHC. rewrite HE. ring.
Qed.

(** X6: the glucuronidation [EMP2EG] is saturable.  For a
    concentration [emp >= 0], [EMP2EG_Km_emp > 0] and a maximal rate
    [f_ugt * EMP2EG_Vmax * Vli >= 0] the rate lies between zero and the
    maximal rate, is half the maximal rate at [emp = EMP2EG_Km_emp],
    and does not fall when [emp] rises. *)
Theorem glucuronidation_saturates (s : valuation) (e : R) :
  0 <= s "emp" -> s "emp" <= e -> 0 < s "EMP2EG_Km_emp" ->
  0 <= s "f_ugt" * s "EMP2EG_Vmax" * s "Vli" ->
  0 <= rate model_liver EMP2EG s
       <= s "f_ugt" * s "EMP2EG_Vmax" * s "Vli"
  /\ rate model_liver EMP2EG (upd s "emp" (s "EMP2EG_Km_emp"))
     = s "f_ugt" * s "EMP2EG_Vmax" * s "Vli" / 2
  /\ rate model_liver EMP2EG s <= rate model_liver EMP2EG (upd s "emp" e).
Proof.
  intros He Hle HKm HV.
  unfold rate, apply_rules. eval_formula.
  set (V := s "f_ugt" * s "EMP2EG_Vmax" * s "Vli") in *.
  set (Km := s "EMP2EG_Km_emp") in *.
  pose proof (hill_range Km (s "emp") HKm He) as Hh.
  assert (He' : 0 <= e) by lra.
  pose proof (hill_mono Km (s "emp") e HKm He Hle) as Hm.
  replace (s "emp" + Km) with (Km + s "emp") by ring.
  replace (e + Km) with (Km + e) by ring.
  replace (V * s "emp" / (Km + s "emp"))
    with (V * (s "emp" / (Km + s "emp"))) by (unfold Rdiv; ring).
  replace (V * e / (Km + e)) with (V * (e / (Km + e)))
    by (unfold Rdiv; ring).
  repeat split; try nra.
  field. lra.
Qed.

Lemma glucuronidation_saturates_loaded :
  0 < LiverStates.loaded "EMP2EG_Km_emp"
  /\ rate model_liver EMP2EG LiverStates.loaded
     <= rate model_liver EMP2EG (upd LiverStates.loaded "emp" 0.04).
Proof.
  assert (He : 0 <= LiverStates.loaded "emp")
    by (unfold LiverStates.loaded; eval_formula; lra).
  assert (Hle : LiverStates.loaded "emp" <= 0.04)
    by (unfold LiverStates.loaded; eval_formula; lra).
  assert (HKm : 0 < LiverStates.loaded "EMP2EG_Km_emp")
    by (unfold LiverStates.loaded; eval_formula; lra).
  assert (HV : 0 <= LiverStates.loaded "f_ugt"
                    * LiverStates.loaded "EMP2EG_Vmax"
                    * LiverStates.loaded "Vli")
    by (unfold LiverStates.loaded; eval_formula; lra).
  split; [exact HKm |].
  exact (proj2 (proj2 (glucuronidation_saturates LiverStates.loaded 0.04
                         He Hle HKm HV))).
Defined.

(** X7: the exchange between plasma and liver follows the gradient:
    the rates of [EMPIM] and [EGEX] change sign when the two
    concentrations are exchanged, and with a non-zero rate constant and
    liver volume they vanish exactly at equal concentrations. *)
Theorem hepatic_exchange_follows_gradient (s : valuation) :
  s "EMPIM_k" * s "Vli" <> 0 -> s "EGEX_k" * s "Vli" <> 0 ->
  rate model_liver EMPIM
       (upd (upd s "emp_ext" (s "emp")) "emp" (s "emp_ext"))
  = - rate model_liver EMPIM s
  /\ rate model_liver EGEX
          (upd (upd s "eg" (s "eg_ext")) "eg_ext" (s "eg"))
     = - rate model_liver EGEX s
  /\ (rate model_liver EMPIM s = 0 <-> s "emp_ext" = s "emp")
  /\ (rate model_liver EGEX s = 0 <-> s "eg" = s "eg_ext").
Proof.
  intros Hk1 Hk2. unfold rate, apply_rules. eval_formula.
  repeat split; try ring; intros H; nra.
Qed.

Lemma hepatic_exchange_follows_gradient_loaded :
  rate model_liver EMPIM
       (upd (upd LiverStates.loaded "emp_ext" (LiverStates.loaded "emp"))
            "emp" (LiverStates.loaded "emp_ext"))
  = - rate model_liver EMPIM LiverStates.loaded
  /\ rate model_liver EMPIM LiverStates.loaded <> 0.
Proof.
  assert (Hk1 : LiverStates.loaded "EMPIM_k" * LiverStates.loaded "Vli" <> 0)
    by (unfold LiverStates.loaded; eval_formula; lra).
  assert (Hk2 : LiverStates.loaded "EGEX_k" * LiverStates.loaded "Vli" <> 0)
    by (unfold LiverStates.loaded; eval_formula; lra).
  destruct (hepatic_exchange_follows_gradient LiverStates.loaded Hk1 Hk2)
    as (Hswap & _ & Hzero & _).
  split; [exact Hswap |].
  intros H0. apply Hzero in H0. revert H0.
  unfold LiverStates.loaded. eval_formula. lra.
Defined.

End LiverProperties.

(** ** Kidney: threshold, glucose dependence and balances *)

Section KidneyBalance.
Import Kinetics Kidney.

Ltac eval_formula := cbn -[Z.pow_pos Q2R IZR].

(** X8: the EC50 is the concentration of half-maximal effect: with
    the drug at [RTG_E50 > 0] the threshold is lowered by half of
    [RTG_delta = RTG_fpg * RTG_max_inhibition], whatever the Hill
    coefficient. *)
Theorem RTG_half_lowered_at_E50 (s : valuation) :
  0 < s "RTG_E50" -> s "emp_ext" = s "RTG_E50" ->
  RTG_value s
  = RTG_fpg_value s - RTG_fpg_value s * s "RTG_max_inhibition" / 2.
Proof.
  intros HE Hemp. rewrite RTG_value_eq, Hemp.
  pose proof (power_pos (s "RTG_E50") (s "RTG_gamma") HE) as Hp.
  field. lra.
Qed.

Lemma RTG_half_lowered_at_E50_treated :
  States.treated "emp_ext" = States.treated "RTG_E50"
  /\ RTG_value States.treated
     = RTG_fpg_value States.treated
       - RTG_fpg_value States.treated
         * States.treated "RTG_max_inhibition" / 2.
Proof.
  assert (HE : 0 < States.treated "RTG_E50")
    by (unfold States.treated; eval_formula; lra).
  assert (Hemp : States.treated "emp_ext" = States.treated "RTG_E50")
    by (unfold States.treated; eval_formula; lra).
  split; [exact Hemp |].
  exact (RTG_half_lowered_at_E50 States.treated HE Hemp).
Defined.

(** X9: the floor is never reached: for a positive baseline, a
    positive maximal inhibition, [RTG_E50 > 0] and a drug
    concentration [emp_ext >= 0] the threshold stays strictly above
    [RTG_fpg * (1 - RTG_max_inhibition)]. *)
Theorem RTG_above_floor (s : valuation) :
  0 < RTG_fpg_value s -> 0 < s "RTG_max_inhibition" ->
  0 < s "RTG_E50" -> 0 <= s "emp_ext" ->
  RTG_fpg_value s * (1 - s "RTG_max_inhibition") < RTG_value s.
Proof.
  intros HF Hmi HE He. rewrite RTG_value_eq.
  pose proof (power_pos (s "RTG_E50") (s "RTG_gamma") HE) as Hc.
  pose proof (power_nonneg (s "emp_ext") (s "RTG_gamma") He) as Hp.
  set (c := power (s "RTG_E50") (s "RTG_gamma")) in *.
  set (p := power (s "emp_ext") (s "RTG_gamma")) in *.
  assert (Hh : p / (c + p) < 1).
  { apply Rmult_lt_reg_r with (c + p); [lra |].
    unfold Rdiv. rewrite Rmult_assoc, Rinv_l by lra. lra. }
  assert (0 < RTG_fpg_value s * s "RTG_max_inhibition")
    by (apply Rmult_lt_0_compat; lra).
  nra.
Qed.

Lemma RTG_above_floor_treated :
  0 < RTG_fpg_value States.treated
  /\ RTG_fpg_value States.treated
     * (1 - States.treated "RTG_max_inhibition")
     < RTG_value States.treated.
Proof.
  assert (HF : 0 < RTG_fpg_value States.treated)
    by (unfold RTG_fpg_value, States.treated, apply_rules;
        eval_formula; lra).
  assert (Hmi : 0 < States.treated "RTG_max_inhibition")
    by (unfold States.treated; eval_formula; lra).
  assert (HE : 0 < States.treated "RTG_E50")
    by (unfold States.treated; eval_formula; lra).
  assert (He : 0 <= States.treated "emp_ext")
    by (unfold States.treated; eval_formula; lra).
  split; [exact HF |].
  exact (RTG_above_floor States.treated HF Hmi HE He).
Defined.

(** In the model the rate of [GLCEX] is zero or affine in plasma
    glucose. *)
Lemma GLCEX_rate_affine (s : valuation) (g : R) :
  let H := power (s "emp_ext") (s "RTG_gamma")
           / (power (s "RTG_E50") (s "RTG_gamma")
              + power (s "emp_ext") (s "RTG_gamma")) in
  let C := s "f_renal_function" * s "GFR_healthy" / s "cf_ml_per_l" in
  let A := 1 - s "RTG_m_fpg" * (1 - s "RTG_max_inhibition" * H) in
  let B := - (s "RTG_base" - s "RTG_m_fpg" * s "fpg_healthy")
             * (1 - s "RTG_max_inhibition" * H) in
  rate model_kidney GLCEX (upd s "fpg" g)
  = if Rgt_dec (A * g + B) 0 then C * (A * g + B) else 0.
Proof.
  intros H C A B. unfold rate, apply_rules. eval_formula.
  match goal with
  | |- context [Rgt_dec g ?X] =>
      replace X with (g - (A * g + B))
        by (subst A B H; unfold Rdiv; ring)
  end.
  fold C.
  destruct (Rgt_dec g _) as [H1 | H1];
    destruct (Rgt_dec (A * g + B) 0) as [H2 | H2];
    try reflexivity; try lra; ring.
Qed.

(** X10: in the model, where the threshold rises with plasma glucose
    through [RTG_fpg], glucose excretion still does not fall when
    plasma glucose rises, provided the slope [RTG_m_fpg] is between 0
    and 1, the maximal inhibition is in [[0, 1]], the drug
    concentration is non-negative, [RTG_E50 > 0], the renal function
    and the healthy filtration rate are non-negative and the
    conversion factor is positive. *)
Theorem GLCEX_rises_with_glucose (s : valuation) (g1 g2 : R) :
  0 <= s "RTG_m_fpg" <= 1 -> 0 <= s "RTG_max_inhibition" <= 1 ->
  0 <= s "emp_ext" -> 0 < s "RTG_E50" ->
  0 <= s "f_renal_function" -> 0 <= s "GFR_healthy" ->
  0 < s "cf_ml_per_l" ->
  g1 <= g2 ->
  rate model_kidney GLCEX (upd s "fpg" g1)
  <= rate model_kidney GLCEX (upd s "fpg" g2).
Proof.
  intros Hm Hmi He HE Hf HG Hcf Hg.
  rewrite !GLCEX_rate_affine. cbv zeta.
  pose proof (power_pos (s "RTG_E50") (s "RTG_gamma") HE) as Hc.
  pose proof (power_nonneg (s "emp_ext") (s "RTG_gamma") He) as Hp.
  pose proof (hill_range _ _ Hc Hp) as Hh.
  set (H := power (s "emp_ext") (s "RTG_gamma")
            / (power (s "RTG_E50") (s "RTG_gamma")
               + power (s "emp_ext") (s "RTG_gamma"))) in *.
  set (C := s "f_renal_function" * s "GFR_healthy" / s "cf_ml_per_l").
  set (A := 1 - s "RTG_m_fpg" * (1 - s "RTG_max_inhibition" * H)).
  set (B := - (s "RTG_base" - s "RTG_m_fpg" * s "fpg_healthy")
              * (1 - s "RTG_max_inhibition" * H)).
  assert (HC : 0 <= C).
  { subst C. apply Rmult_le_pos; [apply Rmult_le_pos; lra |].
    left. now apply Rinv_0_lt_compat. }
  assert (HmiH : 0 <= s "RTG_max_inhibition" * H <= 1) by nra.
  assert (HA : 0 <= A).
  { subst A.
    assert (s "RTG_m_fpg" * (1 - s "RTG_max_inhibition" * H) <= 1) by nra.
    lra. }
  assert (Hlin : A * g1 + B <= A * g2 + B) by nra.
  destruct (Rgt_dec (A * g1 + B) 0) as [H1 | H1];
    destruct (Rgt_dec (A * g2 + B) 0) as [H2 | H2]; try nra.
Qed.

Lemma GLCEX_rises_with_glucose_treated :
  0 <= States.treated "RTG_m_fpg" <= 1
  /\ rate model_kidney GLCEX (upd States.treated "fpg" 8)
     <= rate model_kidney GLCEX (upd States.treated "fpg" 30).
Proof.
  assert (Hm : 0 <= States.treated "RTG_m_fpg" <= 1)
    by (unfold States.treated; eval_formula; lra).
  assert (Hmi : 0 <= States.treated "RTG_max_inhibition" <= 1)
    by (unfold States.treated; eval_formula; lra).
  assert (He : 0 <= States.treated "emp_ext")
    by (unfold States.treated; eval_formula; lra).
  assert (HE : 0 < States.treated "RTG_E50")
    by (unfold States.treated; eval_formula; lra).
  assert (Hf : 0 <= States.treated "f_renal_function")
    by (unfold States.treated; eval_formula; lra).
  assert (HG : 0 <= States.treated "GFR_healthy")
    by (unfold States.treated; eval_formula; lra).
  assert (Hcf : 0 < States.treated "cf_ml_per_l")
    by (unfold States.treated; eval_formula; lra).
  assert (Hg : 8 <= 30) by lra.
  split; [exact Hm |].
  exact (GLCEX_rises_with_glucose States.treated 8 30
           Hm Hmi He HE Hf HG Hcf Hg).
Defined.

(** X11: what the kidney removes from plasma arrives in urine:
    the urinary amounts of the drug and of its glucuronide rise at the
    rates of [EMPEX] and [EGEX], plasma loses the same, plasma glucose
    is a boundary species that the excretion does not lower, and for a
    non-negative state no urinary amount falls. *)
Theorem urine_collects_what_plasma_loses (s : valuation) :
  0 <= s "f_renal_function" -> 0 <= s "Vki" ->
  0 <= s "EMPEX_k" -> 0 <= s "EGEX_k" ->
  0 <= s "emp_ext" -> 0 <= s "eg_ext" ->
  0 <= s "GFR_healthy" -> 0 < s "cf_ml_per_l" ->
  amount_rate model_kidney s "emp_urine" = rate model_kidney EMPEX s
  /\ amount_rate model_kidney s "emp_ext" = - rate model_kidney EMPEX s
  /\ amount_rate model_kidney s "eg_urine" = rate model_kidney EGEX s
  /\ amount_rate model_kidney s "eg_ext" = - rate model_kidney EGEX s
  /\ amount_rate model_kidney s "glc_urine" = rate model_kidney GLCEX s
  /\ amount_rate model_kidney s "fpg" = 0
  /\ 0 <= amount_rate model_kidney s "emp_urine"
  /\ 0 <= amount_rate model_kidney s "eg_urine"
  /\ 0 <= amount_rate model_kidney s "glc_urine".
Proof.
  intros Hf HV Hk1 Hk2 He1 He2 HG Hcf.
  assert (H1 : amount_rate model_kidney s "emp_urine"
               = rate model_kidney EMPEX s).
  { unfold amount_rate, net_flux, contribution. cbn -[flux rate].
    fold EMPEX. rewrite flux_is_rate by reflexivity. ring. }
  assert (H2 : amount_rate model_kidney s "eg_urine"
               = rate model_kidney EGEX s).
  { unfold amount_rate, net_flux, contribution. cbn -[flux rate].
    fold EGEX. rewrite flux_is_rate by reflexivity. ring. }
  assert (H3 : amount_rate model_kidney s "glc_urine"
               = rate model_kidney GLCEX s).
  { unfold amount_rate, net_flux, contribution. cbn -[flux rate].
    fold GLCEX. rewrite flux_is_rate by reflexivity. ring. }
  split; [exact H1 |]. split.
  { unfold amount_rate, net_flux, contribution. cbn -[flux rate].
    fold EMPEX. rewrite flux_is_rate by reflexivity. ring. }
  split; [exact H2 |]. split.
  { unfold amount_rate, net_flux, contribution. cbn -[flux rate].
    fold EGEX. rewrite flux_is_rate by reflexivity. ring. }
  split; [exact H3 |]. split; [reflexivity |].
  rewrite H1, H2, H3. split; [| split].
  - unfold rate, apply_rules. eval_formula.
    repeat apply Rmult_le_pos; assumption.
  - unfold rate, apply_rules. eval_formula.
    repeat apply Rmult_le_pos; assumption.
  - now apply GLCEX_nonneg_in_model.
Qed.

Lemma urine_collects_what_plasma_loses_treated :
  0 <= States.treated "f_renal_function"
  /\ amount_rate model_kidney States.treated "emp_urine"
     = rate model_kidney EMPEX States.treated
  /\ amount_rate model_kidney States.treated "emp_ext"
     = - rate model_kidney EMPEX States.treated.
Proof.
  assert (Hf : 0 <= States.treated "f_renal_function")
    by (unfold States.treated; eval_formula; lra).
  assert (HV : 0 <= States.treated "Vki")
    by (unfold States.treated; eval_formula; lra).
  assert (Hk1 : 0 <= States.treated "EMPEX_k")
    by (unfold States.treated; eval_formula; lra).
  assert (Hk2 : 0 <= States.treated "EGEX_k")
    by (unfold States.treated; eval_formula; lra).
  assert (He1 : 0 <= States.treated "emp_ext")
    by (unfold States.treated; eval_formula; lra).
  assert (He2 : 0 <= States.treated "eg_ext")
    by (unfold States.treated; eval_formula; lra).
  assert (HG : 0 <= States.treated "GFR_healthy")
    by (unfold States.treated; eval_formula; lra).
  assert (Hcf : 0 < States.treated "cf_ml_per_l")
    by (unfold States.treated; eval_formula; lra).
  pose proof (urine_collects_what_plasma_loses States.treated
                Hf HV Hk1 Hk2 He1 He2 HG Hcf) as (H1 & H2 & _).
  split; [exact Hf |]. split; [exact H1 | exact H2].
Defined.

End KidneyBalance.

(** ** Splitting and joining *)

Section TextProperties.
Import Text.
Local Open Scope string_scope.

Example split_task_sid :
  split "__" "task_EMP10__KI__UGE" = ["task_EMP10"; "KI"; "UGE"].
Proof. reflexivity. Qed.

Example split_leftmost : split "__" "a___b" = ["a"; "_b"].
Proof. reflexivity. Qed.

Example split_only_separator : split "__" "__" = [""; ""].
Proof. reflexivity. Qed.

(** One step of [String.append], which does not simplify by itself. *)
Lemma append_cons (c : ascii) (a b : string) :
  String c a ++ b = String c (a ++ b).
Proof. reflexivity. Qed.

Lemma append_nil_r (s : string) : s ++ "" = s.
Proof.
  induction s as [| c s IH]; [reflexivity |].
  now rewrite append_cons, IH.
Qed.

Lemma append_assoc (a b c : string) : (a ++ b) ++ c = a ++ (b ++ c).
Proof.
  induction a as [| x a IH]; [reflexivity |].
  now rewrite !append_cons, IH.
Qed.

Lemma length_append (a b : string) :
  String.length (a ++ b) = (String.length a + String.length b)%nat.
Proof.
  induction a as [| x a IH]; [reflexivity |].
  rewrite append_cons. cbn [String.length]. now rewrite IH.
Qed.

Lemma prefix_split (p s : string) :
  String.prefix p s = true -> exists rest, s = p ++ rest.
Proof.
  revert s. induction p as [| c p IH]; intros s H.
  - now exists s.
  - destruct s as [| d s]; [discriminate |].
    cbn [String.prefix] in H.
    destruct (ascii_dec c d) as [-> | _]; [| discriminate].
    destruct (IH s H) as [rest ->]. now exists rest.
Qed.

Lemma split_from_skip (sep t rest piece : string) :
  split_from sep (t ++ rest) piece (String.length t)
  = split_from sep rest piece 0.
Proof.
  induction t as [| c t IH]; [now destruct rest |].
  rewrite append_cons. cbn [String.length split_from]. exact IH.
Qed.

Lemma split_from_cons (sep s piece : string) (skip : nat) :
  exists x l, split_from sep s piece skip = x :: l.
Proof.
  revert piece skip. induction s as [| c s IH]; intros piece skip.
  - now exists piece, [].
  - cbn [split_from]. destruct skip as [| k]; [| apply IH].
    destruct (String.prefix sep (String c s)); [| apply IH].
    now eexists _, _.
Qed.

Lemma join_cons (sep x : string) (l : list string) :
  l <> [] -> join sep (x :: l) = x ++ sep ++ join sep l.
Proof. destruct l; [congruence | reflexivity]. Qed.

Lemma join_split_from (sep : string) (n : nat) :
  sep <> "" ->
  forall s piece, (String.length s <= n)%nat ->
    join sep (split_from sep s piece 0) = piece ++ s.
Proof.
  intros Hsep. induction n as [| n IH]; intros s piece Hlen.
  - destruct s; [| cbn in Hlen; lia].
    cbn [split_from join]. now rewrite append_nil_r.
  - destruct s as [| c s];
      [cbn [split_from join]; now rewrite append_nil_r |].
    cbn [split_from].
    destruct (String.prefix sep (String c s)) eqn:Hp.
    + destruct sep as [| c0 sep']; [congruence |].
      destruct (prefix_split _ _ Hp) as [rest Hrest].
      rewrite append_cons in Hrest. injection Hrest as <- ->.
      cbn [String.length].
      replace (S (String.length sep') - 1)%nat with (String.length sep')
        by lia.
      rewrite split_from_skip.
      destruct (split_from_cons (String c sep') rest "" 0) as (x & l & Hx).
      rewrite join_cons by (rewrite Hx; discriminate).
      rewrite IH.
      * reflexivity.
      * cbn [String.length] in Hlen. rewrite length_append in Hlen. lia.
    + rewrite IH by (cbn [String.length] in Hlen; lia).
      rewrite append_assoc. reflexivity.
Qed.

(** Joining what [split] returns restores the text. *)
Lemma join_of_split (sep s : string) :
  sep <> "" -> join sep (split sep s) = s.
Proof.
  intros Hsep. unfold split.
  now rewrite (join_split_from sep (String.length s) Hsep s "").
Qed.

(** X12: splitting and joining on the same non-empty separator gives
    the text back: [sep.join(s.split(sep)) == s]. *)
Theorem join_split (sep s : string) :
  sep <> "" -> join sep (split sep s) = s.
Proof. exact (join_of_split sep s). Qed.

Lemma join_split_task_sid :
  "__" <> "" /\ join "__" (split "__" "task_EMP10__KI__UGE")
                = "task_EMP10__KI__UGE".
Proof.
  assert (H : "__" <> "") by discriminate.
  split; [exact H | exact (join_split "__" "task_EMP10__KI__UGE" H)].
Defined.

End TextProperties.

(** ** The filters on the observable *)

Section FilterObservable.
Import Fit Text Filters.
Local Open Scope string_scope.

Variable y_sid : FitMapping -> string.

Lemma split_clean_head (h rest piece : string) :
  ends_clean h = true ->
  split_from "__" (h ++ "__" ++ rest) piece 0
  = (piece ++ h) :: split_from "__" rest "" 0.
Proof.
  revert piece. induction h as [| c h IH]; intros piece Hc.
  - rewrite append_nil_r. destruct rest; reflexivity.
  - rewrite append_cons.
    assert (Hp : String.prefix "__" (String c (h ++ "__" ++ rest)) = false
                 /\ ends_clean h = true).
    { cbn [ends_clean] in Hc. cbn [String.prefix].
      destruct (ascii_dec "_" c) as [<- | Hne].
      - cbn [Ascii.eqb Bool.eqb] in Hc. cbn in Hc.
        destruct h as [| c' h']; [discriminate |].
        apply andb_true_iff in Hc as [Hc' Hh]. split; [| exact Hh].
        rewrite append_cons. cbn [String.prefix].
        destruct (ascii_dec "_" c') as [<- | _]; [| reflexivity].
        discriminate.
      - split; [reflexivity |].
        destruct (Ascii.eqb c "_") eqn:E; [| exact Hc].
        apply Ascii.eqb_eq in E. congruence. }
    destruct Hp as [Hp Hh].
    cbn [split_from]. rewrite Hp, IH by exact Hh.
    now rewrite append_assoc.
Qed.

Lemma observable_yid_clean (h yid : string) :
  ends_clean h = true -> observable_yid (h ++ "__" ++ yid) = yid.
Proof.
  intros Hc. unfold observable_yid, split.
  rewrite split_clean_head by exact Hc. cbn [tl].
  apply (join_of_split "__" yid). discriminate.
Qed.

Lemma observable_yid_tail (sid : string) :
  observable_yid sid <> "" ->
  exists head, sid = head ++ "__" ++ observable_yid sid.
Proof.
  intros Hne. unfold observable_yid in *.
  pose proof (join_of_split "__" sid) as Hjs.
  unfold split in *.
  destruct (split_from_cons "__" sid "" 0) as (x & l & Hx).
  rewrite Hx in *. cbn [tl] in *.
  destruct l as [| y l]; [now elim Hne |].
  exists x. rewrite <- Hjs at 1 by discriminate. reflexivity.
Qed.

Lemma filter_pk_eq (key : string) (fm : FitMapping) :
  filter_pk y_sid key fm
  = bool_decide (observable_yid (y_sid fm) ∈ pk_yids).
Proof. unfold filter_pk. now case_bool_decide. Qed.

Lemma filter_pd_eq (key : string) (fm : FitMapping) :
  filter_pd y_sid key fm
  = bool_decide (observable_yid (y_sid fm) ∈ pd_yids).
Proof. unfold filter_pd. now case_bool_decide. Qed.

(** X13: a mapping that [filter_pk] or [filter_pd] accepts has an
    observable identifier of the form [head__yid] with [yid] one of the
    listed names, so an identifier without ["__"] is rejected by both;
    and no mapping is accepted by both filters. *)
Theorem observable_filters_accept (key : string) (fm : FitMapping) :
  (filter_pk y_sid key fm = true ->
   exists head yid,
     In yid pk_yids /\ y_sid fm = head ++ "__" ++ yid)
  /\ (filter_pd y_sid key fm = true ->
      exists head yid,
        In yid pd_yids /\ y_sid fm = head ++ "__" ++ yid)
  /\ filter_pk y_sid key fm && filter_pd y_sid key fm = false.
Proof.
  rewrite filter_pk_eq, filter_pd_eq.
  split; [| split].
  - intros H. apply bool_decide_eq_true in H.
    apply list_elem_of_In in H.
    destruct (observable_yid_tail (y_sid fm)) as [head Hhead].
    { intros E. rewrite E in H. cbn in H. intuition discriminate. }
    now exists head, (observable_yid (y_sid fm)).
  - intros H. apply bool_decide_eq_true in H.
    apply list_elem_of_In in H.
    destruct (observable_yid_tail (y_sid fm)) as [head Hhead].
    { intros E. rewrite E in H. cbn in H. intuition discriminate. }
    now exists head, (observable_yid (y_sid fm)).
  - apply andb_false_iff.
    destruct (bool_decide (observable_yid (y_sid fm) ∈ pk_yids)) eqn:Hpk;
      [right | now left].
    apply bool_decide_eq_true, list_elem_of_In in Hpk.
    apply bool_decide_eq_false. rewrite list_elem_of_In.
    intros Hpd. cbn in Hpk, Hpd.
    repeat (destruct Hpk as [Hpk | Hpk]; [rewrite <- Hpk in Hpd;
      intuition discriminate |]). exact Hpk.
Qed.

(** X14: for a task name without ["__"] that does not end in ["_"],
    the filters accept exactly by the name that follows the first
    ["__"]: the identifier [task__yid] passes [filter_pk] when [yid] is
    a pharmacokinetic name and [filter_pd] when [yid] is [KI__RTG] or
    [KI__UGE], whose own ["__"] the joining restores. *)
Theorem observable_filters_by_name (key : string) (fm : FitMapping)
    (task yid : string) :
  ends_clean task = true ->
  y_sid fm = task ++ "__" ++ yid ->
  filter_pk y_sid key fm = bool_decide (yid ∈ pk_yids)
  /\ filter_pd y_sid key fm = bool_decide (yid ∈ pd_yids).
Proof.
  intros Hc Hsid.
  rewrite filter_pk_eq, filter_pd_eq, Hsid, observable_yid_clean
    by exact Hc.
  split; reflexivity.
Qed.

End FilterObservable.

Lemma observable_filters_accept_uge :
  Filters.filter_pd (fun _ => "task_EMP10__KI__UGE") "fm_uge_EMP10"
                    Inputs.heise2013a_uge = true
  /\ exists head yid,
       In yid Filters.pd_yids
       /\ "task_EMP10__KI__UGE" = (head ++ "__" ++ yid)%string.
Proof.
  assert (H : Filters.filter_pd (fun _ => "task_EMP10__KI__UGE")
                "fm_uge_EMP10" Inputs.heise2013a_uge = true)
    by reflexivity.
  split; [exact H |].
  exact (proj1 (proj2 (observable_filters_accept
                         (fun _ => "task_EMP10__KI__UGE")
                         "fm_uge_EMP10" Inputs.heise2013a_uge)) H).
Defined.

Lemma observable_filters_by_name_uge :
  Text.ends_clean "task_EMP10" = true
  /\ Filters.filter_pk (fun _ => "task_EMP10__KI__UGE") "fm_uge_EMP10"
                       Inputs.heise2013a_uge = false
  /\ Filters.filter_pd (fun _ => "task_EMP10__KI__UGE") "fm_uge_EMP10"
                       Inputs.heise2013a_uge = true.
Proof.
  assert (Hc : Text.ends_clean "task_EMP10" = true) by reflexivity.
  split; [exact Hc |].
  destruct (observable_filters_by_name (fun _ => "task_EMP10__KI__UGE")
              "fm_uge_EMP10" Inputs.heise2013a_uge "task_EMP10" "KI__UGE"
              Hc eq_refl) as [Hpk Hpd].
  split; [rewrite Hpk | rewrite Hpd]; reflexivity.
Defined.

(** ** Metadata as a dict *)

Section MetaDictProperties.
Import Fit MetaDict.

Ltac name_inj :=
  match goal with
  | |- forall a b, _ -> a = b =>
      intros a b H; destruct a, b;
      first [reflexivity | discriminate H]
  end.

Lemma Tissue_name_inj : forall a b, Tissue_name a = Tissue_name b -> a = b.
Proof. name_inj. Qed.

Lemma Route_name_inj : forall a b, Route_name a = Route_name b -> a = b.
Proof. name_inj. Qed.

Lemma Dosing_name_inj : forall a b, Dosing_name a = Dosing_name b -> a = b.
Proof. name_inj. Qed.

Lemma ApplicationForm_name_inj :
  forall a b, ApplicationForm_name a = ApplicationForm_name b -> a = b.
Proof. name_inj. Qed.

Lemma Health_name_inj : forall a b, Health_name a = Health_name b -> a = b.
Proof. name_inj. Qed.

Lemma Fasting_name_inj : forall a b, Fasting_name a = Fasting_name b -> a = b.
Proof. name_inj. Qed.

Lemma Coadministration_name_inj :
  forall a b, Coadministration_name a = Coadministration_name b -> a = b.
Proof. name_inj. Qed.

(** X15: [to_dict] loses nothing: it has the eight field names as
    keys, in the order of the fields, and two metadata with the same
    dict are the same. *)
Theorem to_dict_is_injective (m1 m2 : EmpagliflozinMappingMetaData) :
  map fst (to_dict m1)
  = ["tissue"; "route"; "application_form"; "dosing"; "health";
     "fasting"; "coadministration"; "outlier"]%string
  /\ (to_dict m1 = to_dict m2 -> m1 = m2).
Proof.
  split; [reflexivity |].
  destruct m1, m2. unfold to_dict. cbn.
  intros H. injection H as Ht Hr Ha Hd Hh Hf Hc Ho.
  apply Tissue_name_inj in Ht. apply Route_name_inj in Hr.
  apply ApplicationForm_name_inj in Ha. apply Dosing_name_inj in Hd.
  apply Health_name_inj in Hh. apply Fasting_name_inj in Hf.
  apply Coadministration_name_inj in Hc.
  now subst.
Qed.

Lemma to_dict_is_injective_same :
  to_dict (metadata Inputs.heise2013a_uge)
  = to_dict (metadata Inputs.heise2013a_uge)
  /\ metadata Inputs.heise2013a_uge = metadata Inputs.heise2013a_uge.
Proof.
  split; [reflexivity |].
  exact (proj2 (to_dict_is_injective (metadata Inputs.heise2013a_uge)
                  (metadata Inputs.heise2013a_uge)) eq_refl).
Defined.

End MetaDictProperties.

(** ** Dicts in insertion order *)

Section DictProperties.
Import Mappings.
Context {A : Type}.

Lemma setitem_In (d : list (string * A)) (key : string) (value : A)
    (kv : string * A) :
  In kv (setitem d key value) -> kv = (key, value) \/ In kv d.
Proof.
  induction d as [| [k x] d IH]; cbn.
  - intros [<- | []]. now left.
  - destruct (String.eqb_spec k key) as [-> | Hne]; cbn.
    + intros [<- | H]; auto.
    + intros [<- | H]; auto. destruct (IH H); auto.
Qed.

Lemma get_setitem_same (d : list (string * A)) (key : string) (value : A) :
  get (setitem d key value) key = Some value.
Proof.
  induction d as [| [k x] d IH]; cbn.
  - now rewrite String.eqb_refl.
  - destruct (String.eqb_spec k key) as [-> | Hne]; cbn.
    + now rewrite String.eqb_refl.
    + apply String.eqb_neq in Hne. now rewrite Hne.
Qed.

Lemma get_setitem_other (d : list (string * A)) (key k : string)
    (value : A) :
  key <> k -> get (setitem d key value) k = get d k.
Proof.
  intros Hne. induction d as [| [k' x] d IH]; cbn.
  - apply String.eqb_neq in Hne. now rewrite Hne.
  - destruct (String.eqb_spec k' key) as [-> | Hne']; cbn.
    + apply String.eqb_neq in Hne. now rewrite Hne.
    + now rewrite IH.
Qed.

Lemma get_In (d : list (string * A)) (k : string) (v : A) :
  get d k = Some v -> In (k, v) d.
Proof.
  induction d as [| [k' x] d IH]; cbn; [discriminate |].
  destruct (String.eqb_spec k' k) as [-> | Hne].
  - intros [= ->]. now left.
  - intros H. right. now apply IH.
Qed.

Lemma setitem_keys (d : list (string * A)) (key : string) (value : A)
    (k : string) :
  In k (map fst (setitem d key value)) <-> k = key \/ In k (map fst d).
Proof.
  induction d as [| [k' x] d IH]; cbn.
  - intuition.
  - destruct (String.eqb_spec k' key) as [-> | Hne]; cbn.
    + intuition.
    + rewrite IH. intuition.
Qed.

Lemma setitem_NoDup (d : list (string * A)) (key : string) (value : A) :
  List.NoDup (map fst d) -> List.NoDup (map fst (setitem d key value)).
Proof.
  induction d as [| [k' x] d IH]; cbn; intros Hnd.
  - constructor; [intros [] | constructor].
  - inversion Hnd as [| ? ? Hnotin Hnd']; subst.
    destruct (String.eqb_spec k' key) as [-> | Hne]; cbn.
    + now constructor.
    + constructor; [| now apply IH].
      rewrite setitem_keys. intros [-> | H]; [now apply Hne | auto].
Qed.

Lemma In_get (d : list (string * A)) (k : string) (v : A) :
  List.NoDup (map fst d) -> In (k, v) d -> get d k = Some v.
Proof.
  induction d as [| [k' x] d IH]; cbn; intros Hnd; [intros [] |].
  inversion Hnd as [| ? ? Hnotin Hnd']; subst.
  intros [[= -> ->] | H].
  - now rewrite String.eqb_refl.
  - destruct (String.eqb_spec k' k) as [-> | Hne]; [| now apply IH].
    exfalso. apply Hnotin. apply in_map_iff. now exists (k, v).
Qed.

End DictProperties.

(** ** Tasks of an experiment *)

Section TaskProperties.
Import Mappings.

Lemma task_key_inj (a b : string) : "task_" ++ a = "task_" ++ b -> a = b.
Proof. cbv [String.append]. now intros [= ->]. Qed.

Lemma tasks_fold_get {A : Type} (simulations : list (string * A))
    (d0 : list (string * Task)) (t : string) (tk : Task) :
  get (fold_left (fun d kv =>
                    setitem d ("task_" ++ fst kv) (mkTask "model" (fst kv)))
                 simulations d0) t = Some tk
  <-> (exists k, In k (map fst simulations)
                 /\ t = "task_" ++ k /\ tk = mkTask "model" k)
      \/ ((forall k, In k (map fst simulations) -> t <> "task_" ++ k)
          /\ get d0 t = Some tk).
Proof.
  revert d0. induction simulations as [| [a x] l IH]; intros d0.
  - cbn. split.
    + intros H. right. split; [intros k [] | exact H].
    + intros [(k & [] & _) | [_ H]]. exact H.
  - cbn [fold_left fst map]. rewrite IH. clear IH. split.
    + intros [(k & Hk & -> & ->) | [Hno H]].
      * left. exists k. split; [now right | split; reflexivity].
      * destruct (string_dec t ("task_" ++ a)) as [-> | Hne].
        -- rewrite get_setitem_same in H. injection H as <-.
           left. exists a. split; [now left | split; reflexivity].
        -- rewrite get_setitem_other in H by congruence.
           right. split; [| exact H].
           intros k [<- | Hk]; [exact Hne | now apply Hno].
    + intros [(k & [<- | Hk] & -> & ->) | [Hno H]].
      * destruct (in_dec string_dec a (map fst l)) as [Hin | Hnotin].
        -- left. exists a. split; [exact Hin | split; reflexivity].
        -- right. split.
           ++ intros k Hk E. apply task_key_inj in E. now subst.
           ++ apply get_setitem_same.
      * left. exists k. split; [exact Hk | split; reflexivity].
      * right. split.
        -- intros k Hk. apply Hno. now right.
        -- rewrite get_setitem_other; [exact H |].
           intros E. apply (Hno a); [now left | now symmetry].
Qed.

(** X16: the tasks of an experiment are one per simulation:
    [tasks()] has the key [t] exactly when [t] is ["task_" + key] for a
    key of the simulations, and that task runs the simulation [key] on
    the model ["model"]; without simulations there are no tasks. *)
Theorem tasks_one_per_simulation {A : Type}
    (simulations : list (string * A)) (t : string) (tk : Task) :
  get (tasks simulations) t = Some tk
  <-> exists k, In k (map fst simulations)
                /\ t = "task_" ++ k /\ tk = mkTask "model" k.
Proof.
  unfold tasks. destruct simulations as [| kv l].
  - cbn. split; [discriminate | intros (k & [] & _)].
  - rewrite tasks_fold_get. split.
    + intros [H | [_ H]]; [exact H | discriminate].
    + intros H. now left.
Qed.

End TaskProperties.

(** ** Heise2013a: simulations and fit mappings *)

Section Heise2013aProperties.
Import Experiment Fit Mappings.

Lemma simulations_loop_app (items : list (string * R))
    (acc : list (string * TimecourseSim)) :
  Heise2013a.simulations_loop items acc
  = match Heise2013a.simulations_loop items [] with
    | Some sims => Some (acc ++ sims)%list
    | None => None
    end.
Proof.
  revert acc. induction items as [| [i d] items IH]; intros acc.
  - cbn. now rewrite app_nil_r.
  - cbn [Heise2013a.simulations_loop].
    destruct (Heise2013a.simulation i d) as [sim |]; [| reflexivity].
    rewrite IH. rewrite (IH ([] ++ [(i, sim)])%list).
    destruct (Heise2013a.simulations_loop items []) as [sims |];
      [| reflexivity].
    now rewrite <- app_assoc.
Qed.

Lemma simulation_None (i : string) (d : R) :
  Heise2013a.simulation i d = None
  <-> getitem Heise2013a.bodyweights i = None
      \/ getitem Heise2013a.fpgs i = None.
Proof.
  unfold Heise2013a.simulation.
  destruct (getitem Heise2013a.bodyweights i),
           (getitem Heise2013a.fpgs i);
    (split; [intros H | intros [H | H]]);
    try discriminate; auto.
Qed.

(** X17: the simulations of Heise2013a need a body weight and a
    fasting glucose for every arm of the dose table: the loop fails
    with a [KeyError] exactly when an arm is missing in [bodyweights]
    or in [fpgs]; otherwise it returns one simulation per arm, under
    the keys of the dose table in their order, each with 28
    segments. *)
Theorem simulations_need_every_arm (items : list (string * R)) :
  List.NoDup (map fst items) ->
  (Heise2013a.simulations_loop items [] = None
   <-> exists i, In i (map fst items)
                 /\ (getitem Heise2013a.bodyweights i = None
                     \/ getitem Heise2013a.fpgs i = None))
  /\ (forall sims,
        Heise2013a.simulations_loop items [] = Some sims ->
        map fst sims = map fst items
        /\ forall i sim, In (i, sim) sims ->
                         length (timecourses sim) = 28%nat).
Proof.
  intros _. induction items as [| [i d] items [IHn IHs]].
  - split.
    + cbn. split; [discriminate | intros (i & [] & _)].
    + intros sims [= <-]. split; [reflexivity | intros i sim []].
  - cbn [Heise2013a.simulations_loop].
    destruct (Heise2013a.simulation i d) as [sim |] eqn:Hsim.
    + rewrite simulations_loop_app.
      assert (Hok : ~ (getitem Heise2013a.bodyweights i = None
                       \/ getitem Heise2013a.fpgs i = None)).
      { intros H. apply simulation_None with (d := d) in H. congruence. }
      destruct (Heise2013a.simulations_loop items []) as [sims |].
      * split.
        -- split; [discriminate |].
           intros (j & [<- | Hj] & H); [now apply Hok in H |].
           assert (E : Some sims = None) by (apply IHn; now exists j).
           discriminate E.
        -- intros sims' [= <-]. destruct (IHs sims eq_refl) as [Hk Hlen].
           split; [cbn; now rewrite Hk |].
           intros j s [[= <- <-] | Hin]; [| now apply (Hlen j)].
           unfold Heise2013a.simulation in Hsim.
           destruct (getitem Heise2013a.bodyweights i),
                    (getitem Heise2013a.fpgs i); try discriminate.
           injection Hsim as <-. reflexivity.
      * split; [| discriminate].
        split; [| reflexivity]. intros _.
        destruct (proj1 IHn eq_refl) as (j & Hj & H).
        exists j. split; [now right | exact H].
    + split; [| discriminate].
      split; [| reflexivity]. intros _.
      exists i. split; [now left | now apply (simulation_None i d)].
Qed.

Lemma simulations_need_every_arm_doses :
  List.NoDup (map fst Heise2013a.doses)
  /\ exists sims,
       Heise2013a.simulations = Some sims
       /\ map fst sims = ["Placebo"; "EMP10"; "EMP25"; "EMP100"].
Proof.
  assert (Hnd : List.NoDup (map fst Heise2013a.doses))
    by (apply distinct_NoDup; reflexivity).
  split; [exact Hnd |].
  destruct (simulations_need_every_arm Heise2013a.doses Hnd) as [Hn Hs].
  unfold Heise2013a.simulations.
  destruct (Heise2013a.simulations_loop Heise2013a.doses []) as [sims |].
  - exists sims. split; [reflexivity |]. exact (proj1 (Hs sims eq_refl)).
  - exfalso. destruct (proj1 Hn eq_refl) as (i & Hi & H).
    cbn in Hi.
    destruct Hi as [<- | [<- | [<- | [<- | []]]]];
      cbn in H; destruct H; discriminate.
Defined.

Lemma add_mapping_In (i : string) (d : R)
    (items : list (string * string))
    (acc : list (string * StudyMapping)) (kv : string * StudyMapping) :
  In kv (fold_left (Mappings.Heise2013a.add_mapping i d) items acc) ->
  In kv acc
  \/ exists sid name,
       In (sid, name) items
       /\ (name = "empagliflozin" -> d <> 0%R)
       /\ kv = ("fm_" ++ name ++ "_" ++ i,
                Mappings.Heise2013a.mapping i sid name).
Proof.
  revert acc. induction items as [| [sid name] items IH]; intros acc.
  - cbn. now left.
  - cbn [fold_left]. intros H. apply IH in H as [H | H].
    + unfold Mappings.Heise2013a.add_mapping in H. cbn [fst snd] in H.
      destruct (String.eqb_spec name "empagliflozin") as [-> | Hne];
        cbn [andb] in H.
      * unfold is_zero in H.
        destruct (Req_dec_T d 0) as [Hd | Hd]; [now left |].
        apply setitem_In in H as [-> | H]; [| now left].
        right. exists sid, "empagliflozin".
        split; [now left | split; [auto | reflexivity]].
      * apply setitem_In in H as [-> | H]; [| now left].
        right. exists sid, name.
        split; [now left | split; [congruence | reflexivity]].
    + right. destruct H as (sid' & name' & Hin & Hd & E).
      exists sid', name'. split; [now right | split; assumption].
Qed.

Lemma fit_mappings_In (doses : list (string * R))
    (acc : list (string * StudyMapping)) (kv : string * StudyMapping) :
  In kv (fold_left (fun mappings arm =>
                      fold_left (Mappings.Heise2013a.add_mapping
                                   (fst arm) (snd arm))
                                Mappings.Heise2013a.info mappings)
                   doses acc) ->
  In kv acc
  \/ exists i d sid name,
       In (i, d) doses
       /\ In (sid, name) Mappings.Heise2013a.info
       /\ (name = "empagliflozin" -> d <> 0%R)
       /\ kv = ("fm_" ++ name ++ "_" ++ i,
                Mappings.Heise2013a.mapping i sid name).
Proof.
  revert acc. induction doses as [| [i d] doses IH]; intros acc.
  - cbn. now left.
  - cbn [fold_left fst snd]. intros H. apply IH in H as [H | H].
    + apply add_mapping_In in H as [H | (sid & name & Hin & Hd & E)];
        [now left |].
      right. exists i, d, sid, name. split; [now left | auto].
    + right. destruct H as (i' & d' & sid & name & Hin & H).
      exists i', d', sid, name. split; [now right | exact H].
Qed.

(** X18: every fit mapping of Heise2013a, for any dose table, passes
    the control filter, compares a data set with the task of an arm of
    the dose table, reads urine for ["KI__UGE"] and plasma for
    ["[Cve_emp]"], and a mapping of the plasma concentration exists
    only for an arm with a dose other than zero. *)
Theorem heise2013a_mappings (doses : list (string * R)) (key : string)
    (fm : StudyMapping) :
  In (key, fm) (Mappings.Heise2013a.fit_mappings doses) ->
  filter_control key (as_FitMapping fm) = true
  /\ exists i d,
       In (i, d) doses
       /\ fd_task (sm_observable fm) = Some ("task_" ++ i)
       /\ (fd_yid (sm_observable fm) = "[Cve_emp]"
           /\ tissue (sm_metadata fm) = PLASMA /\ d <> 0%R
           /\ key = "fm_empagliflozin_" ++ i
           \/ fd_yid (sm_observable fm) = "KI__UGE"
              /\ tissue (sm_metadata fm) = URINE
              /\ key = "fm_uge_" ++ i).
Proof.
  intros H. apply fit_mappings_In in H as [[] | H].
  destruct H as (i & d & sid & name & Hin & Hinfo & Hd & [= -> ->]).
  destruct Hinfo as [[= <- <-] | [[= <- <-] | []]].
  - split; [reflexivity |]. exists i, d.
    split; [exact Hin | split; [reflexivity |]].
    left. repeat split; auto.
  - split; [reflexivity |]. exists i, d.
    split; [exact Hin | split; [reflexivity |]].
    right. repeat split.
Qed.

Lemma arm_mappings_get_uge (i' i : string) (d' : R)
    (acc : list (string * StudyMapping)) :
  get (fold_left (Mappings.Heise2013a.add_mapping i' d')
                 Mappings.Heise2013a.info acc) ("fm_uge_" ++ i)
  = if String.eqb i' i
    then Some (Mappings.Heise2013a.mapping i "KI__UGE" "uge")
    else get acc ("fm_uge_" ++ i).
Proof.
  cbn [fold_left Mappings.Heise2013a.info].
  unfold Mappings.Heise2013a.add_mapping at 1. cbn [fst snd].
  change ("uge" =? "empagliflozin")%string with false. cbn [andb].
  change ("fm_" ++ "uge" ++ "_" ++ i') with ("fm_uge_" ++ i').
  destruct (String.eqb_spec i' i) as [-> | Hne].
  - apply get_setitem_same.
  - rewrite get_setitem_other.
    + unfold Mappings.Heise2013a.add_mapping. cbn [fst snd].
      destruct (("empagliflozin" =? "empagliflozin")%string
                && is_zero d'); [reflexivity |].
      apply get_setitem_other. cbv [String.append]. discriminate.
    + cbv [String.append]. intros [= E]. now apply Hne.
Qed.

Lemma arm_mappings_get_emp (i' i : string) (d' : R)
    (acc : list (string * StudyMapping)) :
  get (fold_left (Mappings.Heise2013a.add_mapping i' d')
                 Mappings.Heise2013a.info acc) ("fm_empagliflozin_" ++ i)
  = if String.eqb i' i && negb (is_zero d')
    then Some (Mappings.Heise2013a.mapping i "[Cve_emp]" "empagliflozin")
    else get acc ("fm_empagliflozin_" ++ i).
Proof.
  cbn [fold_left Mappings.Heise2013a.info].
  unfold Mappings.Heise2013a.add_mapping at 1. cbn [fst snd].
  change ("uge" =? "empagliflozin")%string with false. cbn [andb].
  rewrite get_setitem_other
    by (cbv [String.append]; discriminate).
  unfold Mappings.Heise2013a.add_mapping. cbn [fst snd].
  change ("empagliflozin" =? "empagliflozin")%string with true.
  cbn [andb].
  change ("fm_" ++ "empagliflozin" ++ "_" ++ i')
    with ("fm_empagliflozin_" ++ i').
  destruct (is_zero d'); cbn [negb].
  - now rewrite andb_false_r.
  - rewrite andb_true_r. destruct (String.eqb_spec i' i) as [-> | Hne].
    + apply get_setitem_same.
    + apply get_setitem_other. cbv [String.append].
      intros [= E]. now apply Hne.
Qed.

Lemma fit_mappings_get_uge (doses : list (string * R)) (i : string)
    (acc : list (string * StudyMapping)) :
  get (fold_left (fun mappings arm =>
                    fold_left (Mappings.Heise2013a.add_mapping
                                 (fst arm) (snd arm))
                              Mappings.Heise2013a.info mappings)
                 doses acc) ("fm_uge_" ++ i)
  = if existsb (fun arm => String.eqb (fst arm) i) doses
    then Some (Mappings.Heise2013a.mapping i "KI__UGE" "uge")
    else get acc ("fm_uge_" ++ i).
Proof.
  revert acc. induction doses as [| [i' d'] doses IH]; intros acc;
    [reflexivity |].
  cbn [fold_left existsb fst snd]. rewrite IH, arm_mappings_get_uge.
  destruct (existsb _ doses); [now rewrite orb_true_r |].
  rewrite orb_false_r. reflexivity.
Qed.

Lemma fit_mappings_get_emp (doses : list (string * R)) (i : string)
    (acc : list (string * StudyMapping)) :
  get (fold_left (fun mappings arm =>
                    fold_left (Mappings.Heise2013a.add_mapping
                                 (fst arm) (snd arm))
                              Mappings.Heise2013a.info mappings)
                 doses acc) ("fm_empagliflozin_" ++ i)
  = if existsb (fun arm => String.eqb (fst arm) i
                           && negb (is_zero (snd arm))) doses
    then Some (Mappings.Heise2013a.mapping i "[Cve_emp]" "empagliflozin")
    else get acc ("fm_empagliflozin_" ++ i).
Proof.
  revert acc. induction doses as [| [i' d'] doses IH]; intros acc;
    [reflexivity |].
  cbn [fold_left existsb fst snd]. rewrite IH, arm_mappings_get_emp.
  destruct (existsb _ doses); [now rewrite orb_true_r |].
  rewrite orb_false_r. reflexivity.
Qed.

Lemma heise2013a_mappings_EMP10 :
  In ("fm_uge_EMP10", Mappings.Heise2013a.mapping "EMP10" "KI__UGE" "uge")
     (Mappings.Heise2013a.fit_mappings Heise2013a.doses)
  /\ filter_control "fm_uge_EMP10"
       (as_FitMapping (Mappings.Heise2013a.mapping "EMP10" "KI__UGE" "uge"))
     = true.
Proof.
  assert (Hin : In ("fm_uge_EMP10",
                    Mappings.Heise2013a.mapping "EMP10" "KI__UGE" "uge")
                   (Mappings.Heise2013a.fit_mappings Heise2013a.doses)).
  { apply get_In. apply (fit_mappings_get_uge Heise2013a.doses "EMP10" []). }
  split; [exact Hin |].
  exact (proj1 (heise2013a_mappings Heise2013a.doses _ _ Hin)).
Defined.

(** X19: the fit mappings of Heise2013a by arm, for any dose table:
    the urinary glucose of arm [i] is mapped exactly when [i] is an arm
    of the table, and the plasma concentration of arm [i] is mapped
    exactly when the table gives [i] a dose other than zero, so a
    placebo arm has no mapping of the drug. *)
Theorem heise2013a_mappings_by_arm (doses : list (string * R))
    (i : string) :
  (In i (map fst doses) ->
   get (Mappings.Heise2013a.fit_mappings doses) ("fm_uge_" ++ i)
   = Some (Mappings.Heise2013a.mapping i "KI__UGE" "uge"))
  /\ (~ In i (map fst doses) ->
      get (Mappings.Heise2013a.fit_mappings doses) ("fm_uge_" ++ i) = None)
  /\ ((exists d, In (i, d) doses /\ d <> 0%R) ->
      get (Mappings.Heise2013a.fit_mappings doses)
          ("fm_empagliflozin_" ++ i)
      = Some (Mappings.Heise2013a.mapping i "[Cve_emp]" "empagliflozin"))
  /\ ((forall d, In (i, d) doses -> d = 0%R) ->
      get (Mappings.Heise2013a.fit_mappings doses)
          ("fm_empagliflozin_" ++ i) = None).
Proof.
  unfold Mappings.Heise2013a.fit_mappings.
  rewrite fit_mappings_get_uge, fit_mappings_get_emp. cbn [get].
  split; [| split; [| split]].
  - intros Hin. apply in_map_iff in Hin as ([i' d] & E & Hin).
    cbn in E. subst i'.
    assert (Hex : existsb (fun arm => String.eqb (fst arm) i) doses = true).
    { apply existsb_exists. exists (i, d). split; [exact Hin |].
      apply String.eqb_refl. }
    now rewrite Hex.
  - intros Hnot.
    destruct (existsb (fun arm => String.eqb (fst arm) i) doses) eqn:Hex;
      [| reflexivity].
    apply existsb_exists in Hex as ([i' d] & Hin & E).
    apply String.eqb_eq in E. cbn in E. subst i'.
    exfalso. apply Hnot. apply in_map_iff. now exists (i, d).
  - intros (d & Hin & Hd).
    assert (Hex : existsb (fun arm => String.eqb (fst arm) i
                                      && negb (is_zero (snd arm))) doses
                  = true).
    { apply existsb_exists. exists (i, d). split; [exact Hin |].
      cbn [fst snd]. rewrite String.eqb_refl. unfold is_zero.
      now destruct (Req_dec_T d 0). }
    now rewrite Hex.
  - intros Hall.
    destruct (existsb (fun arm => String.eqb (fst arm) i
                                  && negb (is_zero (snd arm))) doses)
      eqn:Hex; [| reflexivity].
    apply existsb_exists in Hex as ([i' d] & Hin & E).
    cbn [fst snd] in E. apply andb_true_iff in E as [E Hz].
    apply String.eqb_eq in E. subst i'.
    unfold is_zero in Hz. destruct (Req_dec_T d 0) as [Hd | Hd];
      [discriminate |].
    exfalso. apply Hd. now apply Hall.
Qed.

Lemma heise2013a_mappings_by_arm_placebo :
  In "Placebo" (map fst Heise2013a.doses)
  /\ get (Mappings.Heise2013a.fit_mappings Heise2013a.doses)
         "fm_uge_Placebo"
     = Some (Mappings.Heise2013a.mapping "Placebo" "KI__UGE" "uge")
  /\ get (Mappings.Heise2013a.fit_mappings Heise2013a.doses)
         "fm_empagliflozin_Placebo" = None.
Proof.
  assert (Hin : In "Placebo" (map fst Heise2013a.doses))
    by (cbn; auto).
  assert (Hall : forall d, In ("Placebo", d) Heise2013a.doses -> d = 0%R).
  { intros d H. cbn in H.
    destruct H as [[= <-] | [[=] | [[=] | [[=] | []]]]]. reflexivity. }
  split; [exact Hin |].
  destruct (heise2013a_mappings_by_arm Heise2013a.doses "Placebo")
    as (Huge & _ & _ & Hemp).
  split; [exact (Huge Hin) | exact (Hemp Hall)].
Defined.

Lemma simulations_loop_keys (items : list (string * R))
    (sims : list (string * TimecourseSim)) :
  Heise2013a.simulations_loop items [] = Some sims ->
  map fst sims = map fst items.
Proof.
  revert sims. induction items as [| [i d] items IH]; intros sims.
  - now intros [= <-].
  - cbn [Heise2013a.simulations_loop].
    destruct (Heise2013a.simulation i d) as [sim |]; [| discriminate].
    rewrite simulations_loop_app.
    destruct (Heise2013a.simulations_loop items []) as [sims' |];
      [| discriminate].
    intros [= <-]. cbn. now rewrite (IH sims' eq_refl).
Qed.

(** X20: the fit mappings of Heise2013a refer to tasks that exist:
    when the simulations can be built for a dose table, the task of
    the observable of every fit mapping is a key of [tasks()], and
    that task runs the simulation of an arm of the table. *)
Theorem heise2013a_mapping_tasks_exist (items : list (string * R))
    (sims : list (string * TimecourseSim)) (key : string)
    (fm : StudyMapping) :
  List.NoDup (map fst items) ->
  Heise2013a.simulations_loop items [] = Some sims ->
  In (key, fm) (Mappings.Heise2013a.fit_mappings items) ->
  exists t k,
    fd_task (sm_observable fm) = Some t
    /\ get (tasks sims) t = Some (mkTask "model" k)
    /\ In k (map fst sims) /\ In k (map fst items).
Proof.
  intros _ Hsims Hin. apply simulations_loop_keys in Hsims.
  apply fit_mappings_In in Hin as [[] | Hin].
  destruct Hin as (i & d & sid & name & Hi & _ & _ & [= -> ->]).
  assert (Hk : In i (map fst sims)).
  { rewrite Hsims. apply in_map_iff. now exists (i, d). }
  exists ("task_" ++ i), i.
  split; [reflexivity |]. split; [| split; [exact Hk | now rewrite <- Hsims]].
  unfold tasks. destruct sims as [| kv l]; [destruct Hk |].
  apply tasks_fold_get. left. exists i. auto.
Qed.

Lemma heise2013a_mapping_tasks_exist_EMP10 :
  exists sims t k,
    Heise2013a.simulations = Some sims
    /\ fd_task (sm_observable
                  (Mappings.Heise2013a.mapping "EMP10" "KI__UGE" "uge"))
       = Some t
    /\ get (tasks sims) t = Some (mkTask "model" k).
Proof.
  assert (Hnd : List.NoDup (map fst Heise2013a.doses))
    by (apply distinct_NoDup; reflexivity).
  assert (Hin : In ("fm_uge_EMP10",
                    Mappings.Heise2013a.mapping "EMP10" "KI__UGE" "uge")
                   (Mappings.Heise2013a.fit_mappings Heise2013a.doses)).
  { apply get_In. apply (fit_mappings_get_uge Heise2013a.doses "EMP10" []). }
  unfold Heise2013a.simulations.
  destruct (Heise2013a.simulations_loop Heise2013a.doses []) as [sims |]
    eqn:Hsims.
  - destruct (heise2013a_mapping_tasks_exist Heise2013a.doses sims _ _
                Hnd Hsims Hin) as (t & k & Ht & Hget & _).
    exists sims, t, k. split; [reflexivity | split; [exact Ht | exact Hget]].
  - exfalso. revert Hsims. unfold Heise2013a.doses.
    cbn [Heise2013a.simulations_loop]. unfold Heise2013a.simulation.
    cbn [getitem Heise2013a.bodyweights Heise2013a.fpgs String.eqb
         Ascii.eqb Bool.eqb]. discriminate.
Defined.

End Heise2013aProperties.

(** ** Macha2014f: renal impairment *)

Section Macha2014fProperties.
Import Fit Mappings.

Lemma macha2014f_group_In (sid name : string) (groups : list string)
    (acc : list (string * StudyMapping)) (kv : string * StudyMapping) :
  In kv (fold_left (fun mappings group =>
                      setitem mappings ("fm_" ++ name ++ "_" ++ group)
                              (Macha2014f.mapping group sid name))
                   groups acc) ->
  In kv acc
  \/ exists group, In group groups
                   /\ kv = ("fm_" ++ name ++ "_" ++ group,
                            Macha2014f.mapping group sid name).
Proof.
  revert acc. induction groups as [| g groups IH]; intros acc.
  - now left.
  - cbn [fold_left]. intros H. apply IH in H as [H | (g' & Hg & E)].
    + apply setitem_In in H as [-> | H]; [| now left].
      right. exists g. split; [now left | reflexivity].
    + right. exists g'. split; [now right | exact E].
Qed.

Lemma macha2014f_fit_mappings_In (groups : list string)
    (items : list (string * string))
    (acc : list (string * StudyMapping)) (kv : string * StudyMapping) :
  In kv (fold_left (fun mappings item =>
                      fold_left (fun mappings group =>
                                   setitem mappings
                                     ("fm_" ++ snd item ++ "_" ++ group)
                                     (Macha2014f.mapping group (fst item)
                                                         (snd item)))
                                groups mappings)
                   items acc) ->
  In kv acc
  \/ exists group sid name,
       In group groups /\ In (sid, name) items
       /\ kv = ("fm_" ++ name ++ "_" ++ group,
                Macha2014f.mapping group sid name).
Proof.
  revert acc. induction items as [| [sid name] items IH]; intros acc.
  - now left.
  - cbn [fold_left fst snd]. intros H.
    apply IH in H as [H | (g & sid' & name' & Hg & Hi & E)].
    + apply macha2014f_group_In in H as [H | (g & Hg & E)]; [now left |].
      right. exists g, sid, name. split; [exact Hg | split; [now left | exact E]].
    + right. exists g, sid', name'.
      split; [exact Hg | split; [now right | exact E]].
Qed.

(** X21: of the fit mappings of Macha2014f, for any list of groups,
    the control filter keeps exactly those of the group ["normal"]:
    the other groups are marked as renal impairment.  Every mapping
    compares with the task of one of the groups, and reads plasma
    exactly for the observable ["[Cve_emp]"]. *)
Theorem macha2014f_control_is_normal_group (groups : list string)
    (key : string) (fm : StudyMapping) :
  In (key, fm) (Macha2014f.fit_mappings groups) ->
  (exists group, In group groups
                 /\ fd_task (sm_observable fm) = Some ("task_" ++ group))
  /\ (filter_control key (as_FitMapping fm) = true
      <-> fd_task (sm_observable fm) = Some "task_normal")
  /\ (tissue (sm_metadata fm) = PLASMA
      <-> fd_yid (sm_observable fm) = "[Cve_emp]").
Proof.
  intros H. apply macha2014f_fit_mappings_In in H as [[] | H].
  destruct H as (g & sid & name & Hg & Hinfo & [= -> ->]).
  split; [exists g; split; [exact Hg | reflexivity] |].
  split.
  - cbn [Macha2014f.mapping sm_observable fd_task].
    transitivity (g = "normal").
    + destruct (String.eqb_spec g "normal") as [-> | Hne].
      * destruct Hinfo as [[= <- <-] | [[= <- <-] | [[= <- <-] | []]]];
          split; reflexivity.
      * unfold filter_control, as_FitMapping, Macha2014f.mapping.
        cbn [metadata sm_metadata].
        apply String.eqb_neq in Hne. rewrite Hne.
        split; [| intros E; apply String.eqb_neq in Hne; contradiction].
        destruct Hinfo as [[= <- <-] | [[= <- <-] | [[= <- <-] | []]]];
          cbn; discriminate.
    + split; [now intros -> |].
      intros [= E]. exact E.
  - destruct Hinfo as [[= <- <-] | [[= <- <-] | [[= <- <-] | []]]];
      cbn; split; (reflexivity || discriminate).
Qed.

Lemma macha2014f_control_is_normal_group_severe :
  In ("fm_uge_severe", Macha2014f.mapping "severe" "KI__UGE" "uge")
     (Macha2014f.fit_mappings Macha2014f.groups)
  /\ filter_control "fm_uge_severe"
       (as_FitMapping (Macha2014f.mapping "severe" "KI__UGE" "uge"))
     <> true.
Proof.
  assert (Hin : In ("fm_uge_severe",
                    Macha2014f.mapping "severe" "KI__UGE" "uge")
                   (Macha2014f.fit_mappings Macha2014f.groups)).
  { apply get_In. reflexivity. }
  split; [exact Hin |].
  intros Hc.
  apply (proj1 (proj2 (macha2014f_control_is_normal_group
                         Macha2014f.groups _ _ Hin))) in Hc.
  discriminate Hc.
Defined.

End Macha2014fProperties.

(** ** Pharmacokinetic frames of an experiment *)

Section ExperimentPKProperties.
Import Experiment PK Mappings ExperimentPK.

Variable TimecoursePK :
  list R -> list R -> string -> R -> R -> gmap string cell.

Lemma pk_loop_None (results : gmap string XResult) (keys : list string)
    (acc : gmap string (list (gmap string cell))) :
  pk_loop TimecoursePK results keys acc = None
  <-> exists k, In k keys
                /\ results !! ("task_" ++ k)
                     ≫= calculate_empagliflozin_pk TimecoursePK = None.
Proof.
  revert acc. induction keys as [| a keys IH]; intros acc.
  - cbn. split; [discriminate | intros (k & [] & _)].
  - cbn [pk_loop].
    destruct (results !! ("task_" ++ a)) as [xres |] eqn:Hres.
    + destruct (calculate_empagliflozin_pk TimecoursePK xres) as [df |]
        eqn:Hdf.
      * rewrite IH. split.
        -- intros (k & Hk & H). exists k. split; [now right | exact H].
        -- intros (k & [<- | Hk] & H).
           ++ rewrite Hres in H. cbn in H. congruence.
           ++ now exists k.
      * split; [| reflexivity]. intros _. exists a.
        split; [now left |]. now rewrite Hres.
    + split; [| reflexivity]. intros _. exists a.
      split; [now left |]. now rewrite Hres.
Qed.

Lemma pk_loop_Some (results : gmap string XResult) (keys : list string)
    (acc dfs : gmap string (list (gmap string cell))) (k : string) :
  pk_loop TimecoursePK results keys acc = Some dfs ->
  dfs !! k
  = if bool_decide (k ∈ keys)
    then results !! ("task_" ++ k)
           ≫= calculate_empagliflozin_pk TimecoursePK
    else acc !! k.
Proof.
  revert acc. induction keys as [| a keys IH]; intros acc.
  - cbn. intros [= <-].
    now rewrite bool_decide_eq_false_2 by apply not_elem_of_nil.
  - cbn [pk_loop].
    destruct (results !! ("task_" ++ a)) as [xres |] eqn:Hres;
      [| discriminate].
    destruct (calculate_empagliflozin_pk TimecoursePK xres) as [df |]
      eqn:Hdf; [| discriminate].
    intros H. rewrite (IH _ H).
    destruct (bool_decide (k ∈ keys)) eqn:Hk.
    + apply bool_decide_eq_true in Hk.
      now rewrite bool_decide_eq_true_2 by (apply elem_of_cons; now right).
    + apply bool_decide_eq_false in Hk.
      destruct (string_dec a k) as [-> | Hne].
      * rewrite bool_decide_eq_true_2 by (apply elem_of_cons; now left).
        rewrite lookup_insert_eq, Hres. exact (eq_sym Hdf).
      * rewrite bool_decide_eq_false_2
          by (rewrite elem_of_cons; intros [E | E]; [congruence | tauto]).
        now rewrite lookup_insert_ne.
Qed.

(** X22: the method [calculate_empagliflozin_pk] of an experiment.
    An empty list of scans, the default, selects every simulation and
    not none.  The method fails exactly when the result of the task
    ["task_" + key] of a selected key is missing or has no scanned
    dimension or no dose, and otherwise returns, under the selected
    keys and no other, the frames of those results. *)
Theorem experiment_pk_frames (results : gmap string XResult)
    (simulation_keys scans : list string) :
  let selected := match scans with
                  | [] => simulation_keys
                  | _ :: _ => scans
                  end in
  (experiment_pk TimecoursePK results simulation_keys scans = None
   <-> exists k, In k selected
                 /\ results !! ("task_" ++ k)
                      ≫= calculate_empagliflozin_pk TimecoursePK = None)
  /\ forall dfs,
       experiment_pk TimecoursePK results simulation_keys scans = Some dfs ->
       forall k,
         dfs !! k
         = if bool_decide (k ∈ selected)
           then results !! ("task_" ++ k)
                  ≫= calculate_empagliflozin_pk TimecoursePK
           else None.
Proof.
  intros selected.
  assert (E : experiment_pk TimecoursePK results simulation_keys scans
              = pk_loop TimecoursePK results selected ∅)
    by (unfold experiment_pk, selected; now destruct scans).
  rewrite E. split; [apply pk_loop_None |].
  intros dfs H k. rewrite (pk_loop_Some _ _ _ _ k H).
  now rewrite lookup_empty.
Qed.

End ExperimentPKProperties.

Lemma experiment_pk_frames_missing_result :
  (exists k, In k ["scan_po_dose"]
             /\ (∅ : gmap string PK.XResult) !! ("task_" ++ k)
                  ≫= PK.calculate_empagliflozin_pk Inputs.dose_only = None)
  /\ ExperimentPK.experiment_pk Inputs.dose_only ∅ ["scan_po_dose"] []
     = None.
Proof.
  assert (H : exists k, In k ["scan_po_dose"]
                /\ (∅ : gmap string PK.XResult) !! ("task_" ++ k)
                     ≫= PK.calculate_empagliflozin_pk Inputs.dose_only
                   = None).
  { exists "scan_po_dose". split; [now left |].
    now rewrite lookup_empty. }
  split; [exact H |].
  exact (proj2 (proj1 (experiment_pk_frames Inputs.dose_only ∅
                         ["scan_po_dose"] [])) H).
Defined.

(** ** Unit conversion of the pharmacokinetic rows *)

Section ConversionProperties.
Import Experiment PK Mappings ExperimentPK.

Variable TimecoursePK :
  list R -> list R -> string -> R -> R -> gmap string cell.
Variable to : Quantity -> string -> option Quantity.
Variable times : Quantity -> Quantity -> Quantity.

Lemma pk_row_substance (xres : XResult) (k_dose : nat) (dose_mmole : R)
    (k_sid : nat) (sid : string) :
  pk_row TimecoursePK xres k_dose dose_mmole k_sid sid !! "substance"
  = Some (Text (nth k_sid substances "")).
Proof. unfold pk_row. apply lookup_insert_eq. Qed.

(** X23: every row of the frame of [calculate_empagliflozin_pk]
    carries one of the three substance tags, and the converter of the
    parameter scan knows a molar mass for it: for a parameter of
    [pk_units] the conversion of a value of such a row is the direct
    conversion when that succeeds, otherwise the conversion of the
    value times the molar mass, the mass of the glucuronide for the
    tag of the glucuronide and that of empagliflozin for the other
    two, and it never fails for want of a molar mass or a unit. *)
Theorem pk_rows_have_molar_mass (xres : XResult)
    (rows : list (gmap string cell)) (row : gmap string cell) :
  calculate_empagliflozin_pk TimecoursePK xres = Some rows ->
  In row rows ->
  exists s M,
    row !! "substance" = Some (Text s)
    /\ In s substances
    /\ _molar_mass_for_substance (Some s) = Some M
    /\ M = (if String.eqb s "empagliflozin-glucuronide"
            then Mr_eg else Mr_emp)
    /\ forall y pk_key,
         In pk_key (map fst pk_units) ->
         exists target,
           get pk_units pk_key = Some target
           /\ _convert_pk_quantity to times y pk_key (Some s)
              = match to y target with
                | Some q => Converted q
                | None =>
                    match to (times y M) target with
                    | Some q => Converted q
                    | None => DimensionalityError
                    end
                end.
Proof.
  unfold calculate_empagliflozin_pk.
  destruct (_redop_dims xres) as [| scandim dims]; [discriminate |].
  destruct (values xres "PODOSE_emp") as [| dose_vec rest];
    [discriminate |].
  intros [= <-] Hin.
  apply in_concat in Hin as (block & Hblock & Hrow).
  apply list_elem_of_In, elem_of_lookup_imap in Hblock
    as (k_dose & dose & -> & _).
  unfold pk_rows_of_dose in Hrow. cbn [imap substance_ids] in Hrow.
  assert (Hcases :
    forall k_sid s M,
      nth k_sid substances "" = s ->
      In s substances ->
      _molar_mass_for_substance (Some s) = Some M ->
      M = (if String.eqb s "empagliflozin-glucuronide"
           then Mr_eg else Mr_emp) ->
      forall sid dm,
        row = pk_row TimecoursePK xres k_dose dm k_sid sid ->
        exists s M,
          row !! "substance" = Some (Text s)
          /\ In s substances
          /\ _molar_mass_for_substance (Some s) = Some M
          /\ M = (if String.eqb s "empagliflozin-glucuronide"
                  then Mr_eg else Mr_emp)
          /\ forall y pk_key,
               In pk_key (map fst pk_units) ->
               exists target,
                 get pk_units pk_key = Some target
                 /\ _convert_pk_quantity to times y pk_key (Some s)
                    = match to y target with
                      | Some q => Converted q
                      | None =>
                          match to (times y M) target with
                          | Some q => Converted q
                          | None => DimensionalityError
                          end
                      end).
  { intros k_sid s M Hs Hsin HM HMr sid dm ->.
    exists s, M. rewrite pk_row_substance, Hs.
    split; [reflexivity |]. split; [exact Hsin |].
    split; [exact HM |]. split; [exact HMr |].
    intros y pk_key Hkey.
    assert (Hget : exists target, get pk_units pk_key = Some target).
    { cbn in Hkey.
      repeat (destruct Hkey as [<- | Hkey]; [eexists; reflexivity |]).
      destruct Hkey. }
    destruct Hget as [target Hget]. exists target.
    split; [exact Hget |].
    unfold _convert_pk_quantity. rewrite Hget, HM. reflexivity. }
  destruct Hrow as [<- | [<- | [<- | []]]].
  - eapply (Hcases 0%nat "empagliflozin" Mr_emp); try reflexivity.
    cbn; auto.
  - eapply (Hcases 1%nat "empagliflozin-glucuronide" Mr_eg);
      try reflexivity.
    cbn; auto.
  - eapply (Hcases 2%nat "total empagliflozin" Mr_emp); try reflexivity.
    cbn; auto.
Qed.

End ConversionProperties.

Lemma pk_rows_have_molar_mass_dose_scan :
  exists rows row s M,
    PK.calculate_empagliflozin_pk Inputs.dose_only Inputs.dose_scan
    = Some rows
    /\ In row rows
    /\ row !! "substance" = Some (PK.Text s)
    /\ ExperimentPK._molar_mass_for_substance (Some s) = Some M.
Proof.
  pose (rows := concat (imap (PK.pk_rows_of_dose Inputs.dose_only
                                Inputs.dose_scan) [10; 25]%R)).
  pose (row := PK.pk_row Inputs.dose_only Inputs.dose_scan 0
                 (10 / Experiment.magnitude Experiment.Mr_emp)%R
                 0 "emp").
  assert (Hrows : PK.calculate_empagliflozin_pk Inputs.dose_only
                    Inputs.dose_scan = Some rows) by reflexivity.
  assert (Hin : In row rows) by (left; reflexivity).
  destruct (pk_rows_have_molar_mass Inputs.dose_only
              (fun _ _ => None) (fun y _ => y)
              Inputs.dose_scan rows row Hrows Hin)
    as (s & M & Hs & _ & HM & _).
  exists rows, row, s, M.
  split; [exact Hrows | split; [exact Hin | split; [exact Hs | exact HM]]].
Defined.

(** ** Selection of the experiments to run *)

Section SelectionProperties.
Import Mappings Simulations.

(** X24: what [run_simulation_experiments] runs.  A list of
    experiment classes, even an empty one, takes precedence over
    [selected]; without it a group name that is no key of the table
    runs nothing, as do the empty name and no name; an output
    directory that is given is used, otherwise the directory is named
    after the group or ["custom_selection"].  With the table
    [EXPERIMENTS] every experiment of a group other than ["scan"] is
    also run by [selected="all"], which leaves out the parameter
    scan. *)
Theorem selection_of_experiments (table : list (string * list string))
    (selected : option string) (experiment_classes : option (list string))
    (output_dir : option Path) :
  EXPERIMENTS = Some table ->
  (forall experiments_to_run dir,
     run_simulation_experiments table selected experiment_classes
                                output_dir
     = Run experiments_to_run dir ->
     (exists name,
        dir = default (RESULTS_PATH_SIMULATION ++ [name])%list output_dir
        /\ (experiment_classes = Some experiments_to_run
            /\ name = "custom_selection"
            \/ experiment_classes = None /\ selected = Some name
               /\ name <> ""
               /\ get table name = Some experiments_to_run))
     /\ (experiment_classes = None -> selected <> Some "scan" ->
         exists all dir',
           run_simulation_experiments table (Some "all") None output_dir
           = Run all dir'
           /\ incl experiments_to_run all
           /\ ~ In "EmpagliflozinParameterScan" all))
  /\ (run_simulation_experiments table selected experiment_classes
                                 output_dir = NoExperiments
      <-> experiment_classes = None
          /\ (selected = None \/ selected = Some ""))
  /\ (forall name,
        run_simulation_experiments table selected experiment_classes
                                   output_dir = UnknownGroup name
        <-> experiment_classes = None /\ selected = Some name
            /\ name <> "" /\ get table name = None).
Proof.
  intros [= <-]. split; [| split].
  - intros es dir Hrun.
    destruct experiment_classes as [classes |].
    + cbn in Hrun. injection Hrun as <- <-. split.
      * exists "custom_selection". split; [reflexivity |]. now left.
      * discriminate.
    + destruct selected as [[| c sel] |]; try discriminate.
      cbn [run_simulation_experiments] in Hrun.
      destruct (get _ (String c sel)) as [es' |] eqn:Hget;
        [| discriminate].
      injection Hrun as <- <-. split.
      * exists (String c sel). split; [reflexivity |]. right.
        repeat split; [discriminate | exact Hget].
      * intros _ Hscan. eexists _, _. split; [reflexivity |].
        split.
        -- assert (Hall : forallb
                   (fun kv =>
                      String.eqb (fst kv) "scan"
                      || forallb (fun e =>
                                    existsb (String.eqb e)
                                      (studies ++ ["DoseDependencyExperiment"])%list)
                                 (snd kv))
                   (setitem EXPERIMENTS_literal "all"
                      (studies ++ ["DoseDependencyExperiment"])%list) = true)
             by reflexivity.
           rewrite forallb_forall in Hall.
           apply get_In in Hget. specialize (Hall _ Hget).
           cbn [fst snd] in Hall. apply orb_true_iff in Hall as [Hs | Hs].
           ++ apply String.eqb_eq in Hs. exfalso. apply Hscan.
              now rewrite Hs.
           ++ rewrite forallb_forall in Hs. intros e He.
              specialize (Hs e He). apply existsb_exists in Hs
                as (e' & He' & E).
              apply String.eqb_eq in E. now subst e'.
        -- cbn. intuition discriminate.
  - destruct experiment_classes as [classes |].
    + cbn. split; [discriminate | intros [[=] _]].
    + destruct selected as [[| c sel] |]; cbn [run_simulation_experiments].
      * split; auto.
      * destruct (get _ (String c sel)); split; try discriminate;
          intros [_ [[=] | [=]]].
      * split; auto.
  - intros name. destruct experiment_classes as [classes |].
    + cbn. split; [discriminate | intros [[=] _]].
    + destruct selected as [[| c sel] |]; cbn [run_simulation_experiments].
      * split; [discriminate |].
        intros (_ & [= <-] & H & _). now exfalso.
      * destruct (get _ (String c sel)) eqn:Hget; split; try discriminate.
        -- intros (_ & [= <-] & _ & H). congruence.
        -- intros [= <-]. repeat split; [discriminate | exact Hget].
        -- intros (_ & [= <-] & _). reflexivity.
      * split; [discriminate | intros (_ & [=] & _)].
Qed.

End SelectionProperties.

Lemma selection_of_experiments_renal :
  exists table,
    Simulations.EXPERIMENTS = Some table
    /\ Simulations.run_simulation_experiments table
         (Some "renal_impairment") None None
       = Simulations.Run ["Macha2014f"; "Sarashina2014"]
           ["results"; "simulation"; "renal_impairment"]
    /\ exists all dir',
         Simulations.run_simulation_experiments table (Some "all") None None
         = Simulations.Run all dir'
         /\ incl ["Macha2014f"; "Sarashina2014"] all.
Proof.
  pose (table := Mappings.setitem Simulations.EXPERIMENTS_literal "all"
                   (Simulations.studies ++ ["DoseDependencyExperiment"])%list).
  assert (HE : Simulations.EXPERIMENTS = Some table) by reflexivity.
  assert (Hrun : Simulations.run_simulation_experiments table
                   (Some "renal_impairment") None None
                 = Simulations.Run ["Macha2014f"; "Sarashina2014"]
                     ["results"; "simulation"; "renal_impairment"])
    by reflexivity.
  assert (Hsel : Some "renal_impairment" <> Some "scan") by discriminate.
  exists table. split; [exact HE | split; [exact Hrun |]].
  destruct (proj2 (proj1 (selection_of_experiments table
                            (Some "renal_impairment") None None HE)
                         _ _ Hrun) eq_refl Hsel)
    as (all & dir' & Hall & Hincl & _).
  exists all, dir'. split; [exact Hall | exact Hincl].
Defined.

(** ** Fit parameters and default changes *)

Section FitParameterProperties.
Import Experiment FitParameters.

(** X25: the fit parameters and the default changes agree: every fit
    parameter has a positive lower bound, a start value within its
    bounds and a default change in its unit with a magnitude within
    the bounds, and every default change is the value of a fit
    parameter. *)
Theorem fit_parameters_and_defaults (k : string) :
  (forall p, In p parameters_pk_pd ->
     (0 < lower_bound p <= start_value p)%R
     /\ (start_value p <= upper_bound p)%R
     /\ exists q,
          default_changes !! pid p = Some q
          /\ units q = unit p
          /\ (lower_bound p <= magnitude q <= upper_bound p)%R)
  /\ (default_changes !! k <> None
      <-> In k (map pid parameters_pk_pd)).
Proof.
  split.
  - intros p Hp. unfold default_changes, _default_changes.
    unfold parameters_pk_pd, parameters_pk, parameters_pd in Hp.
    cbn [app In] in Hp.
    repeat (destruct Hp as [<- | Hp];
            [rewrite dict_literal_lookup;
             cbn -[Z.pow_pos Q2R IZR];
             (split; [lra | split; [lra |]]);
             eexists; split; [reflexivity |];
             cbn -[Z.pow_pos Q2R IZR]; split; [reflexivity | lra] |]).
    destruct Hp.
  - unfold default_changes, _default_changes.
    rewrite dict_literal_lookup, lookup_empty. cbn [fold_left fst snd].
    split.
    + repeat match goal with
             | |- context [String.eqb ?a k] =>
                 destruct (String.eqb_spec a k) as [<- | _];
                 [intros _; cbn; auto 20 |]
             end.
      intros H. exfalso. now apply H.
    + intros H. cbn in H.
      repeat (destruct H as [<- | H]; [cbn; discriminate |]).
      destruct H.
Qed.

End FitParameterProperties.

Lemma fit_parameters_and_defaults_RTG_E50 :
  In (FitParameters.mkFitParameter "KI__RTG_E50" 0.1E-07 2.5e-06 (50 - 6)
                                   "mM")
     FitParameters.parameters_pk_pd
  /\ exists q,
       Experiment.default_changes !! "KI__RTG_E50" = Some q
       /\ (0.1E-07 <= Experiment.magnitude q <= 50 - 6)%R.
Proof.
  assert (Hin : In (FitParameters.mkFitParameter "KI__RTG_E50" 0.1E-07
                      2.5e-06 (50 - 6) "mM")
                   FitParameters.parameters_pk_pd)
    by (cbn; auto 20).
  split; [exact Hin |].
  destruct (proj1 (fit_parameters_and_defaults "") _ Hin)
    as (_ & _ & q & Hq & _ & Hb).
  exists q. split; [exact Hq | exact Hb].
Defined.
